(** * Smart Todo List browser client: cache synchronisation, API client and
      form handlers, embedded from the TypeScript sources.

    Layout of the development:
    - [Js]            the dynamic values that reach the client from the backend
                      (JSON bodies) and the few JavaScript operations the code
                      applies to them (truthiness, property access, [flat],
                      [Object.values], [String(v)]);
    - [Types]         the records of [src/types] ([Task], [Category], ...);
    - [QueryCore]     the part of the query-cache library the hooks rely on
                      ([setQueryData], [invalidateQueries], [removeQueries],
                      the retry decision);
    - [Api]           the axios instance, its request interceptor and every
                      method of [lib/api.ts], as computations over an explicit
                      world (local storage, network log);
    - [Utils]         [getErrorMessage];
    - [TaskHooks], [CategoryHooks]   the callbacks of the mutation hooks;
    - [QueryProvider] the default options of the query client;
    - [SignupPage], [TaskCard]       the view handlers;
    - [Matrix] and the vocabulary section: the words of the specification;
    - the properties, and concrete runs of them.

    Numbers are modelled as [Z]: identifiers, HTTP status codes, failure
    counts and timestamps are integers; fractional scores are never
    inspected by the code modelled here. *)

From Stdlib Require Import ZArith String Ascii.
From stdpp Require Import gmap strings list fin_maps pretty.

Set Warnings "-register-all".

Local Open Scope string_scope.
Local Open Scope Z_scope.
Local Open Scope list_scope.

(* ====================================================================== *)
(** ** JavaScript values                                                   *)
(* ====================================================================== *)

Module Js.

(** A parsed response body or any other dynamically typed value.  The
    field list of [JObj] is in own-property enumeration order; a
    well-formed object has pairwise distinct keys. *)
Inductive JsValue : Type :=
| JUndefined
| JNull
| JBool (b : bool)
| JNum (n : Z)
| JStr (s : string)
| JArr (items : list JsValue)
| JObj (fields : list (string * JsValue)).

(** An [Error] object as thrown by axios (or a [TypeError], which has no
    [response]). *)
Record AxiosResponse : Type := mkResponse {
  status : Z;
  data : JsValue
}.

Record JsError : Type := mkError {
  message : string;
  response : option AxiosResponse
}.

(** Result of a computation that may throw. *)
Inductive Outcome (A : Type) : Type :=
| Ok (a : A)
| Thrown (e : JsError).
Arguments Ok {A} a.
Arguments Thrown {A} e.

Definition typeError (msg : string) : JsError :=
  {| message := msg; response := None |}.

(** [ToBoolean] of a string: only the empty string is falsy. *)
Definition truthy_string (s : string) : bool := negb (String.eqb s "").

(** [ToBoolean]. *)
Definition truthy (v : JsValue) : bool :=
  match v with
  | JUndefined | JNull => false
  | JBool b => b
  | JNum n => negb (n =? 0)
  | JStr s => truthy_string s
  | JArr _ | JObj _ => true
  end.

(** [typeof v === "string"]. *)
Definition is_string (v : JsValue) : bool :=
  match v with JStr _ => true | _ => false end.

(** [Array.isArray(v)]. *)
Definition is_array (v : JsValue) : bool :=
  match v with JArr _ => true | _ => false end.

Fixpoint assoc (k : string) (fields : list (string * JsValue)) : JsValue :=
  match fields with
  | [] => JUndefined
  | (k', v) :: rest => if String.eqb k k' then v else assoc k rest
  end.

(** [v?.k] for a property name [k] that is neither an array index nor a
    built-in member ([response], [data], [status], [message], [detail],
    [results], [access], [refresh], [id]): nullish receivers give
    [undefined], primitives and arrays have no such property. *)
Definition opt_prop (v : JsValue) (k : string) : JsValue :=
  match v with
  | JObj fields => assoc k fields
  | _ => JUndefined
  end.

(** [v.k] for the same property names, and the destructuring
    [const { k } = v]: a [TypeError] on a nullish receiver. *)
Definition prop (v : JsValue) (k : string) : Outcome JsValue :=
  match v with
  | JUndefined =>
      Thrown (typeError ("Cannot read properties of undefined (reading '" +:+ k +:+ "')"))
  | JNull =>
      Thrown (typeError ("Cannot read properties of null (reading '" +:+ k +:+ "')"))
  | _ => Ok (opt_prop v k)
  end.

(** [Object.values(v)] for a value that is not nullish. *)
Definition object_values (v : JsValue) : list JsValue :=
  match v with
  | JObj fields => map snd fields
  | JArr items => items
  | JStr s => map (fun c => JStr (String c EmptyString)) (String.list_ascii_of_string s)
  | _ => []
  end.

(** [xs.flat()]: one level of flattening. *)
Definition flat (xs : list JsValue) : list JsValue :=
  concat (map (fun x => match x with JArr ys => ys | _ => [x] end) xs).

Definition join (sep : string) (parts : list string) : string :=
  match parts with
  | [] => ""
  | p :: ps => fold_left (fun acc q => acc +:+ sep +:+ q) ps p
  end.

(** [String(v)], the conversion [localStorage.setItem] applies to its
    value argument. *)
Fixpoint to_string (v : JsValue) : string :=
  match v with
  | JUndefined => "undefined"
  | JNull => "null"
  | JBool true => "true"
  | JBool false => "false"
  | JNum n => pretty n
  | JStr s => s
  | JArr items =>
      join "," (map (fun x => match x with
                              | JUndefined | JNull => ""
                              | _ => to_string x
                              end) items)
  | JObj _ => "[object Object]"
  end.

(** Template-literal interpolation of a number, [`${id}`]. *)
Definition num_to_string (n : Z) : string := pretty n.

End Js.
Export Js.

(* ====================================================================== *)
(** ** Entities ([src/types])                                              *)
(* ====================================================================== *)

Module Types.

Inductive Priority : Type := low | medium | high | urgent.

Record Category : Type := mkCategory {
  cat_id : Z;
  cat_name : string;
  color_code : string;
  cat_description : option string;
  usage_count : Z;
  cat_created_at : string
}.

Record Task : Type := mkTask {
  id : Z;
  title : string;
  description : string;
  ai_enhanced_description : option string;
  priority : Priority;
  priority_score : option Z;
  due_date : option string;
  ai_suggested_deadline : option string;
  is_completed : bool;
  category : option Category;
  context_relevance_score : option Z;
  created_at : string;
  updated_at : string;
  completed_at : option string
}.

Record CreateTaskRequest : Type := mkCreateTask {
  ct_title : string;
  ct_description : string;
  ct_priority : Priority;
  ct_due_date : option string;
  ct_category_id : option Z;
  ct_enhance_with_ai : option bool
}.

Record UpdateTaskRequest : Type := mkUpdateTask {
  ut_title : option string;
  ut_description : option string;
  ut_priority : option Priority;
  ut_due_date : option string;
  ut_category_id : option Z;
  ut_is_completed : option bool
}.

(** The filter object of [useTasks] / [tasksApi.getTasks]. *)
Record TaskFilters : Type := mkFilters {
  f_completed : option bool;
  f_priority : option string;
  f_category : option Z;
  f_search : option string;
  f_ordering : option string
}.

#[export] Instance Priority_eq_dec : EqDecision Priority.
Proof. solve_decision. Defined.
#[export] Instance Category_eq_dec : EqDecision Category.
Proof. solve_decision. Defined.
#[export] Instance Task_eq_dec : EqDecision Task.
Proof. solve_decision. Defined.
#[export] Instance TaskFilters_eq_dec : EqDecision TaskFilters.
Proof. solve_decision. Defined.

End Types.
Export Types.

(* ====================================================================== *)
(** ** The query cache (the part of the caching library the hooks use)     *)
(* ====================================================================== *)

Module QueryCore.

(** One element of a query key: the hooks build keys from string
    literals, numeric identifiers and the (possibly undefined) filter
    object of [useTasks]. *)
Inductive KeyPart : Type :=
| KStr (s : string)
| KNum (n : Z)
| KFilters (f : TaskFilters)
| KUndefined.

#[export] Instance KeyPart_eq_dec : EqDecision KeyPart.
Proof. solve_decision. Defined.

#[export] Instance TaskFilters_countable : Countable TaskFilters :=
  inj_countable'
    (fun f => (f_completed f, f_priority f, f_category f, f_search f, f_ordering f))
    (fun '(a, b, c, d, e) => mkFilters a b c d e)
    (fun f => match f with mkFilters _ _ _ _ _ => eq_refl end).

Definition KeyPart_encode (p : KeyPart) : string + Z + TaskFilters + unit :=
  match p with
  | KStr s => inl (inl (inl s))
  | KNum n => inl (inl (inr n))
  | KFilters f => inl (inr f)
  | KUndefined => inr tt
  end.

Definition KeyPart_decode (x : string + Z + TaskFilters + unit) : KeyPart :=
  match x with
  | inl (inl (inl s)) => KStr s
  | inl (inl (inr n)) => KNum n
  | inl (inr f) => KFilters f
  | inr _ => KUndefined
  end.

#[export] Instance KeyPart_countable : Countable KeyPart :=
  inj_countable' KeyPart_encode KeyPart_decode
    (fun p => match p with
              | KStr _ | KNum _ | KFilters _ | KUndefined => eq_refl
              end).

Abbreviation QueryKey := (list KeyPart).

(** What a query holds.  [DOpaque] stands for the payloads no handler
    inspects (pages of tasks, statistics, task arrays). *)
Inductive CacheData : Type :=
| DTask (t : Task)
| DCategory (c : Category)
| DCategories (cs : list Category)
| DOpaque (tag : string).

Record QueryState : Type := mkQuery {
  state_data : option CacheData;
  dataUpdatedAt : Z;
  isInvalidated : bool
}.

Abbreviation QueryCache := (gmap (list KeyPart) QueryState).

(** [partialMatchKey(a, b)]: the filter key [b] matches the query key [a]
    when [b] is a prefix of [a].  Key parts are compared by equality,
    which is what the library's deep partial match amounts to for the
    string and number parts the handlers pass as filters.  (An object
    part of a filter key is matched by the library as a subset of the
    object in the query key; no filter key in this code has one, and
    nothing below applies the function to such a filter key.) *)
Fixpoint partialMatchKey (a b : QueryKey) {struct b} : bool :=
  match b, a with
  | [], _ => true
  | _ :: _, [] => false
  | y :: b', x :: a' => bool_decide (x = y) && partialMatchKey a' b'
  end.

(** [query.invalidate()]. *)
Definition invalidate (q : QueryState) : QueryState :=
  {| state_data := state_data q;
     dataUpdatedAt := dataUpdatedAt q;
     isInvalidated := true |}.

(** The synchronous effect of [queryClient.invalidateQueries({ queryKey })]
    on the cache: every matching query is marked invalidated.  (The
    refetch of the queries that are mounted is asynchronous and goes
    through the ordinary read path.) *)
Definition invalidateQueries (queryKey : QueryKey) (cache : QueryCache) : QueryCache :=
  map_imap (fun k q => Some (if partialMatchKey k queryKey then invalidate q else q)) cache.

(** [queryClient.removeQueries({ queryKey })]. *)
Definition removeQueries (queryKey : QueryKey) (cache : QueryCache) : QueryCache :=
  filter (fun kq => partialMatchKey kq.1 queryKey = false) cache.

(** [queryClient.setQueryData(queryKey, updater)] with a functional
    updater: the updater sees the current data; an [undefined] result
    writes nothing; otherwise the query is created if needed and receives
    the data, the current time and a cleared invalidation flag.  An
    exception of the updater propagates. *)
Definition setQueryDataWith (queryKey : QueryKey)
    (updater : option CacheData -> Outcome (option CacheData))
    (now : Z) (cache : QueryCache) : Outcome QueryCache :=
  match updater (cache !! queryKey ≫= state_data) with
  | Thrown e => Thrown e
  | Ok None => Ok cache
  | Ok (Some d) =>
      Ok (<[queryKey := {| state_data := Some d;
                           dataUpdatedAt := now;
                           isInvalidated := false |}]> cache)
  end.

(** [queryClient.setQueryData(queryKey, value)] with a defined value. *)
Definition setQueryData (queryKey : QueryKey) (d : CacheData)
    (now : Z) (cache : QueryCache) : QueryCache :=
  <[queryKey := {| state_data := Some d;
                   dataUpdatedAt := now;
                   isInvalidated := false |}]> cache.

(** A query is served from the cache without a request only while it has
    data, is not invalidated and is younger than its freshness window. *)
Definition isStaleByTime (q : QueryState) (staleTime now : Z) : bool :=
  match state_data q with
  | None => true
  | Some _ => isInvalidated q || (dataUpdatedAt q + staleTime <=? now)
  end.

(** The [retry] option of queries and mutations. *)
Inductive RetryOption : Type :=
| RetryBool (b : bool)
| RetryCount (n : Z)
| RetryFn (f : Z -> JsError -> bool).

(** The retryer's decision after the [failureCount]-th failure. *)
Definition shouldRetry (retry : RetryOption) (failureCount : Z) (error : JsError) : bool :=
  match retry with
  | RetryBool b => b
  | RetryCount n => failureCount <? n
  | RetryFn f => f failureCount error
  end.

Inductive Toast : Type :=
| ToastSuccess (msg : string)
| ToastError (msg : JsValue).

(** What the [onSuccess] / [onError] callbacks of the hooks act on. *)
Record ClientState : Type := mkClient {
  queries : QueryCache;
  toasts : list Toast
}.

Definition toast (t : Toast) (st : ClientState) : ClientState :=
  {| queries := queries st; toasts := toasts st ++ [t] |}.

Definition onCache (f : QueryCache -> QueryCache) (st : ClientState) : ClientState :=
  {| queries := f (queries st); toasts := toasts st |}.

End QueryCore.
Export QueryCore.


(* ====================================================================== *)
(** ** [lib/api.ts]                                                        *)
(* ====================================================================== *)

Module Api.

Inductive HttpMethod : Type := GET | POST | PATCH | DELETE.

(** An axios request configuration.  [req_params] lists the query
    parameters that are defined; [req_body] is [JUndefined] when the call
    passes no body. *)
Record Request : Type := mkRequest {
  req_method : HttpMethod;
  req_baseURL : string;
  req_url : string;
  req_params : list (string * JsValue);
  req_body : JsValue;
  req_headers : gmap string string
}.

(** What the transport gives back for one request. *)
Inductive HttpResult : Type :=
| Responded (status : Z) (body : JsValue)
| NetworkFailure.

(** The ambient state the client reads and writes: browser local storage
    and the requests that went out, in order. *)
Record World : Type := mkWorld {
  localStorage : gmap string string;
  network : list Request
}.

(** The deployment: the configured base URL and the backend's answer to
    each request. *)
Record Deployment : Type := mkDeployment {
  NEXT_PUBLIC_API_URL : option string;
  backend : Request -> HttpResult
}.

(** Computations of the client: they read the deployment, act on the
    world and may throw. *)
Definition M (A : Type) : Type := Deployment -> World -> Outcome A * World.

#[export] Instance M_ret : MRet M := fun A a _ w => (Ok a, w).
#[export] Instance M_bind : MBind M := fun A B f m d w =>
  match m d w with
  | (Ok a, w') => f a d w'
  | (Thrown e, w') => (Thrown e, w')
  end.

Definition lift {A : Type} (o : Outcome A) : M A := fun _ w => (o, w).

Definition setItem (key value : string) : M unit :=
  fun _ w => (Ok tt, {| localStorage := <[key := value]> (localStorage w);
                        network := network w |}).

Definition removeItem (key : string) : M unit :=
  fun _ w => (Ok tt, {| localStorage := delete key (localStorage w);
                        network := network w |}).

(** [process.env.NEXT_PUBLIC_API_URL || 'http://localhost:8000/api']. *)
Definition API_BASE_URL (env : option string) : string :=
  match env with
  | Some url => if truthy_string url then url else "http://localhost:8000/api"
  | None => "http://localhost:8000/api"
  end.

(** The request interceptor: attach the bearer token when local storage
    holds a non-empty [access_token]. *)
Definition request_interceptor (storage : gmap string string) (config : Request) : Request :=
  match storage !! "access_token" with
  | Some token =>
      if truthy_string token then
        {| req_method := req_method config;
           req_baseURL := req_baseURL config;
           req_url := req_url config;
           req_params := req_params config;
           req_body := req_body config;
           req_headers := <["Authorization" := "Bearer " +:+ token]> (req_headers config) |}
      else config
  | None => config
  end.

(** The configuration of one call on the instance made by
    [axios.create({ baseURL, headers })].  [req_headers] holds the
    headers this code configures; what axios does to the header set on
    its own (its default [Accept] header, dropping [Content-Type] from a
    request without a body) is not part of the model. *)
Definition instance_config (d : Deployment) (method : HttpMethod) (url : string)
    (params : list (string * JsValue)) (body : JsValue) : Request :=
  {| req_method := method;
     req_baseURL := API_BASE_URL (NEXT_PUBLIC_API_URL d);
     req_url := url;
     req_params := params;
     req_body := body;
     req_headers := {["Content-Type" := "application/json"]} |}.

(** [api.request(config)]: run the interceptor, send, and resolve with
    the response on a 2xx status, reject otherwise. *)
Definition request (method : HttpMethod) (url : string)
    (params : list (string * JsValue)) (body : JsValue) : M AxiosResponse :=
  fun d w =>
    let sent := request_interceptor (localStorage w)
                  (instance_config d method url params body) in
    let w' := {| localStorage := localStorage w; network := network w ++ [sent] |} in
    match backend d sent with
    | Responded st body =>
        if (200 <=? st) && (st <? 300) then
          (Ok {| status := st; data := body |}, w')
        else
          (Thrown {| message := "Request failed with status code " +:+ num_to_string st;
                     response := Some {| status := st; data := body |} |}, w')
    | NetworkFailure =>
        (Thrown {| message := "Network Error"; response := None |}, w')
    end.

Definition api_get (url : string) (params : list (string * JsValue)) : M AxiosResponse :=
  request GET url params JUndefined.
Definition api_post (url : string) (body : JsValue) : M AxiosResponse :=
  request POST url [] body.
Definition api_patch (url : string) (body : JsValue) : M AxiosResponse :=
  request PATCH url [] body.
Definition api_delete (url : string) : M AxiosResponse :=
  request DELETE url [] JUndefined.

(** Serialisation of the typed payloads: undefined members are left out. *)
Definition field {A : Type} (name : string) (enc : A -> JsValue) (v : option A)
    : list (string * JsValue) :=
  match v with Some a => [(name, enc a)] | None => [] end.

Definition encode_priority (p : Priority) : JsValue :=
  JStr match p with
       | low => "low" | medium => "medium" | high => "high" | urgent => "urgent"
       end.

Definition encode_filters (params : option TaskFilters) : list (string * JsValue) :=
  match params with
  | None => []
  | Some f =>
      field "completed" JBool (f_completed f) ++
      field "priority" JStr (f_priority f) ++
      field "category" JNum (f_category f) ++
      field "search" JStr (f_search f) ++
      field "ordering" JStr (f_ordering f)
  end.

Definition encode_create (task : CreateTaskRequest) : JsValue :=
  JObj ([("title", JStr (ct_title task));
         ("description", JStr (ct_description task));
         ("priority", encode_priority (ct_priority task))] ++
        field "due_date" JStr (ct_due_date task) ++
        field "category_id" JNum (ct_category_id task) ++
        field "enhance_with_ai" JBool (ct_enhance_with_ai task)).

Definition encode_update (updates : UpdateTaskRequest) : JsValue :=
  JObj (field "title" JStr (ut_title updates) ++
        field "description" JStr (ut_description updates) ++
        field "priority" encode_priority (ut_priority updates) ++
        field "due_date" JStr (ut_due_date updates) ++
        field "category_id" JNum (ut_category_id updates) ++
        field "is_completed" JBool (ut_is_completed updates)).

(** [contextData || []]. *)
Definition context_data (contextData : option (list string)) : JsValue :=
  JArr (map JStr (default [] contextData)).

Definition ids_array (ids : list Z) : JsValue := JArr (map JNum ids).

Module tasksApi.
Definition getTasks (params : option TaskFilters) : M JsValue :=
  response ← api_get "/tasks/" (encode_filters params); mret (data response).
Definition getTask (id : Z) : M JsValue :=
  response ← api_get ("/tasks/" +:+ num_to_string id +:+ "/") []; mret (data response).
Definition createTask (task : CreateTaskRequest) : M JsValue :=
  response ← api_post "/tasks/" (encode_create task); mret (data response).
Definition updateTask (id : Z) (updates : UpdateTaskRequest) : M JsValue :=
  response ← api_patch ("/tasks/" +:+ num_to_string id +:+ "/") (encode_update updates);
  mret (data response).
Definition deleteTask (id : Z) : M JsValue :=
  _ ← api_delete ("/tasks/" +:+ num_to_string id +:+ "/"); mret JUndefined.
Definition completeTask (id : Z) : M JsValue :=
  response ← api_post ("/tasks/" +:+ num_to_string id +:+ "/complete/") JUndefined;
  mret (data response).
Definition enhanceTask (id : Z) (contextData : option (list string)) : M JsValue :=
  response ← api_post ("/tasks/" +:+ num_to_string id +:+ "/ai_enhance/")
                      (JObj [("context_data", context_data contextData)]);
  mret (data response).
Definition getAIRecommendations (limit : option Z) : M JsValue :=
  response ← api_get "/tasks/ai_recommendations/" (field "limit" JNum limit);
  mret (data response).
Definition recalculatePriority (id : Z) : M JsValue :=
  response ← api_post ("/tasks/" +:+ num_to_string id +:+ "/recalculate_priority/") JUndefined;
  mret (data response).
Definition getStats : M JsValue :=
  response ← api_get "/tasks/stats/" []; mret (data response).
Definition getTodayTasks : M JsValue :=
  response ← api_get "/tasks/today/" []; mret (data response).
Definition getOverdueTasks : M JsValue :=
  response ← api_get "/tasks/overdue/" []; mret (data response).
End tasksApi.

Module categoriesApi.
(** [return response.data.results || response.data]. *)
Definition getCategories : M JsValue :=
  response ← api_get "/categories/" [];
  results ← lift (prop (data response) "results");
  mret (if truthy results then results else data response).
Definition createCategory (category : JsValue) : M JsValue :=
  response ← api_post "/categories/" category; mret (data response).
Definition updateCategory (id : Z) (updates : JsValue) : M JsValue :=
  response ← api_patch ("/categories/" +:+ num_to_string id +:+ "/") updates;
  mret (data response).
Definition deleteCategory (id : Z) : M JsValue :=
  _ ← api_delete ("/categories/" +:+ num_to_string id +:+ "/"); mret JUndefined.
End categoriesApi.

Module contextApi.
Definition getContextEntries (entry_type date search : option string) : M JsValue :=
  response ← api_get "/context/"
               (field "entry_type" JStr entry_type ++ field "date" JStr date ++
                field "search" JStr search);
  mret (data response).
Definition createContextEntry (entry : JsValue) : M JsValue :=
  response ← api_post "/context/" entry; mret (data response).
Definition updateContextEntry (id : Z) (updates : JsValue) : M JsValue :=
  response ← api_patch ("/context/" +:+ num_to_string id +:+ "/") updates;
  mret (data response).
Definition deleteContextEntry (id : Z) : M JsValue :=
  _ ← api_delete ("/context/" +:+ num_to_string id +:+ "/"); mret JUndefined.
Definition analyzeContext (id : Z) : M JsValue :=
  response ← api_post ("/context/" +:+ num_to_string id +:+ "/analyze/") JUndefined;
  mret (data response).
Definition getSummary (date : option string) : M JsValue :=
  response ← api_get "/context/summary/" (field "date" JStr date); mret (data response).
Definition bulkProcess (ids : list Z) : M JsValue :=
  response ← api_post "/context/bulk_process/" (JObj [("entry_ids", ids_array ids)]);
  mret (data response).
Definition getUnprocessed : M JsValue :=
  response ← api_get "/context/unprocessed/" []; mret (data response).
Definition getHighRelevance : M JsValue :=
  response ← api_get "/context/high_relevance/" []; mret (data response).
Definition getWithSuggestions : M JsValue :=
  response ← api_get "/context/with_suggestions/" []; mret (data response).
End contextApi.

Module aiApi.
Definition enhanceTask (taskId : Z) (contextData : option (list string)) : M JsValue :=
  response ← api_post ("/ai/tasks/" +:+ num_to_string taskId +:+ "/enhance/")
                      (JObj [("context_data", context_data contextData)]);
  mret (data response).
Definition getTaskRecommendations (limit : option Z) : M JsValue :=
  response ← api_get "/ai/tasks/recommendations/" (field "limit" JNum limit);
  mret (data response).
Definition suggestTasksFromContext (contextIds : list Z) : M JsValue :=
  response ← api_post "/ai/tasks/suggest-from-context/"
                      (JObj [("context_ids", ids_array contextIds)]);
  mret (data response).
Definition analyzeContext (contextId : Z) : M JsValue :=
  response ← api_post ("/ai/context/" +:+ num_to_string contextId +:+ "/analyze/") JUndefined;
  mret (data response).
Definition generateContextSummary (startDate endDate : option string) (days : option Z)
    : M JsValue :=
  response ← api_get "/ai/context/summary/"
               (field "start_date" JStr startDate ++ field "end_date" JStr endDate ++
                field "days" JNum days);
  mret (data response).
Definition bulkProcessContext (contextIds : list Z) : M JsValue :=
  response ← api_post "/ai/context/bulk-process/"
                      (JObj [("context_ids", ids_array contextIds)]);
  mret (data response).
Definition generateDailyInsights (date : option string) : M JsValue :=
  response ← api_get "/ai/insights/daily/" (field "date" JStr date); mret (data response).
Definition analyzeProductivityPatterns (days : option Z) : M JsValue :=
  response ← api_get "/ai/insights/productivity/" (field "days" JNum days);
  mret (data response).
Definition healthCheck : M JsValue :=
  response ← api_get "/ai/health/" []; mret (data response).
End aiApi.

Module insightsApi.
Definition getInsights (date : option string) : M JsValue :=
  response ← api_get "/insights/" (field "date" JStr date); mret (data response).
Definition getInsight (id : Z) : M JsValue :=
  response ← api_get ("/insights/" +:+ num_to_string id +:+ "/") []; mret (data response).
Definition getActionableInsights : M JsValue :=
  response ← api_get "/insights/actionable/" []; mret (data response).
Definition dismissInsight (id : Z) : M JsValue :=
  response ← api_post ("/insights/" +:+ num_to_string id +:+ "/dismiss/") JUndefined;
  mret (data response).
End insightsApi.

Module authApi.
Definition credentials (username password : string) : JsValue :=
  JObj [("username", JStr username); ("password", JStr password)].

(** [const { access, refresh } = response.data] throws on a nullish
    body; [setItem] stores [String(value)]. *)
Definition login (username password : string) : M JsValue :=
  response ← api_post "/auth/login/" (credentials username password);
  access ← lift (prop (data response) "access");
  refresh ← lift (prop (data response) "refresh");
  _ ← setItem "access_token" (to_string access);
  _ ← setItem "refresh_token" (to_string refresh);
  mret JUndefined.
Definition signup (username password : string) : M JsValue :=
  _ ← api_post "/auth/signup/" (credentials username password); mret JUndefined.
Definition logout : M JsValue :=
  _ ← removeItem "access_token";
  _ ← removeItem "refresh_token";
  mret JUndefined.
End authApi.

(** Every method the client exports, with its arguments. *)
Inductive ApiCall : Type :=
| Tasks_getTasks (params : option TaskFilters)
| Tasks_getTask (id : Z)
| Tasks_createTask (task : CreateTaskRequest)
| Tasks_updateTask (id : Z) (updates : UpdateTaskRequest)
| Tasks_deleteTask (id : Z)
| Tasks_completeTask (id : Z)
| Tasks_enhanceTask (id : Z) (contextData : option (list string))
| Tasks_getAIRecommendations (limit : option Z)
| Tasks_recalculatePriority (id : Z)
| Tasks_getStats
| Tasks_getTodayTasks
| Tasks_getOverdueTasks
| Categories_getCategories
| Categories_createCategory (category : JsValue)
| Categories_updateCategory (id : Z) (updates : JsValue)
| Categories_deleteCategory (id : Z)
| Context_getContextEntries (entry_type date search : option string)
| Context_createContextEntry (entry : JsValue)
| Context_updateContextEntry (id : Z) (updates : JsValue)
| Context_deleteContextEntry (id : Z)
| Context_analyzeContext (id : Z)
| Context_getSummary (date : option string)
| Context_bulkProcess (ids : list Z)
| Context_getUnprocessed
| Context_getHighRelevance
| Context_getWithSuggestions
| Ai_enhanceTask (taskId : Z) (contextData : option (list string))
| Ai_getTaskRecommendations (limit : option Z)
| Ai_suggestTasksFromContext (contextIds : list Z)
| Ai_analyzeContext (contextId : Z)
| Ai_generateContextSummary (startDate endDate : option string) (days : option Z)
| Ai_bulkProcessContext (contextIds : list Z)
| Ai_generateDailyInsights (date : option string)
| Ai_analyzeProductivityPatterns (days : option Z)
| Ai_healthCheck
| Insights_getInsights (date : option string)
| Insights_getInsight (id : Z)
| Insights_getActionableInsights
| Insights_dismissInsight (id : Z)
| Auth_login (username password : string)
| Auth_signup (username password : string)
| Auth_logout.

Definition invoke (c : ApiCall) : M JsValue :=
  match c with
  | Tasks_getTasks params => tasksApi.getTasks params
  | Tasks_getTask id => tasksApi.getTask id
  | Tasks_createTask task => tasksApi.createTask task
  | Tasks_updateTask id updates => tasksApi.updateTask id updates
  | Tasks_deleteTask id => tasksApi.deleteTask id
  | Tasks_completeTask id => tasksApi.completeTask id
  | Tasks_enhanceTask id contextData => tasksApi.enhanceTask id contextData
  | Tasks_getAIRecommendations limit => tasksApi.getAIRecommendations limit
  | Tasks_recalculatePriority id => tasksApi.recalculatePriority id
  | Tasks_getStats => tasksApi.getStats
  | Tasks_getTodayTasks => tasksApi.getTodayTasks
  | Tasks_getOverdueTasks => tasksApi.getOverdueTasks
  | Categories_getCategories => categoriesApi.getCategories
  | Categories_createCategory category => categoriesApi.createCategory category
  | Categories_updateCategory id updates => categoriesApi.updateCategory id updates
  | Categories_deleteCategory id => categoriesApi.deleteCategory id
  | Context_getContextEntries entry_type date search =>
      contextApi.getContextEntries entry_type date search
  | Context_createContextEntry entry => contextApi.createContextEntry entry
  | Context_updateContextEntry id updates => contextApi.updateContextEntry id updates
  | Context_deleteContextEntry id => contextApi.deleteContextEntry id
  | Context_analyzeContext id => contextApi.analyzeContext id
  | Context_getSummary date => contextApi.getSummary date
  | Context_bulkProcess ids => contextApi.bulkProcess ids
  | Context_getUnprocessed => contextApi.getUnprocessed
  | Context_getHighRelevance => contextApi.getHighRelevance
  | Context_getWithSuggestions => contextApi.getWithSuggestions
  | Ai_enhanceTask taskId contextData => aiApi.enhanceTask taskId contextData
  | Ai_getTaskRecommendations limit => aiApi.getTaskRecommendations limit
  | Ai_suggestTasksFromContext contextIds => aiApi.suggestTasksFromContext contextIds
  | Ai_analyzeContext contextId => aiApi.analyzeContext contextId
  | Ai_generateContextSummary startDate endDate days =>
      aiApi.generateContextSummary startDate endDate days
  | Ai_bulkProcessContext contextIds => aiApi.bulkProcessContext contextIds
  | Ai_generateDailyInsights date => aiApi.generateDailyInsights date
  | Ai_analyzeProductivityPatterns days => aiApi.analyzeProductivityPatterns days
  | Ai_healthCheck => aiApi.healthCheck
  | Insights_getInsights date => insightsApi.getInsights date
  | Insights_getInsight id => insightsApi.getInsight id
  | Insights_getActionableInsights => insightsApi.getActionableInsights
  | Insights_dismissInsight id => insightsApi.dismissInsight id
  | Auth_login username password => authApi.login username password
  | Auth_signup username password => authApi.signup username password
  | Auth_logout => authApi.logout
  end.

End Api.
Export Api.

(* ====================================================================== *)
(** ** [lib/utils.ts]: API error handling                                  *)
(* ====================================================================== *)

Module Utils.

(** [error.response?.data]. *)
Definition response_data (error : JsError) : JsValue :=
  match response error with
  | Some r => data r
  | None => JUndefined
  end.

Definition getErrorMessage (error : JsError) : JsValue :=
  if truthy (opt_prop (response_data error) "message") then
    opt_prop (response_data error) "message"
  else if truthy (opt_prop (response_data error) "detail") then
    opt_prop (response_data error) "detail"
  else if truthy_string (message error) then
    JStr (message error)
  else
    JStr "An unexpected error occurred".

End Utils.
Export Utils.
(* ====================================================================== *)
(** ** [hooks/useTasks.ts]                                                 *)
(* ====================================================================== *)

Module TaskHooks.

Module taskKeys.
Definition all : QueryKey := [KStr "tasks"].
Definition lists : QueryKey := all ++ [KStr "list"].
Definition list (filters : option TaskFilters) : QueryKey :=
  lists ++ [match filters with Some f => KFilters f | None => KUndefined end].
Definition details : QueryKey := all ++ [KStr "detail"].
Definition detail (id : Z) : QueryKey := details ++ [KNum id].
Definition stats : QueryKey := all ++ [KStr "stats"].
Definition today : QueryKey := all ++ [KStr "today"].
Definition overdue : QueryKey := all ++ [KStr "overdue"].
End taskKeys.

(** Freshness windows of the read hooks, in milliseconds. *)
Definition useTasks_staleTime : Z := 5 * 60 * 1000.
Definition useTaskStats_staleTime : Z := 10 * 60 * 1000.
Definition useTodayTasks_staleTime : Z := 2 * 60 * 1000.
Definition useOverdueTasks_staleTime : Z := 5 * 60 * 1000.

(** [useCreateTask]: [onSuccess(newTask)]. *)
Definition useCreateTask_onSuccess (newTask : Task) (st : ClientState) : ClientState :=
  let st := onCache (invalidateQueries taskKeys.lists) st in
  let st := onCache (invalidateQueries taskKeys.stats) st in
  let st := onCache (invalidateQueries taskKeys.today) st in
  toast (ToastSuccess "Task created successfully!") st.

(** [useUpdateTask]: [onSuccess(updatedTask)]. *)
Definition useUpdateTask_onSuccess (now : Z) (updatedTask : Task) (st : ClientState)
    : ClientState :=
  let st := onCache (setQueryData (taskKeys.detail (id updatedTask)) (DTask updatedTask) now) st in
  let st := onCache (invalidateQueries taskKeys.lists) st in
  let st := onCache (invalidateQueries taskKeys.stats) st in
  let st := onCache (invalidateQueries taskKeys.today) st in
  let st := onCache (invalidateQueries taskKeys.overdue) st in
  toast (ToastSuccess "Task updated successfully!") st.

(** [useDeleteTask]: [onSuccess(_, deletedId)]. *)
Definition useDeleteTask_onSuccess (deletedId : Z) (st : ClientState) : ClientState :=
  let st := onCache (removeQueries (taskKeys.detail deletedId)) st in
  let st := onCache (invalidateQueries taskKeys.lists) st in
  let st := onCache (invalidateQueries taskKeys.stats) st in
  let st := onCache (invalidateQueries taskKeys.today) st in
  let st := onCache (invalidateQueries taskKeys.overdue) st in
  toast (ToastSuccess "Task deleted successfully!") st.

(** [useCompleteTask]: [onSuccess(completedTask)]. *)
Definition useCompleteTask_onSuccess (now : Z) (completedTask : Task) (st : ClientState)
    : ClientState :=
  let st := onCache (setQueryData (taskKeys.detail (id completedTask)) (DTask completedTask) now) st in
  let st := onCache (invalidateQueries taskKeys.lists) st in
  let st := onCache (invalidateQueries taskKeys.stats) st in
  let st := onCache (invalidateQueries taskKeys.today) st in
  let st := onCache (invalidateQueries taskKeys.overdue) st in
  toast (ToastSuccess "Task completed! 🎉") st.

(** [useEnhanceTask]: [onSuccess(enhancedTask)]. *)
Definition useEnhanceTask_onSuccess (now : Z) (enhancedTask : Task) (st : ClientState)
    : ClientState :=
  let st := onCache (setQueryData (taskKeys.detail (id enhancedTask)) (DTask enhancedTask) now) st in
  let st := onCache (invalidateQueries taskKeys.lists) st in
  toast (ToastSuccess "Task enhanced with AI! ✨") st.

(** The [onError] callback shared by all mutations. *)
Definition onError (error : JsError) (st : ClientState) : ClientState :=
  toast (ToastError (getErrorMessage error)) st.

(** A call of [mutate] on one of the five task mutations, and the
    [mutationFn] each hook binds it to. *)
Inductive TaskMutation : Type :=
| MutateCreate (task : CreateTaskRequest)
| MutateUpdate (id : Z) (updates : UpdateTaskRequest)
| MutateDelete (id : Z)
| MutateComplete (id : Z)
| MutateEnhance (id : Z).

Definition mutationFn (m : TaskMutation) : M JsValue :=
  match m with
  | MutateCreate task => tasksApi.createTask task
  | MutateUpdate id updates => tasksApi.updateTask id updates
  | MutateDelete id => tasksApi.deleteTask id
  | MutateComplete id => tasksApi.completeTask id
  | MutateEnhance id => tasksApi.enhanceTask id None
  end.

(** None of the hooks passes a [retry] option of its own. *)
Definition mutation_retry_option : option RetryOption := None.

(** The five task mutations together with the argument their [onSuccess]
    callback receives. *)
Inductive TaskMutationResult : Type :=
| CreatedTask (newTask : Task)
| UpdatedTask (updatedTask : Task)
| DeletedTask (deletedId : Z)
| CompletedTask (completedTask : Task)
| EnhancedTask (enhancedTask : Task).

Definition onSuccess (now : Z) (r : TaskMutationResult) (st : ClientState) : ClientState :=
  match r with
  | CreatedTask t => useCreateTask_onSuccess t st
  | UpdatedTask t => useUpdateTask_onSuccess now t st
  | DeletedTask i => useDeleteTask_onSuccess i st
  | CompletedTask t => useCompleteTask_onSuccess now t st
  | EnhancedTask t => useEnhanceTask_onSuccess now t st
  end.

End TaskHooks.

(* ====================================================================== *)
(** ** [hooks/useCategories.ts]                                            *)
(* ====================================================================== *)

Module CategoryHooks.

Module categoryKeys.
Definition all : QueryKey := [KStr "categories"].
Definition lists : QueryKey := all ++ [KStr "list"].
Definition details : QueryKey := all ++ [KStr "detail"].
Definition detail (id : Z) : QueryKey := details ++ [KNum id].
End categoryKeys.

Definition useCategories_staleTime : Z := 15 * 60 * 1000.

(** The three list updaters, typed as in the source:
    [(old: Category[] | undefined) => Category[]]. *)
Definition create_updater (newCategory : Category) (old : option (list Category))
    : list Category :=
  match old with
  | None => [newCategory]
  | Some old => old ++ [newCategory]
  end.

Definition update_updater (updatedCategory : Category) (old : option (list Category))
    : list Category :=
  match old with
  | None => [updatedCategory]
  | Some old =>
      map (fun cat => if cat_id cat =? cat_id updatedCategory then updatedCategory else cat) old
  end.

Definition delete_updater (deletedId : Z) (old : option (list Category))
    : list Category :=
  match old with
  | None => []
  | Some old => filter (fun cat => cat_id cat ≠ deletedId) old
  end.

(** The cache stores one sum type; the category list key is only ever
    written by the three handlers below, always with a [Category[]].  Data
    of another shape under that key is outside the declared type of [old]
    and is modelled as a thrown [TypeError]. *)
Definition typed_updater (f : option (list Category) -> list Category)
    (old : option CacheData) : Outcome (option CacheData) :=
  match old with
  | None => Ok (Some (DCategories (f None)))
  | Some (DCategories cs) => Ok (Some (DCategories (f (Some cs))))
  | Some _ => Thrown (typeError "old is not a category array")
  end.

(** [queryClient.setQueryData(categoryKeys.lists(), updater)]; when the
    updater throws, the handler stops with the cache as it is. *)
Definition setCategoryList (f : option (list Category) -> list Category)
    (now : Z) (st : ClientState) : Outcome unit * ClientState :=
  match setQueryDataWith categoryKeys.lists (typed_updater f) now (queries st) with
  | Ok cache => (Ok tt, {| queries := cache; toasts := toasts st |})
  | Thrown e => (Thrown e, st)
  end.

(** [useCreateCategory]: [onSuccess(newCategory)]. *)
Definition useCreateCategory_onSuccess (now : Z) (newCategory : Category)
    (st : ClientState) : Outcome unit * ClientState :=
  match setCategoryList (create_updater newCategory) now st with
  | (Ok _, st) => (Ok tt, toast (ToastSuccess "Category created successfully!") st)
  | (Thrown e, st) => (Thrown e, st)
  end.

(** [useUpdateCategory]: [onSuccess(updatedCategory)]. *)
Definition useUpdateCategory_onSuccess (now : Z) (updatedCategory : Category)
    (st : ClientState) : Outcome unit * ClientState :=
  let st := onCache (setQueryData (categoryKeys.detail (cat_id updatedCategory))
                                  (DCategory updatedCategory) now) st in
  match setCategoryList (update_updater updatedCategory) now st with
  | (Ok _, st) => (Ok tt, toast (ToastSuccess "Category updated successfully!") st)
  | (Thrown e, st) => (Thrown e, st)
  end.

(** [useDeleteCategory]: [onSuccess(_, deletedId)]. *)
Definition useDeleteCategory_onSuccess (now : Z) (deletedId : Z)
    (st : ClientState) : Outcome unit * ClientState :=
  let st := onCache (removeQueries (categoryKeys.detail deletedId)) st in
  match setCategoryList (delete_updater deletedId) now st with
  | (Ok _, st) => (Ok tt, toast (ToastSuccess "Category deleted successfully!") st)
  | (Thrown e, st) => (Thrown e, st)
  end.

End CategoryHooks.

(* ====================================================================== *)
(** ** [providers/QueryProvider.tsx]: default options of the query client  *)
(* ====================================================================== *)

Module QueryProvider.

(** [error?.response?.status]: the numeric status axios reports, or
    [undefined] when the error has no response. *)
Definition response_status (error : JsError) : option Z :=
  status <$> response error.

(** Relational comparison of a possibly undefined number with a number:
    [undefined >= n] and [undefined < n] are both false. *)
Definition js_ge (x : option Z) (n : Z) : bool :=
  match x with Some s => n <=? s | None => false end.
Definition js_lt (x : option Z) (n : Z) : bool :=
  match x with Some s => s <? n | None => false end.

Definition queries_retry (failureCount : Z) (error : JsError) : bool :=
  if js_ge (response_status error) 400 && js_lt (response_status error) 500 then
    false
  else
    failureCount <? 3.

Record DefaultOptions : Type := mkDefaults {
  queries_staleTime : Z;
  queries_retry_option : RetryOption;
  mutations_retry_option : RetryOption
}.

Definition defaultOptions : DefaultOptions :=
  {| queries_staleTime := 5 * 60 * 1000;
     queries_retry_option := RetryFn queries_retry;
     mutations_retry_option := RetryBool false |}.

(** The option a mutation runs with: its own, else the client default. *)
Definition mutation_retry (own : option RetryOption) : RetryOption :=
  default (mutations_retry_option defaultOptions) own.

Definition query_retry (own : option RetryOption) : RetryOption :=
  default (queries_retry_option defaultOptions) own.

End QueryProvider.

(* ====================================================================== *)
(** ** [app/signup/page.tsx]                                               *)
(* ====================================================================== *)

Module SignupPage.

(** The component state; [error] is declared [string | string[]] and
    receives whatever the backend put in the body. *)
Record State : Type := mkState {
  username : string;
  password : string;
  confirmPassword : string;
  error : JsValue;
  loading : bool
}.

Definition setError (v : JsValue) (st : State) : State :=
  {| username := username st; password := password st;
     confirmPassword := confirmPassword st; error := v; loading := loading st |}.

Definition setLoading (b : bool) (st : State) : State :=
  {| username := username st; password := password st;
     confirmPassword := confirmPassword st; error := error st; loading := b |}.

(** The [catch] block: which value becomes the error state. *)
Definition error_of_failure (err : JsError) : JsValue :=
  let data := response_data err in
  if truthy data then
    if is_string data then data
    else if truthy (opt_prop data "detail") then opt_prop data "detail"
    else JArr (flat (object_values data))
  else
    JStr "Signup failed. Please try a different username.".

(** What one submission leaves behind: the component state, the world,
    the routes pushed, and whether the browser's own form submission was
    suppressed ([e.preventDefault()]). *)
Record Submission : Type := mkSubmission {
  state_after : State;
  world_after : World;
  pushed : list string;
  defaultPrevented : bool
}.

Definition handleSubmit (d : Deployment) (st : State) (w : World) : Submission :=
  let st1 := setError (JStr "") st in
  if negb (String.eqb (password st) (confirmPassword st)) then
    {| state_after := setError (JStr "Passwords do not match.") st1;
       world_after := w;
       pushed := [];
       defaultPrevented := true |}
  else
    let st2 := setLoading true st1 in
    match authApi.signup (username st) (password st) d w with
    | (Ok _, w') =>
        {| state_after := setLoading false st2;
           world_after := w';
           pushed := ["/login"];
           defaultPrevented := true |}
    | (Thrown err, w') =>
        {| state_after := setLoading false (setError (error_of_failure err) st2);
           world_after := w';
           pushed := [];
           defaultPrevented := true |}
    end.

(** The error area of the form. *)
Inductive ErrorView : Type :=
| NoErrorBox
| ErrorText (v : JsValue)
| ErrorLines (lines : list JsValue).

Definition render_error (error : JsValue) : ErrorView :=
  if truthy error then
    match error with
    | JArr items => ErrorLines items
    | _ => ErrorText error
    end
  else NoErrorBox.

(** What React puts on the screen for a child [{v}]: a string as it is, a
    number as its digits, nothing for a boolean, [null] or [undefined],
    the children of an array one after the other.  A plain object is not
    a valid child: rendering throws, which is [None] here. *)
Fixpoint child_text (v : JsValue) : option string :=
  match v with
  | JStr s => Some s
  | JNum n => Some (num_to_string n)
  | JBool _ | JNull | JUndefined => Some ""
  | JArr items =>
      fold_right (fun item rest =>
                    match child_text item, rest with
                    | Some text, Some more => Some (text +:+ more)
                    | _, _ => None
                    end)
                 (Some "") items
  | JObj _ => None
  end.

(** The texts the error area shows, from top to bottom, or [None] when
    rendering throws.  A falsy [error] is itself the child React gets
    from [error && ...]: it shows nothing, except that the number [0]
    shows as text.  A box around a child without text shows as one
    empty text. *)
Definition displayed (error : JsValue) : option (list string) :=
  match render_error error with
  | NoErrorBox => (fun text => if truthy_string text then [text] else []) <$> child_text error
  | ErrorText v => (fun text => [text]) <$> child_text v
  | ErrorLines lines => mapM child_text lines
  end.

End SignupPage.

(* ====================================================================== *)
(** ** [components/tasks/TaskCard.tsx]                                     *)
(* ====================================================================== *)

Module TaskCard.
Import TaskHooks.

(** Truthiness of an optional string member. *)
Definition truthy_opt (s : option string) : bool :=
  match s with Some s => truthy_string s | None => false end.

(** The [mutate] calls the handlers issue. *)
Definition handleToggleComplete (task : Task) : list TaskMutation :=
  if is_completed task then
    [MutateUpdate (id task)
       {| ut_title := None; ut_description := None; ut_priority := None;
          ut_due_date := None; ut_category_id := None;
          ut_is_completed := Some false |}]
  else
    [MutateComplete (id task)].

Definition handleDelete (confirmed : bool) (task : Task) : list TaskMutation :=
  if confirmed then [MutateDelete (id task)] else [].

Definition handleEnhance (task : Task) : list TaskMutation :=
  [MutateEnhance (id task)].

(** The guard of the "Enhance with AI" button. *)
Definition shows_enhance_button (task : Task) : bool :=
  negb (is_completed task) && negb (truthy_opt (ai_enhanced_description task)).

End TaskCard.

(* ====================================================================== *)
(** ** The synchronisation matrix, as the specification words it           *)
(* ====================================================================== *)

Module Matrix.
Import TaskHooks.

(** The read keys a row of the matrix names. *)
Inductive KeyClass : Type :=
| TaskListKeys
| StatsKey
| TodayKey
| OverdueKey.

Definition in_class (c : KeyClass) (k : QueryKey) : Prop :=
  match c with
  | TaskListKeys => k = taskKeys.lists \/ exists filters, k = taskKeys.list filters
  | StatsKey => k = taskKeys.stats
  | TodayKey => k = taskKeys.today
  | OverdueKey => k = taskKeys.overdue
  end.

(** Column "invalidate" of the matrix. *)
Definition invalidation_set (r : TaskMutationResult) : list KeyClass :=
  match r with
  | CreatedTask _ => [TaskListKeys; StatsKey; TodayKey]
  | UpdatedTask _ | DeletedTask _ | CompletedTask _ =>
      [TaskListKeys; StatsKey; TodayKey; OverdueKey]
  | EnhancedTask _ => [TaskListKeys]
  end.

(** Column "write-through": the task that lands in the detail cache. *)
Definition written_task (r : TaskMutationResult) : option Task :=
  match r with
  | UpdatedTask t | CompletedTask t | EnhancedTask t => Some t
  | CreatedTask _ | DeletedTask _ => None
  end.

(** Column "evict": the identifier whose detail entry is dropped. *)
Definition evicted_id (r : TaskMutationResult) : option Z :=
  match r with
  | DeletedTask i => Some i
  | _ => None
  end.

(** All the keys a row lists; a cached key is within reach of the row
    when it extends one of them. *)
Definition row_keys (r : TaskMutationResult) : list QueryKey :=
  match r with
  | CreatedTask _ => [taskKeys.lists; taskKeys.stats; taskKeys.today]
  | UpdatedTask t | CompletedTask t =>
      [taskKeys.detail (id t); taskKeys.lists; taskKeys.stats; taskKeys.today;
       taskKeys.overdue]
  | DeletedTask i =>
      [taskKeys.detail i; taskKeys.lists; taskKeys.stats; taskKeys.today;
       taskKeys.overdue]
  | EnhancedTask t => [taskKeys.detail (id t); taskKeys.lists]
  end.

Definition row_touches (r : TaskMutationResult) (k : QueryKey) : bool :=
  existsb (partialMatchKey k) (row_keys r).

End Matrix.

(* ====================================================================== *)
(** ** Vocabulary of the properties                                        *)
(* ====================================================================== *)

Section Vocabulary.
Import TaskHooks CategoryHooks QueryProvider SignupPage TaskCard.

(** A query as [setQueryData] leaves it. *)
Definition fresh_entry (d : CacheData) (now : Z) : QueryState :=
  {| state_data := Some d; dataUpdatedAt := now; isInvalidated := false |}.

(** The error carries an HTTP response whose status is a client error. *)
Definition carries_client_error_status (error : JsError) : Prop :=
  exists s, response_status error = Some s /\ 400 <= s < 500.

(** The data cached under the category-list key is [old]
    ([None]: nothing is cached). *)
Definition category_list_is (st : ClientState) (old : option (list Category)) : Prop :=
  queries st !! categoryKeys.lists ≫= state_data = DCategories <$> old.

(** [r] is a request as the axios instance sends it from a world whose
    local storage is [storage]: the instance defaults, passed through the
    interceptor. *)
Definition sent_from (storage : gmap string string) (r : Request) : Prop :=
  exists config,
    req_headers config = {["Content-Type" := "application/json"]} /\
    r = request_interceptor storage config.

(** A computation that leaves local storage alone and whose only effect
    on the world is to send requests through the instance. *)
Definition read_only {A : Type} (m : M A) : Prop :=
  forall d w,
    localStorage (m d w).2 = localStorage w /\
    exists new,
      network (m d w).2 = network w ++ new /\
      Forall (sent_from (localStorage w)) new.

(** The two methods that write local storage. *)
Definition touches_storage (c : ApiCall) : bool :=
  match c with
  | Auth_login _ _ | Auth_logout => true
  | _ => false
  end.

Definition no_authorization (r : Request) : Prop :=
  req_headers r !! "Authorization" = None.

(** The requests [m] sends from [w] are [new], none with an
    [Authorization] header. *)
Definition sends_unauthenticated {A : Type} (m : M A) (d : Deployment) (w : World) : Prop :=
  exists new, network (m d w).2 = network w ++ new /\ Forall no_authorization new.

(** The requests a computation adds to the network log. *)
Definition sent_by {A : Type} (m : M A) (d : Deployment) (w : World) : list Request :=
  drop (length (network w)) (network (m d w).2).

(** Method, path and body of a request. *)
Definition request_line (r : Request) : HttpMethod * string * JsValue :=
  (req_method r, req_url r, req_body r).

(** The payload [{ is_completed: false }]. *)
Definition mark_incomplete : UpdateTaskRequest :=
  {| ut_title := None; ut_description := None; ut_priority := None;
     ut_due_date := None; ut_category_id := None; ut_is_completed := Some false |}.

Definition task_path (task : Task) : string :=
  "/tasks/" +:+ num_to_string (id task) +:+ "/".

Definition complete_path (task : Task) : string :=
  "/tasks/" +:+ num_to_string (id task) +:+ "/complete/".

(** The task has an AI-enhanced description: the member is set to a
    non-empty text.  (An undefined member and the empty string are what
    the card treats as no enhanced description; it shows
    [task.description] in their place.) *)
Definition has_ai_enhanced_description (task : Task) : Prop :=
  exists text, ai_enhanced_description task = Some text /\ text ≠ "".

(** A body that maps field names to arrays of messages. *)
Definition field_errors (errors : list (string * list string)) : JsValue :=
  JObj (map (fun kv => (kv.1, JArr (JStr <$> kv.2))) errors).

(** The error axios throws for a response with status 400 and the given
    body. *)
Definition rejected (body : JsValue) : JsError :=
  {| message := "Request failed with status code 400";
     response := Some {| status := 400; data := body |} |}.


Definition generic_error_message : string := "An unexpected error occurred".


(** The error formatter as the specification words it: the result is a
    string, and it is the [message] member of the body whenever the body
    has one. *)
Definition returns_string (error : JsError) : Prop :=
  exists s, getErrorMessage error = JStr s.

Definition prefers_present_message (error : JsError) : Prop :=
  forall fields m,
    response_data error = JObj fields -> In ("message", m) fields ->
    getErrorMessage error = assoc "message" fields.

End Vocabulary.

(* ====================================================================== *)
(** ** Sample deployments and states                                       *)
(* ====================================================================== *)

Definition empty_world : World := {| localStorage := ∅; network := [] |}.

(** A backend that cannot be reached. *)
Definition offline : Deployment :=
  {| NEXT_PUBLIC_API_URL := None; backend := fun _ => NetworkFailure |}.


Definition mismatch_form : SignupPage.State :=
  {| SignupPage.username := "ada"; SignupPage.password := "secret1";
     SignupPage.confirmPassword := "secret2"; SignupPage.error := JStr "";
     SignupPage.loading := false |}.

Definition matching_form : SignupPage.State :=
  {| SignupPage.username := "ada"; SignupPage.password := "secret1";
     SignupPage.confirmPassword := "secret1"; SignupPage.error := JStr "";
     SignupPage.loading := false |}.

(** A task, before and after its completion. *)
Definition report_task : Task :=
  {| id := 7; title := "Write report"; description := "Quarterly numbers";
     ai_enhanced_description := None; priority := high; priority_score := None;
     due_date := Some "2025-07-05"; ai_suggested_deadline := None;
     is_completed := false; category := None; context_relevance_score := None;
     created_at := "2025-07-01T09:00:00Z"; updated_at := "2025-07-01T09:00:00Z";
     completed_at := None |}.

Definition report_task_done : Task :=
  {| id := 7; title := "Write report"; description := "Quarterly numbers";
     ai_enhanced_description := None; priority := high; priority_score := None;
     due_date := Some "2025-07-05"; ai_suggested_deadline := None;
     is_completed := true; category := None; context_relevance_score := None;
     created_at := "2025-07-01T09:00:00Z"; updated_at := "2025-07-06T10:00:00Z";
     completed_at := Some "2025-07-06T10:00:00Z" |}.

Definition cached (d : CacheData) (at_time : Z) : QueryState :=
  {| state_data := Some d; dataUpdatedAt := at_time; isInvalidated := false |}.

(** A dashboard that has read every task key once. *)
Definition dashboard_client : ClientState :=
  {| queries :=
       <[TaskHooks.taskKeys.list None := cached (DOpaque "page") 1000]>
       (<[TaskHooks.taskKeys.stats := cached (DOpaque "stats") 1000]>
       (<[TaskHooks.taskKeys.today := cached (DOpaque "today") 1000]>
       (<[TaskHooks.taskKeys.overdue := cached (DOpaque "overdue") 1000]>
       (<[TaskHooks.taskKeys.detail 7 := cached (DTask report_task) 1000]> ∅))));
     toasts := [] |}.

Definition work : Category :=
  {| cat_id := 1; cat_name := "Work"; color_code := "#2563eb";
     cat_description := None; usage_count := 3;
     cat_created_at := "2025-07-01T09:00:00Z" |}.

Definition home : Category :=
  {| cat_id := 2; cat_name := "Home"; color_code := "#22c55e";
     cat_description := None; usage_count := 1;
     cat_created_at := "2025-07-01T09:00:00Z" |}.

Definition home_renamed : Category :=
  {| cat_id := 2; cat_name := "Household"; color_code := "#22c55e";
     cat_description := None; usage_count := 1;
     cat_created_at := "2025-07-01T09:00:00Z" |}.

(** A client that has read the category list. *)
Definition categories_client : ClientState :=
  {| queries :=
       <[CategoryHooks.categoryKeys.lists := cached (DCategories [work; home]) 1000]> ∅;
     toasts := [] |}.

(** The error axios throws for a response with the given status and an
    empty object as body. *)
Definition failed_with (st : Z) : JsError :=
  {| message := "Request failed with status code " +:+ num_to_string st;
     response := Some {| status := st; data := JObj [] |} |}.


(* ====================================================================== *)
(** ** [app/login/page.tsx] (both copies)                                  *)
(* ====================================================================== *)

Module LoginPage.

Record State : Type := mkState {
  username : string;
  password : string;
  error : JsValue;
  loading : bool
}.

Definition setError (v : JsValue) (st : State) : State :=
  {| username := username st; password := password st; error := v; loading := loading st |}.

Definition setLoading (b : bool) (st : State) : State :=
  {| username := username st; password := password st; error := error st; loading := b |}.

(** [err?.response?.data?.detail || "Login failed. Please check your
    credentials."]. *)
Definition error_of_failure (err : JsError) : JsValue :=
  if truthy (opt_prop (response_data err) "detail") then
    opt_prop (response_data err) "detail"
  else
    JStr "Login failed. Please check your credentials.".

Record Submission : Type := mkSubmission {
  state_after : State;
  world_after : World;
  pushed : list string;
  defaultPrevented : bool
}.

(** The two copies of the page have the same handler up to the route they
    push after a successful login. *)
Definition handleSubmit_to (target : string) (d : Deployment) (st : State) (w : World)
    : Submission :=
  let st1 := setError (JStr "") (setLoading true st) in
  match authApi.login (username st) (password st) d w with
  | (Ok _, w') =>
      {| state_after := setLoading false st1;
         world_after := w';
         pushed := [target];
         defaultPrevented := true |}
  | (Thrown err, w') =>
      {| state_after := setLoading false (setError (error_of_failure err) st1);
         world_after := w';
         pushed := [];
         defaultPrevented := true |}
  end.

(** [router.push("/dashboard")]. *)
Definition handleSubmit : Deployment -> State -> World -> Submission :=
  handleSubmit_to "/dashboard".

(** [router.push("/")]. *)
Definition handleSubmit_root : Deployment -> State -> World -> Submission :=
  handleSubmit_to "/".

(** [{error && <div>{error}</div>}]: what the error area holds. *)
Definition render_error (error : JsValue) : option JsValue :=
  if truthy error then Some error else None.

End LoginPage.

(* ====================================================================== *)
(** ** [app/dashboard/page.tsx]: the effects and handlers around the hooks *)
(* ====================================================================== *)

Module DashboardPage.

(** The mount effect: [router.replace('/login')] when local storage holds
    no truthy [access_token]. *)
Definition auth_guard (storage : gmap string string) : list string :=
  match storage !! "access_token" with
  | Some token => if truthy_string token then [] else ["/login"]
  | None => ["/login"]
  end.

(** [localStorage.getItem('username') || '']. *)
Definition stored_username (storage : gmap string string) : string :=
  match storage !! "username" with
  | Some name => if truthy_string name then name else ""
  | None => ""
  end.

Definition MOTIVATIONAL_QUOTES : list string :=
  ["You can do it!";
   "Stay productive, stay happy!";
   "Every task done is a step forward.";
   "Small steps every day!";
   "Your future self will thank you!"].

(** The greeting; [pick] is the index
    [Math.floor(Math.random() * MOTIVATIONAL_QUOTES.length)]. *)
Definition greeting (storage : gmap string string) (pick : nat) : option string :=
  if truthy_string (stored_username storage) then
    Some ("Welcome back, " +:+ stored_username storage +:+ "!")
  else MOTIVATIONAL_QUOTES !! pick.










End DashboardPage.

(* ====================================================================== *)
(** ** Running the client                                                  *)
(* ====================================================================== *)

Section Running.

(** The request one call on the instance puts on the wire from [w]. *)
Definition outgoing (d : Deployment) (w : World) (method : HttpMethod) (url : string)
    (params : list (string * JsValue)) (body : JsValue) : Request :=
  request_interceptor (localStorage w) (instance_config d method url params body).

(** A computation that sends nothing. *)
Definition silent {A : Type} (m : M A) : Prop :=
  forall d w, network (m d w).2 = network w.

(** A computation that is one call on the instance followed by work that
    sends nothing. *)
Definition one_call {A : Type} (m : M A) : Prop :=
  exists method url params body (k : AxiosResponse -> M A),
    m = (request method url params body ≫= k) /\ forall r, silent (k r).

Definition is_success (st : Z) : Prop := 200 <= st < 300.

(** The error axios rejects with for a response outside the 2xx range. *)
Definition status_error (st : Z) (body : JsValue) : JsError :=
  {| message := "Request failed with status code " +:+ num_to_string st;
     response := Some {| status := st; data := body |} |}.

Definition network_error : JsError :=
  {| message := "Network Error"; response := None |}.

(** The methods that hand back [response.data] as it is. *)
Definition returns_body (c : ApiCall) : bool :=
  match c with
  | Tasks_deleteTask _ | Categories_deleteCategory _ | Context_deleteContextEntry _
  | Categories_getCategories
  | Auth_login _ _ | Auth_signup _ _ | Auth_logout => false
  | _ => true
  end.

(** The methods declared [Promise<void>] that send a request. *)
Definition returns_nothing (c : ApiCall) : bool :=
  match c with
  | Tasks_deleteTask _ | Categories_deleteCategory _ | Context_deleteContextEntry _
  | Auth_signup _ _ => true
  | _ => false
  end.

(** Logout is the one method that works on local storage alone. *)
Definition sends_request (c : ApiCall) : bool :=
  match c with
  | Auth_logout => false
  | _ => true
  end.

(** The backend does not accept request [r]: axios rejects with [e]. *)
Definition fails_with (d : Deployment) (r : Request) (e : JsError) : Prop :=
  (exists st body,
      backend d r = Responded st body /\ ~ is_success st /\ e = status_error st body) \/
  (backend d r = NetworkFailure /\ e = network_error).

Definition login_fallback : string := "Login failed. Please check your credentials.".

(** A session: calls made one after the other, each from the world the
    previous one left, whether it threw or not. *)
Fixpoint run_calls (calls : list ApiCall) (d : Deployment) (w : World) : World :=
  match calls with
  | [] => w
  | c :: rest => run_calls rest d (invoke c d w).2
  end.

End Running.

(* ====================================================================== *)
(** ** Reads and mutations through the query client                        *)
(* ====================================================================== *)

Module Retryer.

(** The retry loop the query library wraps around a query or mutation
    function: after a failure it asks the [retry] option with the number
    of failures so far, and runs the function again when the answer is
    yes.  (The delay between two runs is not modelled.)  [fuel] bounds
    the number of runs; [None] reports that the bound was reached. *)
Fixpoint run {A : Type} (fuel : nat) (retry : RetryOption) (failureCount : Z)
    (fn : M A) (d : Deployment) (w : World) : option (Outcome A) * World :=
  match fuel with
  | O => (None, w)
  | S fuel' =>
      match fn d w with
      | (Ok a, w') => (Some (Ok a), w')
      | (Thrown e, w') =>
          if shouldRetry retry failureCount e
          then run fuel' retry (failureCount + 1) fn d w'
          else (Some (Thrown e), w')
      end
  end.

End Retryer.

Module ReadHooks.
Import TaskHooks CategoryHooks QueryProvider.

(** The read hooks of [hooks/useTasks.ts] and [hooks/useCategories.ts]. *)
Inductive ReadHook : Type :=
| useTasks (filters : option TaskFilters)
| useTask (id : Z)
| useTaskStats
| useTodayTasks
| useOverdueTasks
| useCategories.

Definition queryKey (h : ReadHook) : QueryKey :=
  match h with
  | useTasks filters => taskKeys.list filters
  | useTask id => taskKeys.detail id
  | useTaskStats => taskKeys.stats
  | useTodayTasks => taskKeys.today
  | useOverdueTasks => taskKeys.overdue
  | useCategories => categoryKeys.lists
  end.

Definition queryFn (h : ReadHook) : M JsValue :=
  match h with
  | useTasks filters => tasksApi.getTasks filters
  | useTask id => tasksApi.getTask id
  | useTaskStats => tasksApi.getStats
  | useTodayTasks => tasksApi.getTodayTasks
  | useOverdueTasks => tasksApi.getOverdueTasks
  | useCategories => categoriesApi.getCategories
  end.

(** The [staleTime] a hook runs with: its own, else the client default. *)
Definition staleTime (h : ReadHook) : Z :=
  match h with
  | useTasks _ => useTasks_staleTime
  | useTask _ => queries_staleTime defaultOptions
  | useTaskStats => useTaskStats_staleTime
  | useTodayTasks => useTodayTasks_staleTime
  | useOverdueTasks => useOverdueTasks_staleTime
  | useCategories => useCategories_staleTime
  end.

(** The hooks whose key holds no filter object: all but [useTasks] called
    with an object. *)
Definition plain_key (h : ReadHook) : bool :=
  match h with
  | useTasks (Some _) => false
  | _ => true
  end.

(** [enabled: !!id] for [useTask]; the other hooks are always enabled. *)
Definition enabled (h : ReadHook) : bool :=
  match h with
  | useTask id => negb (id =? 0)
  | _ => true
  end.

(** Whether mounting the hook at time [now] asks the network: the hook is
    enabled and the cache has no fresh data under its key. *)
Definition fetches_on_mount (h : ReadHook) (cache : QueryCache) (now : Z) : bool :=
  enabled h &&
  match cache !! queryKey h with
  | Some q => isStaleByTime q (staleTime h) now
  | None => true
  end.

(** The network side of one fetch: the query function under the retry
    option of queries. *)
Definition fetch (fuel : nat) (h : ReadHook) : Deployment -> World ->
                                               option (Outcome JsValue) * World :=
  Retryer.run fuel (query_retry None) 0 (queryFn h).

End ReadHooks.

Module Reach.
Import TaskHooks.

(** The query keys a task mutation passes to [invalidateQueries]. *)
Definition invalidated_keys (r : TaskMutationResult) : list QueryKey :=
  match r with
  | CreatedTask _ => [taskKeys.lists; taskKeys.stats; taskKeys.today]
  | UpdatedTask _ | DeletedTask _ | CompletedTask _ =>
      [taskKeys.lists; taskKeys.stats; taskKeys.today; taskKeys.overdue]
  | EnhancedTask _ => [taskKeys.lists]
  end.

(** A cached key is within reach of the invalidations of [r]. *)
Definition reached (r : TaskMutationResult) (k : QueryKey) : bool :=
  existsb (partialMatchKey k) (invalidated_keys r).

(** What the invalidations of [r] do to the query cached under [k]. *)
Definition reach_flag (r : TaskMutationResult) (k : QueryKey) (q : QueryState) : QueryState :=
  if reached r k then invalidate q else q.

End Reach.

Module TaskJson.

(** A response body viewed at its declared type, [Task] of
    [types/index.ts]: the record holds the members of the object.  A
    member the interface marks optional may be missing or [null]; members
    the interface does not name are not kept.  [None]: the body is no
    such object. *)
Definition as_string (v : JsValue) : option string :=
  match v with JStr s => Some s | _ => None end.

Definition as_number (v : JsValue) : option Z :=
  match v with JNum n => Some n | _ => None end.

Definition as_boolean (v : JsValue) : option bool :=
  match v with JBool b => Some b | _ => None end.

Definition as_priority (v : JsValue) : option Priority :=
  match v with
  | JStr s =>
      if String.eqb s "low" then Some low
      else if String.eqb s "medium" then Some medium
      else if String.eqb s "high" then Some high
      else if String.eqb s "urgent" then Some urgent
      else None
  | _ => None
  end.

Definition optional {A : Type} (view : JsValue -> option A) (v : JsValue)
    : option (option A) :=
  match v with
  | JUndefined | JNull => Some None
  | _ => match view v with Some a => Some (Some a) | None => None end
  end.

Definition category_of_json (v : JsValue) : option Category :=
  match v with
  | JObj fields =>
      i ← as_number (assoc "id" fields);
      name ← as_string (assoc "name" fields);
      color ← as_string (assoc "color_code" fields);
      about ← optional as_string (assoc "description" fields);
      used ← as_number (assoc "usage_count" fields);
      created ← as_string (assoc "created_at" fields);
      Some {| cat_id := i; cat_name := name; color_code := color;
              cat_description := about; usage_count := used;
              cat_created_at := created |}
  | _ => None
  end.

Definition task_of_json (v : JsValue) : option Task :=
  match v with
  | JObj fields =>
      i ← as_number (assoc "id" fields);
      title ← as_string (assoc "title" fields);
      description ← as_string (assoc "description" fields);
      enhanced ← optional as_string (assoc "ai_enhanced_description" fields);
      priority ← as_priority (assoc "priority" fields);
      score ← optional as_number (assoc "priority_score" fields);
      due ← optional as_string (assoc "due_date" fields);
      suggested ← optional as_string (assoc "ai_suggested_deadline" fields);
      completed ← as_boolean (assoc "is_completed" fields);
      category ← optional category_of_json (assoc "category" fields);
      relevance ← optional as_number (assoc "context_relevance_score" fields);
      created ← as_string (assoc "created_at" fields);
      updated ← as_string (assoc "updated_at" fields);
      completed_at ← optional as_string (assoc "completed_at" fields);
      Some {| id := i; title := title; description := description;
              ai_enhanced_description := enhanced; priority := priority;
              priority_score := score; due_date := due;
              ai_suggested_deadline := suggested; is_completed := completed;
              category := category; context_relevance_score := relevance;
              created_at := created; updated_at := updated;
              completed_at := completed_at |}
  | _ => None
  end.

End TaskJson.

Module MutationRun.
Import TaskHooks QueryProvider TaskJson.

(** How one [mutate] call ends. *)
Inductive Settled : Type :=
| Done (w : World) (st : ClientState)
| Unfinished
| Untyped (w : World).

(** The argument of [onSuccess] for a mutation whose response is the
    task [t]; the delete handler gets the id it was called with. *)
Definition result_of (m : TaskMutation) (t : Task) : TaskMutationResult :=
  match m with
  | MutateCreate _ => CreatedTask t
  | MutateUpdate _ _ => UpdatedTask t
  | MutateDelete id => DeletedTask id
  | MutateComplete _ => CompletedTask t
  | MutateEnhance _ => EnhancedTask t
  end.

(** The handlers of update, complete and enhance start by reading
    [data.id]. *)
Definition reads_id (m : TaskMutation) : bool :=
  match m with
  | MutateUpdate _ _ | MutateComplete _ | MutateEnhance _ => true
  | MutateCreate _ | MutateDelete _ => false
  end.

(** The callbacks once the mutation function has resolved with [data].
    The delete handler does not look at [data].  A handler that reads
    [data.id] throws on a nullish [data] before it has touched the cache,
    and the library then calls [onError] with that exception.  Otherwise
    the handler runs on the task [data] is; for a [data] that is no task
    the typed cache has no answer ([Untyped]). *)
Definition on_response (now : Z) (m : TaskMutation) (data : JsValue)
    (w : World) (st : ClientState) : Settled :=
  match m with
  | MutateDelete id => Done w (onSuccess now (DeletedTask id) st)
  | _ =>
      match (if reads_id m then prop data "id" else Ok JUndefined) with
      | Thrown e => Done w (onError e st)
      | Ok _ =>
          match task_of_json data with
          | Some t => Done w (onSuccess now (result_of m t) st)
          | None => Untyped w
          end
      end
  end.

(** [mutation.mutate(variables)]: run the mutation function under the
    retry option of mutations, then the callbacks.  [Unfinished]: the
    fuel ran out. *)
Definition mutate (fuel : nat) (now : Z) (m : TaskMutation)
    (d : Deployment) (w : World) (st : ClientState) : Settled :=
  match Retryer.run fuel (mutation_retry mutation_retry_option) 0 (mutationFn m) d w with
  | (Some (Ok data), w') => on_response now m data w' st
  | (Some (Thrown e), w') => Done w' (onError e st)
  | (None, _) => Unfinished
  end.

End MutationRun.

(* ====================================================================== *)
(** ** [lib/utils.ts]: text, date and storage helpers                      *)
(* ====================================================================== *)

Module TextUtils.

(** A JavaScript string as the sequence of its UTF-16 code units, which
    is what [length], [slice] and [trim] work on. *)
Abbreviation CodeUnits := (list N).

(** The code units [trim] strips: white space and line terminators. *)
Definition is_whitespace (c : N) : bool :=
  match c with
  | 9 | 10 | 11 | 12 | 13 | 32 | 160 | 5760
  | 8232 | 8233 | 8239 | 8287 | 12288 | 65279 => true
  | _ => (8192 <=? c) && (c <=? 8202)
  end%N.

Fixpoint trimStart (s : CodeUnits) : CodeUnits :=
  match s with
  | [] => []
  | c :: rest => if is_whitespace c then trimStart rest else s
  end.

Definition trimEnd (s : CodeUnits) : CodeUnits := reverse (trimStart (reverse s)).

Definition trim (s : CodeUnits) : CodeUnits := trimEnd (trimStart s).

(** [s.slice(0, end)] for an integral [end]: a negative [end] counts from
    the end of the string. *)
Definition slice_to (s : CodeUnits) (e : Z) : CodeUnits :=
  let len := Z.of_nat (length s) in
  take (Z.to_nat (if e <? 0 then Z.max (len + e) 0 else Z.min e len)) s.

(** ['...']. *)
Definition ellipsis : CodeUnits := [46; 46; 46]%N.

Definition truncateText (text : CodeUnits) (maxLength : Z) : CodeUnits :=
  if Z.of_nat (length text) <=? maxLength then text
  else trim (slice_to text maxLength) ++ ellipsis.

(** The default [maxLength = 100]. *)
Definition truncateText_default (text : CodeUnits) : CodeUnits := truncateText text 100.

End TextUtils.

Module DateUtils.

(** What the date library answers about a date at the time of the call:
    [isPast], [isToday], [isTomorrow]. *)
Record DateFacts : Type := mkFacts {
  isPast : bool;
  isToday : bool;
  isTomorrow : bool
}.

Definition isOverdue (date : DateFacts) : bool :=
  isPast date && negb (isToday date).

Record DateStatus : Type := mkStatus {
  status_isOverdue : bool;
  status_isToday : bool;
  status_isTomorrow : bool;
  className : string
}.

Definition getDateStatus (date : DateFacts) : DateStatus :=
  let overdue := isPast date && negb (isToday date) in
  let today := isToday date in
  let tomorrow := isTomorrow date in
  {| status_isOverdue := overdue;
     status_isToday := today;
     status_isTomorrow := tomorrow;
     className :=
       if overdue then "text-red-600"
       else if today then "text-blue-600"
       else if tomorrow then "text-purple-600"
       else "text-gray-600" |}.

(** The due-date badge of a task card:
    [dateStatus?.className || 'bg-gray-100 text-gray-700'] and the
    "(Overdue)" mark. *)
Definition badge_class (date : DateFacts) : string :=
  if truthy_string (className (getDateStatus date)) then className (getDateStatus date)
  else "bg-gray-100 text-gray-700".

Definition shows_overdue_mark (date : DateFacts) : bool :=
  status_isOverdue (getDateStatus date).

End DateUtils.

Module StorageUtils.

(** [window]: [None] while rendering on the server, the browser's local
    storage otherwise. *)
Definition getFromStorage (window : option (gmap string string)) (key : string)
    : option string :=
  match window with
  | None => None
  | Some storage => storage !! key
  end.

Definition setToStorage (window : option (gmap string string)) (key value : string)
    : option (gmap string string) :=
  match window with
  | None => None
  | Some storage => Some (<[key := value]> storage)
  end.

Definition removeFromStorage (window : option (gmap string string)) (key : string)
    : option (gmap string string) :=
  match window with
  | None => None
  | Some storage => Some (delete key storage)
  end.

End StorageUtils.

(* ====================================================================== *)
(** ** [components/tasks/TaskCard.tsx]: what the card shows                *)
(* ====================================================================== *)

Module TaskCardView.
Import TaskCard.

(** [task.ai_enhanced_description || task.description]. *)
Definition shown_description (task : Task) : string :=
  match ai_enhanced_description task with
  | Some text => if truthy_string text then text else description task
  | None => description task
  end.

(** The description block is rendered when that text is truthy. *)
Definition shows_description (task : Task) : bool :=
  truthy_string (shown_description task).

End TaskCardView.

(* ====================================================================== *)
(** ** [components/dashboard/AIContextAnalyzer.tsx]                        *)
(* ====================================================================== *)

Module AIContextAnalyzer.

(** The component state.  [unprocessedEntries] is kept as the ids of the
    entries, the one member the handlers read; [queuedResults] lists, in
    order, the results each queued [setAnalysisResults] updater appends. *)
Record State : Type := mkState {
  unprocessedEntries : list Z;
  analyzing : bool;
  queuedResults : list JsValue;
  error : option JsValue
}.

Definition setError (v : option JsValue) (st : State) : State :=
  {| unprocessedEntries := unprocessedEntries st; analyzing := analyzing st;
     queuedResults := queuedResults st; error := v |}.

Definition setAnalyzing (b : bool) (st : State) : State :=
  {| unprocessedEntries := unprocessedEntries st; analyzing := b;
     queuedResults := queuedResults st; error := error st |}.

Definition setUnprocessedEntries (ids : list Z) (st : State) : State :=
  {| unprocessedEntries := ids; analyzing := analyzing st;
     queuedResults := queuedResults st; error := error st |}.

Definition queueResults (v : JsValue) (st : State) : State :=
  {| unprocessedEntries := unprocessedEntries st; analyzing := analyzing st;
     queuedResults := queuedResults st ++ [v]; error := error st |}.

(** [a || b] on a value and a string literal. *)
Definition or_text (v : JsValue) (text : string) : JsValue :=
  if truthy v then v else JStr text.

Section WithEntries.
(** The response of [getUnprocessed] viewed at its declared type,
    [ContextEntry[]], as the ids of the entries. *)
Variable entry_ids : JsValue -> list Z.

(** [fetchUnprocessedEntries]: a failure is logged and changes
    nothing. *)
Definition fetchUnprocessedEntries (d : Deployment) (st : State) (w : World)
    : State * World :=
  match contextApi.getUnprocessed d w with
  | (Ok entries, w') => (setUnprocessedEntries (entry_ids entries) st, w')
  | (Thrown _, w') => (st, w')
  end.

(** The part of a handler after [result] has arrived, up to the
    [finally] block. *)
Definition settle (accept : JsValue -> JsValue) (failed rejected : string)
    (result : Outcome JsValue) (d : Deployment) (st : State) (w : World)
    : State * World :=
  match result with
  | Thrown _ => (setError (Some (JStr failed)) st, w)
  | Ok result =>
      match prop result "success" with
      | Thrown _ => (setError (Some (JStr failed)) st, w)
      | Ok success =>
          if truthy success then
            fetchUnprocessedEntries d (queueResults (accept result) st) w
          else
            (setError (Some (or_text (opt_prop result "error") rejected)) st, w)
      end
  end.

(** The entries the panel holds after a refresh sent from [w]: the
    answer when the refresh succeeds, the ones it had otherwise. *)
Definition entries_after_refresh (d : Deployment) (w : World) (current : list Z)
    : list Z :=
  match backend d (outgoing d w GET "/context/unprocessed/" [] JUndefined) with
  | Responded code entries =>
      if (200 <=? code) && (code <? 300) then entry_ids entries else current
  | NetworkFailure => current
  end.

Definition handleAnalyzeSingle (entryId : Z) (d : Deployment) (st : State) (w : World)
    : State * World :=
  let st1 := setError None (setAnalyzing true st) in
  let '(result, w1) := contextApi.analyzeContext entryId d w in
  let '(st2, w2) :=
    settle (fun result => JArr [result])
           "Failed to analyze context entry" "Analysis failed" result d st1 w1 in
  (setAnalyzing false st2, w2).

Definition handleBulkProcess (d : Deployment) (st : State) (w : World) : State * World :=
  match unprocessedEntries st with
  | [] => (st, w)
  | _ :: _ =>
      let st1 := setError None (setAnalyzing true st) in
      let '(result, w1) := contextApi.bulkProcess (unprocessedEntries st) d w in
      let '(st2, w2) :=
        settle (fun result => opt_prop result "results")
               "Failed to process context entries" "Bulk processing failed"
               result d st1 w1 in
      (setAnalyzing false st2, w2)
  end.

End WithEntries.

End AIContextAnalyzer.

(* ====================================================================== *)
(** ** Sample deployments and states                                       *)
(* ====================================================================== *)

(** A backend that accepts every request and answers with a token pair. *)
Definition token_issuer : Deployment :=
  {| NEXT_PUBLIC_API_URL := None;
     backend := fun _ =>
       Responded 200 (JObj [("access", JStr "a1"); ("refresh", JStr "r1")]) |}.

(** A backend that answers every request with one page of results. *)
Definition paging : Deployment :=
  {| NEXT_PUBLIC_API_URL := None;
     backend := fun _ =>
       Responded 200 (JObj [("count", JNum 1); ("results", JArr [JStr "Work"])]) |}.

(** A backend that is overloaded. *)
Definition unavailable : Deployment :=
  {| NEXT_PUBLIC_API_URL := None; backend := fun _ => Responded 503 (JObj []) |}.

(** A backend whose processing calls succeed. *)
Definition processing : Deployment :=
  {| NEXT_PUBLIC_API_URL := None;
     backend := fun _ =>
       Responded 200 (JObj [("success", JBool true); ("results", JArr [JStr "summary"])]) |}.

(** A browser that holds an access token. *)
Definition signed_in : World :=
  {| localStorage := {["access_token" := "a1"]}; network := [] |}.

Definition login_form : LoginPage.State :=
  {| LoginPage.username := "ada"; LoginPage.password := "secret1";
     LoginPage.error := JStr ""; LoginPage.loading := false |}.

(** The context panel with two entries waiting. *)
Definition waiting_panel : AIContextAnalyzer.State :=
  {| AIContextAnalyzer.unprocessedEntries := [4; 9];
     AIContextAnalyzer.analyzing := false;
     AIContextAnalyzer.queuedResults := [];
     AIContextAnalyzer.error := None |}.

(** The report task once the assistant has rewritten its description. *)
Definition report_task_enhanced : Task :=
  {| id := 7; title := "Write report"; description := "Quarterly numbers";
     ai_enhanced_description := Some "Collect the quarterly numbers and write them up";
     priority := high; priority_score := None;
     due_date := Some "2025-07-05"; ai_suggested_deadline := None;
     is_completed := false; category := None; context_relevance_score := None;
     created_at := "2025-07-01T09:00:00Z"; updated_at := "2025-07-02T09:00:00Z";
     completed_at := None |}.

(** The report task as the backend sends it. *)
Definition report_task_json : JsValue :=
  JObj [("id", JNum 7); ("title", JStr "Write report");
        ("description", JStr "Quarterly numbers");
        ("ai_enhanced_description", JNull); ("priority", JStr "high");
        ("priority_score", JNull); ("due_date", JStr "2025-07-05");
        ("ai_suggested_deadline", JNull); ("is_completed", JBool false);
        ("category", JNull); ("context_relevance_score", JNull);
        ("created_at", JStr "2025-07-01T09:00:00Z");
        ("updated_at", JStr "2025-07-01T09:00:00Z"); ("completed_at", JNull)].

(** A backend that answers every request with the report task. *)
Definition task_store : Deployment :=
  {| NEXT_PUBLIC_API_URL := None; backend := fun _ => Responded 200 report_task_json |}.

(** ['  ab  cd'] as code units. *)
Definition padded_text : TextUtils.CodeUnits := [32; 32; 97; 98; 32; 32; 99; 100]%N.
(* ====================================================================== *)
(** * Properties                                                           *)
(* ====================================================================== *)

(** ** Truthiness of strings *)

Lemma truthy_string_true s : truthy_string s = true <-> s ≠ "".
Proof. destruct s; cbn; split; done. Qed.

Lemma truthy_string_false s : truthy_string s = false <-> s = "".
Proof. destruct s; cbn; split; done. Qed.

(** ** Lookups after the three cache operations *)

Section CacheLookups.
Implicit Types (cache : QueryCache) (k key : QueryKey).

Lemma lookup_invalidateQueries key cache k :
  invalidateQueries key cache !! k =
  (fun q => if partialMatchKey k key then invalidate q else q) <$> cache !! k.
Proof.
  unfold invalidateQueries. rewrite map_lookup_imap.
  by destruct (cache !! k).
Qed.

Lemma lookup_removeQueries key cache k :
  removeQueries key cache !! k =
  if partialMatchKey k key then None else cache !! k.
Proof.
  unfold removeQueries.
  destruct (partialMatchKey k key) eqn:Hm.
  - apply map_lookup_filter_None. right. intros q _. simpl. congruence.
  - destruct (cache !! k) as [q|] eqn:Hk.
    + apply map_lookup_filter_Some. by split.
    + apply map_lookup_filter_None. by left.
Qed.

Lemma lookup_setQueryData key d now cache k :
  setQueryData key d now cache !! k =
  if decide (key = k)
  then Some {| state_data := Some d; dataUpdatedAt := now; isInvalidated := false |}
  else cache !! k.
Proof. unfold setQueryData. apply lookup_insert. Qed.

Lemma partialMatchKey_refl k : partialMatchKey k k = true.
Proof.
  induction k as [|x k IH]; [done|]. simpl.
  rewrite bool_decide_eq_true_2; done.
Qed.

Lemma partialMatchKey_app k suffix : partialMatchKey (k ++ suffix) k = true.
Proof.
  induction k as [|x k IH]; [by destruct suffix|]. simpl.
  rewrite bool_decide_eq_true_2; done.
Qed.

Lemma partialMatchKey_prefix k key :
  partialMatchKey k key = true <-> exists suffix, k = key ++ suffix.
Proof.
  revert k. induction key as [|y key IH]; intros k; simpl.
  - split; [intros _; by exists k | done].
  - destruct k as [|x k].
    + split; [done | intros [s Hs]; discriminate].
    + rewrite andb_true_iff, bool_decide_eq_true, IH. split.
      * intros [-> [s ->]]. by exists s.
      * intros [s Hs]. simplify_eq. split; [done | by exists s].
Qed.

End CacheLookups.

(** ** Task mutations: what [onSuccess] does to the cache *)

Section TaskSynchronisation.
Import TaskHooks Matrix.

(** Evaluate the key comparisons between the closed key families. *)
Ltac eval_matches :=
  repeat match goal with
         | |- context [partialMatchKey ?a ?b] =>
             let v := eval vm_compute in (partialMatchKey a b) in
             match v with
             | true => change (partialMatchKey a b) with true
             | false => change (partialMatchKey a b) with false
             end
         end.

Ltac unfold_handlers :=
  unfold onSuccess, useCreateTask_onSuccess, useUpdateTask_onSuccess,
    useDeleteTask_onSuccess, useCompleteTask_onSuccess, useEnhanceTask_onSuccess,
    toast, onCache;
  cbn [queries toasts].

Lemma class_key_not_detail c k i :
  in_class c k -> partialMatchKey k (taskKeys.detail i) = false.
Proof.
  destruct c; simpl; [intros [->|[f ->]] | intros -> ..]; reflexivity.
Qed.

Lemma class_key_neq_detail c k i : in_class c k -> taskKeys.detail i ≠ k.
Proof.
  intros Hc <-. apply (class_key_not_detail _ _ i) in Hc.
  by rewrite partialMatchKey_refl in Hc.
Qed.

Lemma invalidate_keeps_data q : state_data (invalidate q) = state_data q.
Proof. done. Qed.

Lemma invalidated_is_stale q staleTime t :
  isInvalidated q = true -> isStaleByTime q staleTime t = true.
Proof. unfold isStaleByTime. intros ->. by destruct (state_data q). Qed.

(** C1.  For each of the five task mutations, the success handler
    invalidates every cached key of every class in the mutation's row of
    the matrix (the data stays, the flag is set, so the next read is
    stale whatever its freshness window); update, complete and enhance
    leave the returned task, fresh, under the detail key of its id;
    delete leaves no entry under the detail key of the deleted id. *)
Theorem task_mutation_applies_matrix_row
    (now : Z) (r : TaskMutationResult) (st : ClientState) :
  let st' := onSuccess now r st in
  (forall c k q,
      c ∈ invalidation_set r -> in_class c k -> queries st !! k = Some q ->
      exists q',
        queries st' !! k = Some q' /\
        isInvalidated q' = true /\
        state_data q' = state_data q /\
        forall staleTime t, isStaleByTime q' staleTime t = true) /\
  (forall t, written_task r = Some t ->
      queries st' !! taskKeys.detail (id t) = Some (fresh_entry (DTask t) now)) /\
  (forall i, evicted_id r = Some i ->
      forall k, partialMatchKey k (taskKeys.detail i) = true ->
                queries st' !! k = None).
Proof.
  intros st'. subst st'. split; [|split].
  - intros c k q Hc Hk Hq.
    assert (Hstale : forall q', isInvalidated q' = true -> state_data q' = state_data q ->
              isInvalidated q' = true /\ state_data q' = state_data q /\
              forall staleTime t, isStaleByTime q' staleTime t = true).
    { intros q' Hi Hd. repeat split; [done..|]. intros. by apply invalidated_is_stale. }
    assert (Hnd : forall i, partialMatchKey k (taskKeys.detail i) = false)
      by (intros i; by apply (class_key_not_detail c)).
    assert (Hne : forall i, taskKeys.detail i ≠ k)
      by (intros i; by apply (class_key_neq_detail c)).
    destruct r as [t|t|i|t|t]; unfold_handlers;
      rewrite ?lookup_invalidateQueries, ?lookup_removeQueries, ?lookup_setQueryData;
      rewrite ?Hnd, ?decide_False by done;
      rewrite Hq; cbn [fmap option_fmap option_map invalidation_set] in *;
      repeat (apply elem_of_cons in Hc as [->|Hc]); try by apply elem_of_nil in Hc.
    all: cbn [in_class] in Hk; try destruct Hk as [->|[f ->]]; try subst k.
    all: eval_matches; eexists; (split; [reflexivity|]); by apply Hstale.
  - intros t Ht.
    destruct r as [t'|t'|i|t'|t']; cbn [written_task] in Ht; simplify_eq;
      unfold_handlers;
      rewrite ?lookup_invalidateQueries, ?lookup_setQueryData;
      rewrite decide_True by done; cbn [fmap option_fmap option_map];
      eval_matches; reflexivity.
  - intros i Hi k Hk.
    destruct r as [t'|t'|i'|t'|t']; cbn [evicted_id] in Hi; simplify_eq.
    unfold_handlers.
    rewrite !lookup_invalidateQueries, lookup_removeQueries, Hk. done.
Qed.

Lemma unmatched_neq k key : partialMatchKey k key = false -> key ≠ k.
Proof. intros Hm ->. by rewrite partialMatchKey_refl in Hm. Qed.

Lemma fmap_id_lookup (cache : QueryCache) k :
  (fun q : QueryState => q) <$> cache !! k = cache !! k.
Proof. by destruct (cache !! k). Qed.

(** C2.  A cached key that extends none of the keys listed in the
    mutation's row of the matrix is left exactly as it was by the success
    handler.  In particular creating a task leaves the overdue key alone,
    and enhancing a task leaves the stats, today and overdue keys alone. *)
Theorem task_mutation_leaves_other_keys
    (now : Z) (r : TaskMutationResult) (st : ClientState) :
  (forall k, row_touches r k = false ->
             queries (onSuccess now r st) !! k = queries st !! k) /\
  (forall newTask,
      queries (useCreateTask_onSuccess newTask st) !! taskKeys.overdue =
      queries st !! taskKeys.overdue) /\
  (forall enhancedTask,
      let st' := useEnhanceTask_onSuccess now enhancedTask st in
      queries st' !! taskKeys.stats = queries st !! taskKeys.stats /\
      queries st' !! taskKeys.today = queries st !! taskKeys.today /\
      queries st' !! taskKeys.overdue = queries st !! taskKeys.overdue).
Proof.
  split; [|split].
  - intros k Hk. unfold row_touches in Hk.
    destruct r as [t|t|i|t|t]; cbn [row_keys existsb] in Hk;
      repeat (apply orb_false_iff in Hk as [? Hk]);
      unfold_handlers;
      rewrite ?lookup_invalidateQueries, ?lookup_removeQueries, ?lookup_setQueryData;
      repeat match goal with
             | H : partialMatchKey k _ = false |- _ =>
                 rewrite ?H; try rewrite (decide_False (P := _ = k)) by
                   (by apply unmatched_neq); clear H
             end;
      by rewrite ?fmap_id_lookup.
  - intros newTask. unfold_handlers.
    rewrite !lookup_invalidateQueries. eval_matches.
    by rewrite !fmap_id_lookup.
  - intros enhancedTask st'. subst st'. unfold_handlers.
    rewrite !lookup_invalidateQueries, !lookup_setQueryData. eval_matches.
    rewrite !decide_False by discriminate.
    by rewrite !fmap_id_lookup.
Qed.

End TaskSynchronisation.

(** ** Retry policy of the query client *)

Section RetryPolicy.
Import QueryProvider TaskHooks.

(** C3.  The retry predicate installed for queries answers [false] for
    every error that carries a response status in [400, 500), whatever
    the failure count; for every other error it answers [true] exactly
    when the failure count is below 3.  Mutations run with [retry: false]:
    the retryer never retries them. *)
Theorem retry_policy (failureCount : Z) (error : JsError) :
  shouldRetry (query_retry None) failureCount error = queries_retry failureCount error /\
  (carries_client_error_status error -> queries_retry failureCount error = false) /\
  (~ carries_client_error_status error ->
     (queries_retry failureCount error = true <-> failureCount < 3)) /\
  shouldRetry (mutation_retry mutation_retry_option) failureCount error = false.
Proof.
  unfold carries_client_error_status, queries_retry, response_status, js_ge, js_lt.
  split; [reflexivity|]. split; [|split; [|reflexivity]].
  - intros (s & Hs & Hlo & Hhi).
    destruct (response error) as [r|]; simplify_eq/=.
    rewrite (proj2 (Z.leb_le _ _)), (proj2 (Z.ltb_lt _ _)) by done. done.
  - intros Hno.
    destruct (response error) as [r|]; cbn [fmap option_fmap option_map andb].
    + destruct (400 <=? status r) eqn:Hlo, (status r <? 500) eqn:Hhi;
        cbn [andb]; try apply Z.ltb_lt.
      exfalso. apply Hno. exists (status r).
      apply Z.leb_le in Hlo. apply Z.ltb_lt in Hhi. done.
    + apply Z.ltb_lt.
Qed.

End RetryPolicy.

(** ** Category mutations: the cached category list *)

Section CategorySynchronisation.
Import CategoryHooks.

Lemma setCategoryList_ok f now st old :
  category_list_is st old ->
  setCategoryList f now st =
  (Ok tt,
   {| queries := <[categoryKeys.lists := fresh_entry (DCategories (f old)) now]> (queries st);
      toasts := toasts st |}).
Proof.
  unfold category_list_is, setCategoryList, setQueryDataWith. intros ->.
  by destruct old.
Qed.

Lemma category_list_is_insert (cache : QueryCache) cs now ts :
  category_list_is
    {| queries := <[categoryKeys.lists := fresh_entry (DCategories cs) now]> cache;
       toasts := ts |}
    (Some cs).
Proof. unfold category_list_is. cbn [queries]. by rewrite lookup_insert_eq. Qed.

(** C4.  With [old] cached under the category-list key:
    - create leaves [old] followed by the new category (the singleton list
      when nothing was cached);
    - update overwrites the detail entry of the returned category's id
      and leaves a list of the same length in which every entry with that
      id is the returned category and every other entry is unchanged, in
      place;
    - delete leaves no detail entry for the deleted id and leaves the
      list without the entries of that id, the others in their order. *)
Theorem category_mutations_maintain_list (now : Z) (st : ClientState) :
  (forall newCategory old,
      category_list_is st old ->
      exists st',
        useCreateCategory_onSuccess now newCategory st = (Ok tt, st') /\
        category_list_is st' (Some (default [] old ++ [newCategory]))) /\
  (forall updatedCategory old,
      category_list_is st (Some old) ->
      exists st' new,
        useUpdateCategory_onSuccess now updatedCategory st = (Ok tt, st') /\
        queries st' !! categoryKeys.detail (cat_id updatedCategory) =
          Some (fresh_entry (DCategory updatedCategory) now) /\
        category_list_is st' (Some new) /\
        length new = length old /\
        forall (i : nat) cat,
          old !! i = Some cat ->
          new !! i = Some (if decide (cat_id cat = cat_id updatedCategory)
                           then updatedCategory else cat)) /\
  (forall deletedId old,
      category_list_is st (Some old) ->
      exists st' new,
        useDeleteCategory_onSuccess now deletedId st = (Ok tt, st') /\
        (forall k, partialMatchKey k (categoryKeys.detail deletedId) = true ->
                   queries st' !! k = None) /\
        category_list_is st' (Some new) /\
        new = filter (fun cat => cat_id cat ≠ deletedId) old /\
        new `sublist_of` old /\
        forall cat, cat ∈ new <-> cat ∈ old /\ cat_id cat ≠ deletedId).
Proof.
  split; [|split].
  - intros newCategory old Hold.
    unfold useCreateCategory_onSuccess.
    rewrite (setCategoryList_ok _ _ _ old Hold).
    eexists. split; [reflexivity|].
    unfold toast. cbn [queries toasts].
    destruct old; apply category_list_is_insert.
  - intros u old Hold.
    unfold useUpdateCategory_onSuccess.
    erewrite (setCategoryList_ok _ _ _ (Some old)); cycle 1.
    { unfold category_list_is, onCache in *. cbn [queries].
      rewrite lookup_setQueryData, decide_False by discriminate. done. }
    eexists _, _. split; [reflexivity|].
    unfold toast, onCache. cbn [queries toasts].
    split; [|split; [apply category_list_is_insert|split]].
    + rewrite lookup_insert_ne by discriminate.
      by rewrite lookup_setQueryData, decide_True.
    + cbn [update_updater]. apply length_map.
    + intros i cat Hi. cbn [update_updater].
      rewrite list_lookup_fmap, Hi. cbn. f_equal.
      destruct (Z.eqb_spec (cat_id cat) (cat_id u)); by case_decide.
  - intros deletedId old Hold.
    unfold useDeleteCategory_onSuccess.
    erewrite (setCategoryList_ok _ _ _ (Some old)); cycle 1.
    { unfold category_list_is, onCache in *. cbn [queries].
      rewrite lookup_removeQueries. by change (partialMatchKey _ _) with false. }
    eexists _, _. split; [reflexivity|].
    unfold toast, onCache. cbn [queries toasts].
    split; [|split; [apply category_list_is_insert|split; [reflexivity|split]]].
    + intros k Hk.
      rewrite lookup_insert_ne.
      * by rewrite lookup_removeQueries, Hk.
      * intros <-. discriminate Hk.
    + cbn [delete_updater]. apply sublist_filter.
    + intros cat. cbn [delete_updater]. rewrite list_elem_of_filter. tauto.
Qed.

(** With nothing cached under the category-list key, update leaves the
    one-element list of the returned category and delete leaves the empty
    list. *)
Lemma category_mutations_without_cached_list (now : Z) (st : ClientState) :
  category_list_is st None ->
  (forall updatedCategory,
      category_list_is (useUpdateCategory_onSuccess now updatedCategory st).2
        (Some [updatedCategory])) /\
  (forall deletedId,
      category_list_is (useDeleteCategory_onSuccess now deletedId st).2 (Some [])).
Proof.
  intros Hnone. split.
  - intros u. unfold useUpdateCategory_onSuccess.
    erewrite (setCategoryList_ok _ _ _ None); [apply category_list_is_insert|].
    unfold category_list_is, onCache in *. cbn [queries].
    by rewrite lookup_setQueryData, decide_False by discriminate.
  - intros i. unfold useDeleteCategory_onSuccess.
    erewrite (setCategoryList_ok _ _ _ None); [apply category_list_is_insert|].
    unfold category_list_is, onCache in *. cbn [queries].
    rewrite lookup_removeQueries. by change (partialMatchKey _ _) with false.
Qed.

End CategorySynchronisation.

(** ** The API client and local storage *)

Section ApiClient.

Lemma read_only_ret {A : Type} (a : A) : read_only (mret a).
Proof.
  intros d w. split; [done|]. exists []. split; [|done].
  cbn. by rewrite app_nil_r.
Qed.

Lemma read_only_lift {A : Type} (o : Outcome A) : read_only (lift o).
Proof.
  intros d w. split; [done|]. exists []. split; [|done].
  cbn. by rewrite app_nil_r.
Qed.

Lemma read_only_bind {A B : Type} (m : M A) (k : A -> M B) :
  read_only m -> (forall a, read_only (k a)) -> read_only (m ≫= k).
Proof.
  intros Hm Hk d w. destruct (Hm d w) as (Hs & new & Hn & Hall).
  unfold mbind, M_bind. destruct (m d w) as [[a|e] w1]; cbn [snd] in *.
  - destruct (Hk a d w1) as (Hs' & new' & Hn' & Hall'). split; [congruence|].
    exists (new ++ new'). rewrite Hn', Hn, app_assoc. split; [done|].
    apply Forall_app. split; [done|]. by rewrite <- Hs.
  - split; [done|]. by exists new.
Qed.

Lemma read_only_request method url params body :
  read_only (request method url params body).
Proof.
  intros d w. unfold request.
  destruct (backend d _) as [st b|]; [destruct (_ && _)|]; cbn [snd localStorage network];
    (split; [done|]); eexists [_]; (split; [done|]);
    apply Forall_singleton; by exists (instance_config d method url params body).
Qed.

Create HintDb api_frame.
Hint Resolve read_only_ret read_only_lift read_only_request : api_frame.
Hint Extern 1 (read_only (_ ≫= _)) => apply read_only_bind; [|intros ?] : api_frame.
Hint Extern 2 (read_only _) =>
  progress unfold api_get, api_post, api_patch, api_delete : api_frame.

Lemma other_methods_read_only c : touches_storage c = false -> read_only (invoke c).
Proof.
  destruct c; try discriminate; intros _; cbn [invoke];
    unfold tasksApi.getTasks, tasksApi.getTask, tasksApi.createTask, tasksApi.updateTask,
      tasksApi.deleteTask, tasksApi.completeTask, tasksApi.enhanceTask,
      tasksApi.getAIRecommendations, tasksApi.recalculatePriority, tasksApi.getStats,
      tasksApi.getTodayTasks, tasksApi.getOverdueTasks,
      categoriesApi.getCategories, categoriesApi.createCategory,
      categoriesApi.updateCategory, categoriesApi.deleteCategory,
      contextApi.getContextEntries, contextApi.createContextEntry,
      contextApi.updateContextEntry, contextApi.deleteContextEntry,
      contextApi.analyzeContext, contextApi.getSummary, contextApi.bulkProcess,
      contextApi.getUnprocessed, contextApi.getHighRelevance,
      contextApi.getWithSuggestions,
      aiApi.enhanceTask, aiApi.getTaskRecommendations, aiApi.suggestTasksFromContext,
      aiApi.analyzeContext, aiApi.generateContextSummary, aiApi.bulkProcessContext,
      aiApi.generateDailyInsights, aiApi.analyzeProductivityPatterns, aiApi.healthCheck,
      insightsApi.getInsights, insightsApi.getInsight,
      insightsApi.getActionableInsights, insightsApi.dismissInsight,
      authApi.signup;
    eauto 10 with api_frame.
Qed.

Lemma sent_without_token storage r :
  storage !! "access_token" = None ->
  sent_from storage r -> req_headers r !! "Authorization" = None.
Proof.
  intros Hnone (config & Hh & ->). unfold request_interceptor.
  rewrite Hnone, Hh. done.
Qed.

(** What a single call does, by what the backend answers to the request
    it puts on the wire. *)
Lemma one_call_run {A : Type} method url params body (k : AxiosResponse -> M A) d w :
  let r := outgoing d w method url params body in
  let w' := {| localStorage := localStorage w; network := network w ++ [r] |} in
  (request method url params body ≫= k) d w =
  match backend d r with
  | Responded st b =>
      if (200 <=? st) && (st <? 300) then k {| status := st; data := b |} d w'
      else (Thrown (status_error st b), w')
  | NetworkFailure => (Thrown network_error, w')
  end.
Proof.
  intros r w'. subst r w'. unfold mbind, M_bind, request, outgoing.
  destruct (backend d _) as [st b|]; [|done]. by destruct (_ && _).
Qed.

Lemma is_success_true st : is_success st -> (200 <=? st) && (st <? 300) = true.
Proof.
  intros [Hlo Hhi]. apply andb_true_iff. split; [by apply Z.leb_le | by apply Z.ltb_lt].
Qed.

Lemma is_success_false st : ~ is_success st -> (200 <=? st) && (st <? 300) = false.
Proof.
  intros Hno. apply not_true_is_false. intros Ht. apply Hno.
  apply andb_true_iff in Ht as [Hlo Hhi].
  split; [by apply Z.leb_le | by apply Z.ltb_lt].
Qed.

Lemma login_accepted username password d w st body :
  backend d (outgoing d w POST "/auth/login/" [] (authApi.credentials username password)) =
    Responded st body ->
  is_success st -> body ≠ JUndefined -> body ≠ JNull ->
  authApi.login username password d w =
  (Ok JUndefined,
   {| localStorage :=
        <["refresh_token" := to_string (opt_prop body "refresh")]>
          (<["access_token" := to_string (opt_prop body "access")]> (localStorage w));
      network := network w ++
        [outgoing d w POST "/auth/login/" [] (authApi.credentials username password)] |}).
Proof.
  intros Hr Hst Hu Hn. apply is_success_true in Hst.
  unfold authApi.login, api_post. rewrite one_call_run, Hr, Hst. cbn [data].
  by destruct body.
Qed.

Lemma login_request_and_storage username password d w :
  let sent := request_interceptor (localStorage w)
                (instance_config d POST "/auth/login/" []
                   (authApi.credentials username password)) in
  let result := authApi.login username password d w in
  network result.2 = network w ++ [sent] /\
  match result.1 with
  | Ok _ =>
      exists st body,
        backend d sent = Responded st body /\
        localStorage result.2 =
        <["refresh_token" := to_string (opt_prop body "refresh")]>
          (<["access_token" := to_string (opt_prop body "access")]> (localStorage w))
  | Thrown _ => localStorage result.2 = localStorage w
  end.
Proof.
  intros sent result. subst sent result.
  unfold authApi.login, api_post, request, mbind, M_bind.
  destruct (backend d _) as [st body|]; [destruct (_ && _)|]; cbn; [|done..].
  destruct body; cbn; try done; (split; [done|]); by eexists _, _.
Qed.

(** C5.  Over every deployment and world:
    - login changes no local-storage key other than [access_token] and
      [refresh_token]; when the backend answers its request with a 2xx
      status and a body that is not [null], login completes and has
      written both keys (the [access] and [refresh] members of the body,
      as strings); it completes in no other case, and when it throws it
      has written nothing;
    - logout removes exactly those two keys;
    - every other method of the client leaves local storage as it was;
    - when local storage holds no [access_token], every request any
      method sends carries no [Authorization] header; this is the case
      for every call made in the world logout leaves. *)
Theorem local_storage_discipline (d : Deployment) (w : World) :
  (forall username password,
      let result := authApi.login username password d w in
      let sent := request_interceptor (localStorage w)
                    (instance_config d POST "/auth/login/" []
                       (authApi.credentials username password)) in
      (forall key, key ≠ "access_token" -> key ≠ "refresh_token" ->
                   localStorage result.2 !! key = localStorage w !! key) /\
      (forall st body,
          backend d sent = Responded st body ->
          is_success st -> body ≠ JUndefined -> body ≠ JNull ->
          result.1 = Ok JUndefined /\
          localStorage result.2 !! "access_token" =
            Some (to_string (opt_prop body "access")) /\
          localStorage result.2 !! "refresh_token" =
            Some (to_string (opt_prop body "refresh"))) /\
      match result.1 with
      | Ok _ =>
          exists st body,
            backend d sent = Responded st body /\
            localStorage result.2 =
            <["refresh_token" := to_string (opt_prop body "refresh")]>
              (<["access_token" := to_string (opt_prop body "access")]> (localStorage w))
      | Thrown _ => localStorage result.2 = localStorage w
      end) /\
  localStorage (authApi.logout d w).2 =
    delete "refresh_token" (delete "access_token" (localStorage w)) /\
  network (authApi.logout d w).2 = network w /\
  (forall c, touches_storage c = false ->
             localStorage (invoke c d w).2 = localStorage w) /\
  (localStorage w !! "access_token" = None ->
   forall c, sends_unauthenticated (invoke c) d w) /\
  (forall c, sends_unauthenticated (invoke c) d (authApi.logout d w).2).
Proof.
  assert (Hunauth : forall w0, localStorage w0 !! "access_token" = None ->
                               forall c, sends_unauthenticated (invoke c) d w0).
  { intros w0 Hnone c. unfold sends_unauthenticated.
    destruct (touches_storage c) eqn:Hc.
    - destruct c; try discriminate; cbn [invoke].
      + destruct (login_request_and_storage username password d w0) as (Hnet & _).
        eexists [_]. split; [exact Hnet|]. apply Forall_singleton.
        apply (sent_without_token (localStorage w0)); [done|].
        by exists (instance_config d POST "/auth/login/" []
                     (authApi.credentials username password)).
      + exists []. split; [|done]. cbn. by rewrite app_nil_r.
    - destruct (other_methods_read_only c Hc d w0) as (_ & new & Hnet & Hall).
      exists new. split; [done|].
      eapply Forall_impl; [exact Hall|]. intros r.
      by apply sent_without_token. }
  split; [|split; [|split; [|split; [|split]]]].
  - intros username password result sent. subst result sent.
    destruct (login_request_and_storage username password d w) as (_ & Hst).
    split; [|split; [|exact Hst]].
    + intros key Ha Hr.
      destruct ((authApi.login username password d w).1).
      * destruct Hst as (st & body & _ & ->).
        by rewrite !lookup_insert_ne.
      * by rewrite Hst.
    + intros st body Hanswer Hcode Hu Hn.
      rewrite (login_accepted username password d w st body Hanswer Hcode Hu Hn).
      cbn [fst snd localStorage]. split; [done|].
      split; [by rewrite lookup_insert_ne, lookup_insert_eq | by rewrite lookup_insert_eq].
  - reflexivity.
  - reflexivity.
  - intros c Hc. by destruct (other_methods_read_only c Hc d w) as [? _].
  - apply Hunauth.
  - apply Hunauth.
    change (localStorage (authApi.logout d w).2)
      with (delete "refresh_token" (delete "access_token" (localStorage w))).
    rewrite lookup_delete_ne by done. apply lookup_delete_eq.
Qed.

End ApiClient.

(** ** The signup form *)

Section Signup.
Import SignupPage.

(** C6.  When the password and its confirmation differ, a submission
    ends with the error state equal to the string
    "Passwords do not match."; the world is the one it started from (no
    request was sent, local storage is as before), nothing was pushed to
    the router, and the loading flag and the three fields are unchanged. *)
Theorem signup_mismatch_rejected_locally (d : Deployment) (st : State) (w : World) :
  password st ≠ confirmPassword st ->
  let s := handleSubmit d st w in
  error (state_after s) = JStr "Passwords do not match." /\
  loading (state_after s) = loading st /\
  username (state_after s) = username st /\
  password (state_after s) = password st /\
  confirmPassword (state_after s) = confirmPassword st /\
  world_after s = w /\
  network (world_after s) = network w /\
  pushed s = [].
Proof.
  intros Hne s. subst s. unfold handleSubmit.
  destruct (String.eqb_spec (password st) (confirmPassword st)) as [Heq|_]; [done|].
  cbn. done.
Qed.

Lemma signup_sends_one_request username password d w :
  network (authApi.signup username password d w).2 =
  network w ++ [request_interceptor (localStorage w)
                  (instance_config d POST "/auth/signup/" []
                     (authApi.credentials username password))].
Proof.
  unfold authApi.signup, api_post, request, mbind, M_bind.
  by destruct (backend d _) as [st body|]; [destruct (_ && _)|].
Qed.


Lemma assoc_field_errors_absent key errors :
  key ∉ errors.*1 ->
  assoc key (map (fun kv => (kv.1, JArr (JStr <$> kv.2))) errors) = JUndefined.
Proof.
  induction errors as [|[k msgs] errors IH]; [done|].
  cbn. intros Hnot. apply not_elem_of_cons in Hnot as [Hne Hnot].
  destruct (String.eqb_spec key k); [done|]. by apply IH.
Qed.

Lemma flat_field_errors errors :
  flat (map snd (map (fun kv : string * list string =>
                        (kv.1, JArr (JStr <$> kv.2))) errors)) =
  JStr <$> concat errors.*2.
Proof.
  unfold flat. induction errors as [|[k msgs] errors IH]; [done|].
  cbn in *. rewrite IH. by rewrite fmap_app.
Qed.




End Signup.

(** ** The task card *)

Section Card.
Import TaskHooks TaskCard.

Lemma request_line_interceptor storage config :
  request_line (request_interceptor storage config) = request_line config.
Proof.
  unfold request_interceptor.
  destruct (storage !! "access_token") as [token|]; [|done].
  by destruct (truthy_string token).
Qed.

Lemma sent_by_request_bind {A : Type} method url params body (k : AxiosResponse -> M A) d w :
  (forall a d' w', (k a d' w').2 = w') ->
  request_line <$> sent_by (request method url params body ≫= k) d w =
  [(method, url, body)].
Proof.
  intros Hk. unfold sent_by, mbind, M_bind, request.
  destruct (backend d _) as [st b|]; [destruct (_ && _)|];
    rewrite ?Hk; cbn [snd network];
    rewrite drop_app_length; cbn [fmap list_fmap];
    by rewrite request_line_interceptor.
Qed.

(** C8.  The completion toggle of a card issues exactly one mutation.
    For a completed task it is the update mutation with the payload
    [{ is_completed: false }], which sends one [PATCH /tasks/{id}/] with
    that body and nothing to the complete endpoint; for a task that is
    not completed it is the complete mutation, which sends one
    [POST /tasks/{id}/complete/] without a body. *)
Theorem toggle_dispatches_one_mutation (task : Task) (d : Deployment) (w : World) :
  exists m,
    handleToggleComplete task = [m] /\
    if is_completed task then
      m = MutateUpdate (id task) mark_incomplete /\
      request_line <$> sent_by (mutationFn m) d w =
        [(PATCH, task_path task, JObj [("is_completed", JBool false)])] /\
      Forall (fun r => req_url r ≠ complete_path task) (sent_by (mutationFn m) d w)
    else
      m = MutateComplete (id task) /\
      request_line <$> sent_by (mutationFn m) d w =
        [(POST, complete_path task, JUndefined)].
Proof.
  unfold handleToggleComplete. destruct (is_completed task); eexists; (split; [reflexivity|]).
  - split; [reflexivity|].
    assert (Hline : request_line <$>
              sent_by (mutationFn (MutateUpdate (id task) mark_incomplete)) d w =
              [(PATCH, task_path task, JObj [("is_completed", JBool false)])]).
    { cbn [mutationFn]. unfold tasksApi.updateTask, api_patch.
      by apply sent_by_request_bind. }
    split; [exact Hline|].
    change mark_incomplete with
      {| ut_title := None; ut_description := None; ut_priority := None;
         ut_due_date := None; ut_category_id := None; ut_is_completed := Some false |}
      in Hline |- *.
    destruct (sent_by _ d w) as [|r [|r' rest]]; try discriminate Hline.
    apply Forall_singleton. intros Hurl.
    injection Hline as _ Hpath _. rewrite Hurl in Hpath.
    unfold complete_path, task_path in Hpath.
    do 2 apply (inj (String.append _)) in Hpath. discriminate Hpath.
  - split; [reflexivity|].
    cbn [mutationFn]. unfold tasksApi.completeTask, api_post.
    by apply sent_by_request_bind.
Qed.

Lemma truthy_opt_has task :
  truthy_opt (ai_enhanced_description task) = true <-> has_ai_enhanced_description task.
Proof.
  unfold has_ai_enhanced_description, truthy_opt.
  destruct (ai_enhanced_description task) as [s|].
  - rewrite truthy_string_true. split.
    + intros Hs. by exists s.
    + by intros (s' & [= <-] & Hs).
  - split; [done|]. by intros (s' & ? & _).
Qed.

(** C9.  The card renders the "Enhance with AI" button exactly for the
    tasks whose completion flag is false and that have no AI-enhanced
    description; a task that is completed or already has one is offered
    no such button.  (No description means: the member is undefined or
    holds the empty string.) *)
Theorem enhance_button_guard (task : Task) :
  (shows_enhance_button task = true <->
     is_completed task = false /\ ~ has_ai_enhanced_description task) /\
  (is_completed task = true \/ has_ai_enhanced_description task ->
     shows_enhance_button task = false) /\
  (~ has_ai_enhanced_description task <->
     ai_enhanced_description task = None \/ ai_enhanced_description task = Some "").
Proof.
  split; [|split].
  - unfold shows_enhance_button. rewrite <- truthy_opt_has.
    destruct (is_completed task), (truthy_opt (ai_enhanced_description task)); cbn;
      intuition congruence.
  - unfold shows_enhance_button. rewrite <- truthy_opt_has.
    destruct (is_completed task), (truthy_opt (ai_enhanced_description task)); cbn;
      intuition congruence.
  - unfold has_ai_enhanced_description.
    destruct (ai_enhanced_description task) as [text|].
    + split.
      * intros Hno. right. f_equal.
        destruct (decide (text = "")) as [|Hne]; [done|].
        exfalso. apply Hno. by exists text.
      * intros [|[= ->]]; [done|]. by intros (text & [= <-] & Hne).
    + split; [by left|]. by intros _ (text & ? & _).
Qed.

End Card.

(** ** The shared error formatter *)

Section ErrorMessage.

(** C10, counterexample.  A body whose [message] member is an array comes
    back as that array, not as a string; and a body whose [message] member
    is the empty string yields the [detail] member instead. *)
Lemma getErrorMessage_counterexample :
  ~ returns_string (rejected (JObj [("message", JArr [JStr "This field is required."])])) /\
  getErrorMessage (rejected (JObj [("message", JArr [JStr "This field is required."])])) =
    JArr [JStr "This field is required."] /\
  ~ prefers_present_message
      (rejected (JObj [("message", JStr ""); ("detail", JStr "Not found.")])) /\
  getErrorMessage (rejected (JObj [("message", JStr ""); ("detail", JStr "Not found.")])) =
    JStr "Not found.".
Proof.
  split; [|split; [reflexivity|split; [|reflexivity]]].
  - intros [s Hs]. discriminate Hs.
  - intros H. specialize (H _ (JStr "") eq_refl (or_introl eq_refl)). discriminate H.
Qed.

(** C10, amended.  [getErrorMessage] returns a value for every error
    object, chosen by truthiness: the [message] member of the response
    body when it is truthy; else the [detail] member when it is truthy;
    else the error's own message when it is not empty; else the fixed
    text "An unexpected error occurred".  The value is a string whenever
    each of the two members is a string or falsy.  For a body that maps
    field names to message arrays and has neither a [message] nor a
    [detail] key, the field messages are not flattened: the result is the
    error's own message, or the fixed text when that is empty. *)
Theorem getErrorMessage_precedence (error : JsError) :
  let body := response_data error in
  let msg := opt_prop body "message" in
  let detail := opt_prop body "detail" in
  (truthy msg = true -> getErrorMessage error = msg) /\
  (truthy msg = false -> truthy detail = true -> getErrorMessage error = detail) /\
  (truthy msg = false -> truthy detail = false -> message error ≠ "" ->
     getErrorMessage error = JStr (message error)) /\
  (truthy msg = false -> truthy detail = false -> message error = "" ->
     getErrorMessage error = JStr generic_error_message) /\
  ((is_string msg = true \/ truthy msg = false) ->
   (is_string detail = true \/ truthy detail = false) ->
     returns_string error) /\
  (forall errors,
      body = field_errors errors ->
      "message" ∉ errors.*1 -> "detail" ∉ errors.*1 ->
      getErrorMessage error =
        JStr (if decide (message error = "") then generic_error_message
              else message error)).
Proof.
  intros body msg detail. subst body msg detail. unfold returns_string, getErrorMessage.
  split; [|split; [|split; [|split; [|split]]]].
  - by intros ->.
  - by intros -> ->.
  - intros -> -> Hm. apply truthy_string_true in Hm. by rewrite Hm.
  - intros -> -> Hm. apply truthy_string_false in Hm. by rewrite Hm.
  - intros Hmsg Hdet.
    destruct (truthy (opt_prop (response_data error) "message")) eqn:Hm.
    { destruct Hmsg as [Hmsg|]; [|done].
      destruct (opt_prop (response_data error) "message"); try done. by eexists. }
    destruct (truthy (opt_prop (response_data error) "detail")) eqn:Hd.
    { destruct Hdet as [Hdet|]; [|done].
      destruct (opt_prop (response_data error) "detail"); try done. by eexists. }
    destruct (truthy_string (message error)); by eexists.
  - intros errors -> Hm Hd. unfold field_errors. cbn [opt_prop].
    rewrite !assoc_field_errors_absent by done. cbn [truthy].
    case_decide as He.
    + apply truthy_string_false in He. by rewrite He.
    + apply truthy_string_true in He. by rewrite He.
Qed.

End ErrorMessage.

(** ** Concrete runs *)

Section Witnesses.
Import TaskHooks CategoryHooks Matrix QueryProvider SignupPage.

Lemma task_mutation_applies_matrix_row_witness :
  OverdueKey ∈ invalidation_set (CompletedTask report_task_done) /\
  in_class OverdueKey taskKeys.overdue /\
  queries dashboard_client !! taskKeys.overdue = Some (cached (DOpaque "overdue") 1000) /\
  exists q',
    queries (onSuccess 9000 (CompletedTask report_task_done) dashboard_client)
      !! taskKeys.overdue = Some q' /\
    isInvalidated q' = true /\
    state_data q' = Some (DOpaque "overdue") /\
    forall staleTime t, isStaleByTime q' staleTime t = true.
Proof.
  assert (Hin : OverdueKey ∈ invalidation_set (CompletedTask report_task_done))
    by (cbn; repeat constructor).
  split; [exact Hin|]. split; [reflexivity|]. split; [reflexivity|].
  exact (proj1 (task_mutation_applies_matrix_row 9000
                  (CompletedTask report_task_done) dashboard_client)
           OverdueKey taskKeys.overdue (cached (DOpaque "overdue") 1000)
           Hin eq_refl eq_refl).
Defined.

Lemma task_mutation_leaves_other_keys_witness :
  row_touches (CreatedTask report_task) taskKeys.overdue = false /\
  queries (onSuccess 9000 (CreatedTask report_task) dashboard_client) !! taskKeys.overdue =
  queries dashboard_client !! taskKeys.overdue.
Proof.
  split; [reflexivity|].
  exact (proj1 (task_mutation_leaves_other_keys 9000 (CreatedTask report_task)
                  dashboard_client) taskKeys.overdue eq_refl).
Defined.

Lemma retry_policy_witness :
  carries_client_error_status (failed_with 404) /\
  queries_retry 0 (failed_with 404) = false /\
  ~ carries_client_error_status (failed_with 503) /\
  (queries_retry 2 (failed_with 503) = true <-> 2 < 3).
Proof.
  assert (H404 : carries_client_error_status (failed_with 404))
    by (exists 404; split; [reflexivity | lia]).
  assert (H503 : ~ carries_client_error_status (failed_with 503))
    by (intros (s & [= <-] & Hlo & Hhi); lia).
  split; [exact H404|].
  split; [exact (proj1 (proj2 (retry_policy 0 (failed_with 404))) H404)|].
  split; [exact H503|].
  exact (proj1 (proj2 (proj2 (retry_policy 2 (failed_with 503)))) H503).
Defined.

Lemma category_mutations_maintain_list_witness :
  category_list_is categories_client (Some [work; home]) /\
  exists st' new,
    useUpdateCategory_onSuccess 9000 home_renamed categories_client = (Ok tt, st') /\
    queries st' !! categoryKeys.detail 2 = Some (fresh_entry (DCategory home_renamed) 9000) /\
    category_list_is st' (Some new) /\
    length new = 2%nat /\
    new !! 0%nat = Some work /\
    new !! 1%nat = Some home_renamed.
Proof.
  split; [reflexivity|].
  destruct (proj1 (proj2 (category_mutations_maintain_list 9000 categories_client))
              home_renamed [work; home] eq_refl)
    as (st' & new & Hrun & Hdetail & Hlist & Hlen & Hentries).
  exists st', new. split; [exact Hrun|]. split; [exact Hdetail|].
  split; [exact Hlist|]. split; [exact Hlen|].
  split; [exact (Hentries 0%nat work eq_refl) | exact (Hentries 1%nat home eq_refl)].
Defined.

Lemma local_storage_discipline_witness :
  is_success 200 /\
  (authApi.login "ada" "secret1" token_issuer empty_world).1 = Ok JUndefined /\
  localStorage (authApi.login "ada" "secret1" token_issuer empty_world).2
    !! "access_token" = Some "a1" /\
  localStorage (authApi.login "ada" "secret1" token_issuer empty_world).2
    !! "refresh_token" = Some "r1" /\
  localStorage empty_world !! "access_token" = None /\
  sends_unauthenticated (invoke (Tasks_getTasks None)) offline empty_world /\
  touches_storage (Tasks_completeTask 7) = false /\
  localStorage (invoke (Tasks_completeTask 7) offline empty_world).2 =
    localStorage empty_world.
Proof.
  assert (Hok : is_success 200) by (unfold is_success; lia).
  destruct (proj1 (proj2 (proj1 (local_storage_discipline token_issuer empty_world)
                            "ada" "secret1"))
              200 (JObj [("access", JStr "a1"); ("refresh", JStr "r1")])
              eq_refl Hok ltac:(discriminate) ltac:(discriminate))
    as (Hdone & Haccess & Hrefresh).
  split; [exact Hok|]. split; [exact Hdone|].
  split; [exact Haccess|]. split; [exact Hrefresh|].
  split; [reflexivity|].
  split; [exact (proj1 (proj2 (proj2 (proj2 (proj2
            (local_storage_discipline offline empty_world))))) eq_refl
            (Tasks_getTasks None))|].
  split; [reflexivity|].
  exact (proj1 (proj2 (proj2 (proj2 (local_storage_discipline offline empty_world))))
           (Tasks_completeTask 7) eq_refl).
Defined.

Lemma getErrorMessage_precedence_witness :
  truthy (opt_prop (response_data (rejected (JObj [("detail", JStr "Not found.")])))
            "message") = false /\
  truthy (opt_prop (response_data (rejected (JObj [("detail", JStr "Not found.")])))
            "detail") = true /\
  getErrorMessage (rejected (JObj [("detail", JStr "Not found.")])) = JStr "Not found.".
Proof.
  split; [reflexivity|]. split; [reflexivity|].
  exact (proj1 (proj2 (getErrorMessage_precedence
                         (rejected (JObj [("detail", JStr "Not found.")]))))
           eq_refl eq_refl).
Defined.

Lemma signup_mismatch_rejected_locally_witness :
  password mismatch_form ≠ confirmPassword mismatch_form /\
  let s := handleSubmit offline mismatch_form empty_world in
  error (state_after s) = JStr "Passwords do not match." /\
  loading (state_after s) = loading mismatch_form /\
  username (state_after s) = username mismatch_form /\
  password (state_after s) = password mismatch_form /\
  confirmPassword (state_after s) = confirmPassword mismatch_form /\
  world_after s = empty_world /\
  network (world_after s) = network empty_world /\
  pushed s = [].
Proof.
  split; [discriminate|].
  apply (signup_mismatch_rejected_locally offline mismatch_form empty_world).
  discriminate.
Defined.


(** The two signup responses the specification quotes. *)
Example signup_shows_detail :
  displayed (error_of_failure (rejected (JObj [("detail", JStr "username taken")]))) =
  Some ["username taken"].
Proof. reflexivity. Qed.

Example signup_shows_field_errors_as_lines :
  render_error (error_of_failure
    (rejected (JObj [("field1", JArr [JStr "err1"]); ("field2", JArr [JStr "err2"])]))) =
  ErrorLines [JStr "err1"; JStr "err2"] /\
  displayed (error_of_failure
    (rejected (JObj [("field1", JArr [JStr "err1"]); ("field2", JArr [JStr "err2"])]))) =
  Some ["err1"; "err2"].
Proof. split; reflexivity. Qed.

(** A completed card sends the update, an open card the completion. *)
Example toggle_completed_card :
  request_line <$> sent_by (mutationFn (MutateUpdate 7 mark_incomplete)) offline empty_world =
  [(PATCH, "/tasks/7/", JObj [("is_completed", JBool false)])] /\
  TaskCard.handleToggleComplete report_task_done = [MutateUpdate 7 mark_incomplete] /\
  TaskCard.handleToggleComplete report_task = [MutateComplete 7] /\
  request_line <$> sent_by (mutationFn (MutateComplete 7)) offline empty_world =
  [(POST, "/tasks/7/complete/", JUndefined)].
Proof. repeat split; reflexivity. Qed.

(** Login against a backend that answers with a token pair, then a read,
    then logout, then another read. *)
Example session_round_trip :
  let d := {| NEXT_PUBLIC_API_URL := None;
              backend := fun _ =>
                Responded 200 (JObj [("access", JStr "a1"); ("refresh", JStr "r1")]) |} in
  let w1 := (authApi.login "ada" "secret1" d empty_world).2 in
  let w2 := (tasksApi.getStats d w1).2 in
  let w3 := (authApi.logout d w2).2 in
  let w4 := (tasksApi.getStats d w3).2 in
  localStorage w1 = {["access_token" := "a1"; "refresh_token" := "r1"]} /\
  (req_headers <$> network w2) !! 1%nat ≫= (.!! "Authorization") = Some "Bearer a1" /\
  localStorage w3 = ∅ /\
  (req_headers <$> network w4) !! 2%nat ≫= (.!! "Authorization") = None /\
  length (network w4) = 3%nat.
Proof. vm_compute. repeat split; reflexivity. Qed.

End Witnesses.

(* ====================================================================== *)
(** * Further properties of the client                                     *)
(* ====================================================================== *)

(** ** Every method is one call on the instance *)

Section ApiCalls.

Lemma silent_ret {A : Type} (a : A) : silent (mret a).
Proof. by intros d w. Qed.

Lemma silent_lift {A : Type} (o : Outcome A) : silent (lift o).
Proof. by intros d w. Qed.

Lemma silent_setItem key value : silent (setItem key value).
Proof. by intros d w. Qed.

Lemma silent_removeItem key : silent (removeItem key).
Proof. by intros d w. Qed.

Lemma silent_bind {A B : Type} (m : M A) (k : A -> M B) :
  silent m -> (forall a, silent (k a)) -> silent (m ≫= k).
Proof.
  intros Hm Hk d w. unfold mbind, M_bind. specialize (Hm d w).
  destruct (m d w) as [[a|e] w1]; cbn [snd] in *; [|done].
  by rewrite Hk.
Qed.

Create HintDb api_silent.
Hint Resolve silent_ret silent_lift silent_setItem silent_removeItem : api_silent.
Hint Extern 1 (silent (_ ≫= _)) => apply silent_bind; [|intros ?] : api_silent.

Lemma invoke_one_call c : c ≠ Auth_logout -> one_call (invoke c).
Proof.
  destruct c; try done; intros _; cbn [invoke];
    eexists _, _, _, _, _; (split; [reflexivity|]); intros r; cbv beta;
    eauto 10 with api_silent.
Qed.

Lemma logout_or_call c : c = Auth_logout \/ c ≠ Auth_logout.
Proof. destruct c; (by left) || (by right). Qed.

Lemma one_call_sent {A : Type} method url params body (k : AxiosResponse -> M A) d w :
  (forall r, silent (k r)) ->
  sent_by (request method url params body ≫= k) d w =
  [outgoing d w method url params body].
Proof.
  intros Hk. unfold sent_by. rewrite one_call_run.
  destruct (backend d _) as [st b|]; [destruct (_ && _)|];
    rewrite ?Hk; cbn [snd network]; by rewrite drop_app_length.
Qed.

Lemma invoke_sent (c : ApiCall) (d : Deployment) (w : World) :
  network (invoke c d w).2 = network w ++ sent_by (invoke c) d w /\
  length (sent_by (invoke c) d w) = match c with Auth_logout => 0%nat | _ => 1%nat end.
Proof.
  destruct (logout_or_call c) as [->|Hc].
  { unfold sent_by. cbn [invoke].
    change (network (authApi.logout d w).2) with (network w).
    by rewrite drop_all, app_nil_r. }
  destruct (invoke_one_call c Hc) as (method & url & params & body & k & -> & Hk).
  rewrite one_call_sent by done. split; [|by destruct c].
  rewrite one_call_run.
  destruct (backend d _) as [st b|]; [destruct (_ && _)|]; by rewrite ?Hk.
Qed.

(** X1.  Whatever the backend answers, a method of the client puts exactly
    one request on the wire (logout: none) and leaves the earlier part of
    the network log as it was: no method repeats or splits its call.  The
    request is fixed before any answer arrives: against another backend
    with the same base URL the same request goes out. *)
Theorem every_method_sends_one_request (c : ApiCall) (d : Deployment) (w : World) :
  network (invoke c d w).2 = network w ++ sent_by (invoke c) d w /\
  length (sent_by (invoke c) d w) = match c with Auth_logout => 0%nat | _ => 1%nat end /\
  forall d', NEXT_PUBLIC_API_URL d' = NEXT_PUBLIC_API_URL d ->
             sent_by (invoke c) d' w = sent_by (invoke c) d w.
Proof.
  destruct (invoke_sent c d w) as [Hlog Hone].
  split; [exact Hlog|]. split; [exact Hone|].
  intros d' Hurl. destruct (logout_or_call c) as [->|Hc].
  - unfold sent_by. cbn [invoke].
    change (network (authApi.logout d' w).2) with (network w).
    by change (network (authApi.logout d w).2) with (network w).
  - destruct (invoke_one_call c Hc) as (method & url & params & body & k & -> & Hk).
    rewrite !one_call_sent by done.
    unfold outgoing, instance_config. by rewrite Hurl.
Qed.

Ltac unfold_methods :=
  cbn [invoke];
  unfold tasksApi.getTasks, tasksApi.getTask, tasksApi.createTask, tasksApi.updateTask,
    tasksApi.deleteTask, tasksApi.completeTask, tasksApi.enhanceTask,
    tasksApi.getAIRecommendations, tasksApi.recalculatePriority, tasksApi.getStats,
    tasksApi.getTodayTasks, tasksApi.getOverdueTasks,
    categoriesApi.getCategories, categoriesApi.createCategory,
    categoriesApi.updateCategory, categoriesApi.deleteCategory,
    contextApi.getContextEntries, contextApi.createContextEntry,
    contextApi.updateContextEntry, contextApi.deleteContextEntry,
    contextApi.analyzeContext, contextApi.getSummary, contextApi.bulkProcess,
    contextApi.getUnprocessed, contextApi.getHighRelevance,
    contextApi.getWithSuggestions,
    aiApi.enhanceTask, aiApi.getTaskRecommendations, aiApi.suggestTasksFromContext,
    aiApi.analyzeContext, aiApi.generateContextSummary, aiApi.bulkProcessContext,
    aiApi.generateDailyInsights, aiApi.analyzeProductivityPatterns, aiApi.healthCheck,
    insightsApi.getInsights, insightsApi.getInsight,
    insightsApi.getActionableInsights, insightsApi.dismissInsight,
    authApi.login, authApi.signup, authApi.logout,
    api_get, api_post, api_patch, api_delete.

Lemma outgoing_authorization d w method url params body h :
  req_headers (outgoing d w method url params body) !! "Authorization" = Some h <->
  exists token,
    localStorage w !! "access_token" = Some token /\ token ≠ "" /\
    h = "Bearer " +:+ token.
Proof.
  unfold outgoing, request_interceptor, instance_config.
  destruct (localStorage w !! "access_token") as [token|] eqn:Htok.
  - destruct (truthy_string token) eqn:Ht; cbn [req_headers].
    + apply truthy_string_true in Ht.
      rewrite lookup_insert_eq. split.
      * intros [= <-]. by exists token.
      * by intros (t & [= <-] & _ & ->).
    + apply truthy_string_false in Ht. split; [done|].
      by intros (t & [= <-] & Hne & _).
  - cbn [req_headers]. split; [done|].
    by intros (t & ? & _).
Qed.

Lemma sent_is_outgoing (c : ApiCall) (d : Deployment) (w : World) (r : Request) :
  r ∈ sent_by (invoke c) d w ->
  exists method url params body, r = outgoing d w method url params body.
Proof.
  intros Hr. destruct (logout_or_call c) as [->|Hc].
  { unfold sent_by in Hr. cbn [invoke] in Hr.
    change (network (authApi.logout d w).2) with (network w) in Hr.
    rewrite drop_all in Hr. by apply elem_of_nil in Hr. }
  destruct (invoke_one_call c Hc) as (method & url & params & body & k & Hm & Hk).
  rewrite Hm, one_call_sent in Hr by done.
  apply list_elem_of_singleton in Hr. by exists method, url, params, body.
Qed.

Lemma sent_authorization (c : ApiCall) (d : Deployment) (w : World) (r : Request) h :
  r ∈ sent_by (invoke c) d w ->
  req_headers r !! "Authorization" = Some h <->
  exists token,
    localStorage w !! "access_token" = Some token /\ token ≠ "" /\
    h = "Bearer " +:+ token.
Proof.
  intros Hr. destruct (sent_is_outgoing c d w r Hr) as (method & url & params & body & ->).
  apply outgoing_authorization.
Qed.

(** X2.  Every request a method sends goes to the configured base URL,
    and the interceptor gives it an [Authorization] header exactly when
    local storage held a non-empty [access_token] when the method was
    called; the header is then ["Bearer "] followed by that token.  An
    absent token and an empty-string token both mean no header. *)
Theorem requests_carry_the_stored_token
    (c : ApiCall) (d : Deployment) (w : World) (r : Request) :
  r ∈ sent_by (invoke c) d w ->
  req_baseURL r = API_BASE_URL (NEXT_PUBLIC_API_URL d) /\
  (forall h,
     req_headers r !! "Authorization" = Some h <->
     exists token,
       localStorage w !! "access_token" = Some token /\ token ≠ "" /\
       h = "Bearer " +:+ token) /\
  (localStorage w !! "access_token" = None \/ localStorage w !! "access_token" = Some "" ->
   req_headers r !! "Authorization" = None).
Proof.
  intros Hr.
  destruct (sent_is_outgoing c d w r Hr) as (method & url & params & body & ->).
  split.
  { unfold outgoing, request_interceptor.
    destruct (localStorage w !! "access_token") as [token|]; [|done].
    by destruct (truthy_string token). }
  split; [intros h; apply outgoing_authorization|].
  intros Hnone.
  destruct (req_headers (outgoing d w method url params body) !! "Authorization")
    as [h|] eqn:Hh; [|done].
  apply outgoing_authorization in Hh as (token & Htoken & Hne & _).
  destruct Hnone as [Hnone|Hnone]; rewrite Hnone in Htoken; by simplify_eq.
Qed.

(** X3.  When the backend answers the request of a method with a status
    outside [200, 300), the method throws the axios error that carries
    that status and that body unchanged; when the backend cannot be
    reached it throws the error without a response.  In both cases local
    storage is left as it was (also by login) and nothing else is sent. *)
Theorem failures_propagate_untouched
    (c : ApiCall) (d : Deployment) (w : World) (r : Request) :
  sent_by (invoke c) d w = [r] ->
  let after := {| localStorage := localStorage w; network := network w ++ [r] |} in
  (forall st body,
      backend d r = Responded st body -> ~ is_success st ->
      invoke c d w = (Thrown (status_error st body), after)) /\
  (backend d r = NetworkFailure ->
      invoke c d w = (Thrown network_error, after)).
Proof.
  intros Hsent after. subst after.
  destruct (logout_or_call c) as [->|Hc].
  { unfold sent_by in Hsent. cbn [invoke] in Hsent.
    change (network (authApi.logout d w).2) with (network w) in Hsent.
    by rewrite drop_all in Hsent. }
  destruct (invoke_one_call c Hc) as (method & url & params & body & k & Hm & Hk).
  rewrite Hm in *. rewrite one_call_sent in Hsent by done.
  injection Hsent as <-. rewrite one_call_run. split.
  - intros st b -> Hno. by rewrite is_success_false.
  - by intros ->.
Qed.

(** X4.  When the backend answers the request of a method with a 2xx
    status, a method that returns [response.data] returns exactly the
    body it received, and a method declared [Promise<void>] returns
    [undefined]; both leave local storage as it was. *)
Theorem successful_calls_return_the_body
    (c : ApiCall) (d : Deployment) (w : World) (r : Request) (st : Z) (body : JsValue) :
  sent_by (invoke c) d w = [r] ->
  backend d r = Responded st body ->
  is_success st ->
  let after := {| localStorage := localStorage w; network := network w ++ [r] |} in
  (returns_body c = true -> invoke c d w = (Ok body, after)) /\
  (returns_nothing c = true -> invoke c d w = (Ok JUndefined, after)).
Proof.
  intros Hsent Hr Hst after. subst after.
  apply is_success_true in Hst.
  split; intros Hkind; destruct c; try discriminate Hkind; revert Hsent;
    unfold_methods; rewrite one_call_sent by (intros ?; apply silent_ret);
    intros [= <-]; rewrite one_call_run, Hr, Hst; reflexivity.
Qed.

(** X5.  [getCategories] unwraps a paginated answer: for a 2xx body with
    a [results] array it returns that array (also when it is empty); a
    body that is itself an array, or an object whose [results] member is
    missing or falsy, is returned as it is; on a [null] or absent body it
    throws a [TypeError], an error without a response. *)
Theorem getCategories_unwraps_pages (d : Deployment) (w : World) (st : Z) (body : JsValue) :
  backend d (outgoing d w GET "/categories/" [] JUndefined) = Responded st body ->
  is_success st ->
  let result := (categoriesApi.getCategories d w).1 in
  (forall fields items,
      body = JObj fields -> assoc "results" fields = JArr items ->
      result = Ok (JArr items)) /\
  (forall fields,
      body = JObj fields -> truthy (assoc "results" fields) = false ->
      result = Ok body) /\
  (forall items, body = JArr items -> result = Ok body) /\
  (body = JNull \/ body = JUndefined ->
      exists e, result = Thrown e /\ response e = None).
Proof.
  intros Hr Hst result. subst result.
  apply is_success_true in Hst.
  unfold categoriesApi.getCategories, api_get.
  rewrite one_call_run, Hr, Hst. cbn [data].
  unfold mbind, M_bind, lift, prop, mret, M_ret.
  split; [|split; [|split]].
  - intros fields items -> Hres. cbn [opt_prop fst]. by rewrite Hres.
  - intros fields -> Hres. cbn [opt_prop fst]. by rewrite Hres.
  - by intros items ->.
  - intros [->| ->]; by eexists.
Qed.

End ApiCalls.

(** ** Sessions: login, later calls, logout *)

Section Sessions.

Lemma login_outcome username password d w :
  let r := outgoing d w POST "/auth/login/" [] (authApi.credentials username password) in
  (exists st body,
      backend d r = Responded st body /\ is_success st /\
      body ≠ JUndefined /\ body ≠ JNull /\
      authApi.login username password d w =
      (Ok JUndefined,
       {| localStorage :=
            <["refresh_token" := to_string (opt_prop body "refresh")]>
              (<["access_token" := to_string (opt_prop body "access")]> (localStorage w));
          network := network w ++ [r] |})) \/
  (exists e,
      authApi.login username password d w =
      (Thrown e, {| localStorage := localStorage w; network := network w ++ [r] |})).
Proof.
  intros r. subst r. unfold authApi.login, api_post. rewrite one_call_run.
  destruct (backend d _) as [st body|] eqn:Hr; [|right; by eexists].
  destruct ((200 <=? st) && (st <? 300)) eqn:Hst; [|right; by eexists].
  apply andb_true_iff in Hst as [Hlo%Z.leb_le Hhi%Z.ltb_lt].
  destruct body; try (right; by eexists); left; eexists _, _;
    (split; [reflexivity|]); done.
Qed.

(** X6.  After a login that the backend accepts (2xx, a body that is not
    [null]) local storage holds the [access] and [refresh] members of the
    body as strings, and every request any method sends afterwards
    carries ["Bearer " + String(access)], provided that string is not
    empty; the dashboard guard then does not redirect.  A body without an
    [access] member is stored as the text "undefined". *)
Theorem login_authenticates_later_calls
    (username password : string) (d : Deployment) (w : World) (st : Z) (body : JsValue) :
  backend d (outgoing d w POST "/auth/login/" [] (authApi.credentials username password)) =
    Responded st body ->
  is_success st -> body ≠ JUndefined -> body ≠ JNull ->
  let w1 := (authApi.login username password d w).2 in
  let token := to_string (opt_prop body "access") in
  (authApi.login username password d w).1 = Ok JUndefined /\
  localStorage w1 !! "access_token" = Some token /\
  localStorage w1 !! "refresh_token" = Some (to_string (opt_prop body "refresh")) /\
  (opt_prop body "access" = JUndefined -> token = "undefined") /\
  (token ≠ "" ->
     DashboardPage.auth_guard (localStorage w1) = [] /\
     forall c r, r ∈ sent_by (invoke c) d w1 ->
                 req_headers r !! "Authorization" = Some ("Bearer " +:+ token)).
Proof.
  intros Hr Hst Hu Hn w1 token. subst w1 token.
  rewrite (login_accepted _ _ _ _ _ _ Hr Hst Hu Hn). cbn [fst snd localStorage].
  split; [done|]. split; [by rewrite lookup_insert_ne, lookup_insert_eq|].
  split; [by rewrite lookup_insert_eq|]. split; [by intros ->|].
  intros Htok. split.
  - unfold DashboardPage.auth_guard.
    rewrite lookup_insert_ne, lookup_insert_eq by done.
    by rewrite (proj2 (truthy_string_true _) Htok).
  - intros c r Hin. apply (sent_authorization c d _ r _ Hin).
    eexists. cbn [localStorage].
    rewrite lookup_insert_ne, lookup_insert_eq by done. done.
Qed.

Lemma invoke_keeps_other_keys c d w key :
  key ≠ "access_token" -> key ≠ "refresh_token" ->
  localStorage (invoke c d w).2 !! key = localStorage w !! key.
Proof.
  intros Ha Hr. destruct (touches_storage c) eqn:Hc.
  - destruct c; try discriminate; cbn [invoke].
    + destruct (login_outcome username password d w)
        as [(st & body & _ & _ & _ & _ & ->)|(e & ->)]; cbn [snd localStorage];
        by rewrite ?lookup_insert_ne.
    + change (localStorage (authApi.logout d w).2)
        with (delete "refresh_token" (delete "access_token" (localStorage w))).
      by rewrite !lookup_delete_ne.
  - by destruct (other_methods_read_only c Hc d w) as [-> _].
Qed.

(** X7.  Over any sequence of calls, whatever each one's outcome, the
    client changes no local-storage key other than [access_token] and
    [refresh_token]; in particular it never writes the [username] the
    dashboard greets with.  The network log grows by one request per call
    other than logout. *)
Theorem session_keeps_other_keys (calls : list ApiCall) (d : Deployment) (w : World) :
  (forall key, key ≠ "access_token" -> key ≠ "refresh_token" ->
               localStorage (run_calls calls d w) !! key = localStorage w !! key) /\
  (forall pick, DashboardPage.greeting (localStorage (run_calls calls d w)) pick =
                DashboardPage.greeting (localStorage w) pick) /\
  length (network (run_calls calls d w)) =
    (length (network w) +
     length (filter (fun c => sends_request c = true) calls))%nat.
Proof.
  assert (Hkeys : forall calls w key,
            key ≠ "access_token" -> key ≠ "refresh_token" ->
            localStorage (run_calls calls d w) !! key = localStorage w !! key).
  { clear. intros calls. induction calls as [|c calls IH]; intros w key Ha Hr; [done|].
    cbn [run_calls]. rewrite IH by done. by apply invoke_keeps_other_keys. }
  split; [by apply Hkeys|]. split.
  - intros pick. unfold DashboardPage.greeting, DashboardPage.stored_username.
    by rewrite Hkeys.
  - revert w. induction calls as [|c calls IH]; intros w; [cbn; lia|].
    cbn [run_calls]. rewrite IH. destruct (invoke_sent c d w) as [-> Hlen].
    rewrite length_app, Hlen, filter_cons.
    destruct c; cbn [sends_request];
      (rewrite decide_True by done) || (rewrite decide_False by done);
      cbn [length]; lia.
Qed.

(** X8.  The dashboard guard and the request interceptor read local
    storage alike: the page redirects to the login screen exactly when a
    request sent from the same storage would carry no [Authorization]
    header.  After logout it always redirects. *)
Theorem dashboard_guard_agrees_with_interceptor
    (d : Deployment) (w : World) (method : HttpMethod) (url : string)
    (params : list (string * JsValue)) (body : JsValue) :
  (DashboardPage.auth_guard (localStorage w) = ["/login"] <->
     req_headers (outgoing d w method url params body) !! "Authorization" = None) /\
  (DashboardPage.auth_guard (localStorage w) = [] <->
     is_Some (req_headers (outgoing d w method url params body) !! "Authorization")) /\
  DashboardPage.auth_guard (localStorage (authApi.logout d w).2) = ["/login"].
Proof.
  split; [|split].
  - unfold DashboardPage.auth_guard, outgoing, request_interceptor, instance_config.
    destruct (localStorage w !! "access_token") as [token|]; [|done].
    destruct (truthy_string token); cbn [req_headers]; [|done].
    by rewrite lookup_insert_eq.
  - unfold DashboardPage.auth_guard, outgoing, request_interceptor, instance_config.
    destruct (localStorage w !! "access_token") as [token|].
    + destruct (truthy_string token); cbn [req_headers].
      * rewrite lookup_insert_eq. split; [by eexists | done].
      * split; [done | by intros [? ?]].
    + cbn [req_headers]. split; [done | by intros [? ?]].
  - unfold DashboardPage.auth_guard.
    change (localStorage (authApi.logout d w).2)
      with (delete "refresh_token" (delete "access_token" (localStorage w))).
    by rewrite lookup_delete_ne, lookup_delete_eq.
Qed.

End Sessions.

(** ** The login and signup pages *)

Section Pages.

Lemma login_failure_shows_something err :
  is_Some (LoginPage.render_error (LoginPage.error_of_failure err)).
Proof.
  unfold LoginPage.render_error, LoginPage.error_of_failure.
  destruct (truthy (opt_prop (response_data err) "detail")) eqn:Hd.
  - rewrite Hd. by eexists.
  - by eexists.
Qed.

Lemma login_rejected username password d w e :
  fails_with d (outgoing d w POST "/auth/login/" [] (authApi.credentials username password)) e ->
  authApi.login username password d w =
  (Thrown e,
   {| localStorage := localStorage w;
      network := network w ++
        [outgoing d w POST "/auth/login/" [] (authApi.credentials username password)] |}).
Proof.
  intros Hfails. unfold authApi.login, api_post. rewrite one_call_run.
  destruct Hfails as [(code & body & -> & Hno & ->)|[-> ->]]; [|done].
  by rewrite (is_success_false _ Hno).
Qed.

Lemma login_without_body username password d w code body :
  backend d (outgoing d w POST "/auth/login/" [] (authApi.credentials username password)) =
    Responded code body ->
  is_success code -> body = JUndefined \/ body = JNull ->
  exists e,
    response e = None /\
    authApi.login username password d w =
    (Thrown e,
     {| localStorage := localStorage w;
        network := network w ++
          [outgoing d w POST "/auth/login/" [] (authApi.credentials username password)] |}).
Proof.
  intros Hanswer Hok Hbody. unfold authApi.login, api_post.
  rewrite one_call_run, Hanswer, (is_success_true _ Hok).
  destruct Hbody as [->| ->]; eexists; (split; [|reflexivity]); done.
Qed.

(** X9.  A login submission clears the loading flag and sends exactly one
    request, and what follows is decided by the answer.  A 2xx answer
    with a body that is not [null]: the page pushes its target route, the
    error is empty and both tokens of the body are stored.  A 2xx answer
    with a [null] body: nothing is pushed, nothing is stored and the
    fixed message is shown.  A rejected or unanswered request: nothing is
    pushed, nothing is stored and the error area shows what the failure
    gives.  The two copies of the page differ in the pushed route
    only. *)
Theorem login_page_submission
    (target : string) (d : Deployment) (st : LoginPage.State) (w : World) :
  let s := LoginPage.handleSubmit_to target d st w in
  let r := outgoing d w POST "/auth/login/" []
             (authApi.credentials (LoginPage.username st) (LoginPage.password st)) in
  LoginPage.loading (LoginPage.state_after s) = false /\
  network (LoginPage.world_after s) = network w ++ [r] /\
  (forall code body,
      backend d r = Responded code body -> is_success code ->
      body ≠ JUndefined -> body ≠ JNull ->
      LoginPage.pushed s = [target] /\
      LoginPage.error (LoginPage.state_after s) = JStr "" /\
      localStorage (LoginPage.world_after s) !! "access_token" =
        Some (to_string (opt_prop body "access")) /\
      localStorage (LoginPage.world_after s) !! "refresh_token" =
        Some (to_string (opt_prop body "refresh"))) /\
  (forall code body,
      backend d r = Responded code body -> is_success code ->
      body = JUndefined \/ body = JNull ->
      LoginPage.pushed s = [] /\
      localStorage (LoginPage.world_after s) = localStorage w /\
      LoginPage.error (LoginPage.state_after s) = JStr login_fallback) /\
  (forall e,
      fails_with d r e ->
      LoginPage.pushed s = [] /\
      localStorage (LoginPage.world_after s) = localStorage w /\
      LoginPage.error (LoginPage.state_after s) = LoginPage.error_of_failure e /\
      is_Some (LoginPage.render_error (LoginPage.error (LoginPage.state_after s)))) /\
  LoginPage.state_after (LoginPage.handleSubmit d st w) =
    LoginPage.state_after (LoginPage.handleSubmit_root d st w) /\
  LoginPage.world_after (LoginPage.handleSubmit d st w) =
    LoginPage.world_after (LoginPage.handleSubmit_root d st w).
Proof.
  intros s r.
  assert (Hsame :
    LoginPage.state_after (LoginPage.handleSubmit d st w) =
      LoginPage.state_after (LoginPage.handleSubmit_root d st w) /\
    LoginPage.world_after (LoginPage.handleSubmit d st w) =
      LoginPage.world_after (LoginPage.handleSubmit_root d st w)).
  { unfold LoginPage.handleSubmit, LoginPage.handleSubmit_root, LoginPage.handleSubmit_to.
    by destruct (authApi.login _ _ d w) as [[?|?] ?]. }
  assert (Hthrown : forall e,
    authApi.login (LoginPage.username st) (LoginPage.password st) d w =
      (Thrown e, {| localStorage := localStorage w; network := network w ++ [r] |}) ->
    LoginPage.loading (LoginPage.state_after s) = false /\
    network (LoginPage.world_after s) = network w ++ [r] /\
    LoginPage.pushed s = [] /\
    localStorage (LoginPage.world_after s) = localStorage w /\
    LoginPage.error (LoginPage.state_after s) = LoginPage.error_of_failure e).
  { intros e Hrun. subst s. unfold LoginPage.handleSubmit_to. by rewrite Hrun. }
  destruct (backend d r) as [code body|] eqn:Hanswer.
  - destruct ((200 <=? code) && (code <? 300)) eqn:Hcode.
    + assert (is_success code) as Hok.
      { apply andb_true_iff in Hcode as [Hlo%Z.leb_le Hhi%Z.ltb_lt]. by split. }
      assert (body = JUndefined \/ body = JNull \/ (body ≠ JUndefined /\ body ≠ JNull))
        as [Hbody|[Hbody|[Hu Hn]]] by (destruct body; auto).
      1,2: destruct (login_without_body _ _ d w code body Hanswer Hok ltac:(auto))
             as (e0 & Hnone & Hrun);
           destruct (Hthrown e0 Hrun) as (Hloading & Hnet & Hpushed & Hstorage & Herror);
           (split; [done|]); (split; [done|]);
           (split; [intros code' body' Hr' _ Hu' Hn'; try rewrite Hanswer in Hr';
                    simplify_eq; by destruct Hbody|]);
           (split; [intros code' body' _ _ _; split; [done|]; split; [done|];
                    rewrite Herror; unfold LoginPage.error_of_failure, response_data;
                    by rewrite Hnone|]);
           (split; [|exact Hsame]);
           intros e [(code' & body' & Hr' & Hno & _)|[Hoff _]];
             try rewrite Hanswer in *; by simplify_eq.
      subst s. unfold LoginPage.handleSubmit_to.
      rewrite (login_accepted _ _ d w code body Hanswer Hok Hu Hn). cbn.
      split; [done|]. split; [done|]. split.
      { intros code' body' [= <- <-] _ _ _. split; [done|]. split; [done|].
        split; [by rewrite lookup_insert_ne, lookup_insert_eq|by rewrite lookup_insert_eq]. }
      split.
      { intros code' body' [= <- <-] _ [Hb|Hb]; by rewrite Hb in *. }
      split; [|exact Hsame].
      intros e [(code' & body' & Hr' & Hno & _)|[Hoff _]];
        rewrite Hanswer in *; by simplify_eq.
    + assert (~ is_success code) as Hno.
      { intros [Hlo%Z.leb_le Hhi%Z.ltb_lt]. by rewrite Hlo, Hhi in Hcode. }
      assert (fails_with d r (status_error code body)) as Hfails.
      { left. by exists code, body. }
      destruct (Hthrown _ (login_rejected _ _ d w _ Hfails))
        as (Hloading & Hnet & Hpushed & Hstorage & Herror).
      split; [done|]. split; [done|].
      split; [intros code' body' Hr' Hok; try rewrite Hanswer in Hr'; by simplify_eq|].
      split; [intros code' body' Hr' Hok; try rewrite Hanswer in Hr'; by simplify_eq|].
      split; [|exact Hsame].
      intros e [(code' & body' & Hr' & _ & ->)|[Hoff _]];
        try rewrite Hanswer in *; simplify_eq.
      split; [done|]. split; [done|]. split; [done|].
      rewrite Herror. apply login_failure_shows_something.
  - assert (fails_with d r network_error) as Hfails by by right.
    destruct (Hthrown _ (login_rejected _ _ d w _ Hfails))
      as (Hloading & Hnet & Hpushed & Hstorage & Herror).
    split; [done|]. split; [done|].
    split; [intros code' body' Hr'; try rewrite Hanswer in Hr'; by simplify_eq|].
    split; [intros code' body' Hr'; try rewrite Hanswer in Hr'; by simplify_eq|].
    split; [|exact Hsame].
    intros e [(code' & body' & Hr' & _)|[_ ->]]; [try rewrite Hanswer in Hr'; by simplify_eq|].
    split; [done|]. split; [done|]. split; [done|].
    rewrite Herror. apply login_failure_shows_something.
Qed.

(** X10.  What a failed login shows: the [detail] member of the error
    body when it is truthy, else the fixed message.  In particular an
    unreachable backend and a body that maps field names to messages
    without a [detail] key both show the fixed message only, where the
    signup page would list the messages. *)
Theorem login_failure_display (err : JsError) :
  (truthy (opt_prop (response_data err) "detail") = true ->
     LoginPage.render_error (LoginPage.error_of_failure err) =
     Some (opt_prop (response_data err) "detail")) /\
  (truthy (opt_prop (response_data err) "detail") = false ->
     LoginPage.render_error (LoginPage.error_of_failure err) =
     Some (JStr login_fallback)) /\
  (response err = None ->
     LoginPage.render_error (LoginPage.error_of_failure err) =
     Some (JStr login_fallback)) /\
  (forall errors,
      response_data err = field_errors errors -> "detail" ∉ errors.*1 ->
      LoginPage.render_error (LoginPage.error_of_failure err) =
        Some (JStr login_fallback) /\
      SignupPage.render_error (SignupPage.error_of_failure err) =
        SignupPage.ErrorLines (JStr <$> concat errors.*2)).
Proof.
  unfold LoginPage.render_error, LoginPage.error_of_failure.
  split; [|split; [|split]].
  - intros Hd. by rewrite Hd, Hd.
  - by intros ->.
  - unfold response_data. by intros ->.
  - intros errors Hbody Hnot.
    unfold SignupPage.error_of_failure, SignupPage.render_error.
    rewrite Hbody. unfold field_errors.
    cbn [opt_prop truthy is_string object_values].
    rewrite assoc_field_errors_absent by done. cbn [truthy].
    by rewrite flat_field_errors.
Qed.

(** X11.  A signup submission whose passwords agree sends exactly one
    request, [POST /auth/signup/] with the username and the password,
    never writes local storage and ends with the loading flag cleared.
    It pushes the login route exactly when the backend answered with a
    2xx status, and then the error is empty. *)
Theorem signup_submission_outcome (d : Deployment) (st : SignupPage.State) (w : World) :
  SignupPage.password st = SignupPage.confirmPassword st ->
  let s := SignupPage.handleSubmit d st w in
  let r := outgoing d w POST "/auth/signup/" []
             (authApi.credentials (SignupPage.username st) (SignupPage.password st)) in
  SignupPage.world_after s =
    {| localStorage := localStorage w; network := network w ++ [r] |} /\
  SignupPage.loading (SignupPage.state_after s) = false /\
  (SignupPage.pushed s = ["/login"] \/ SignupPage.pushed s = []) /\
  (SignupPage.pushed s = ["/login"] <->
     exists code body, backend d r = Responded code body /\ is_success code) /\
  (SignupPage.pushed s = ["/login"] ->
     SignupPage.error (SignupPage.state_after s) = JStr "").
Proof.
  intros Heq s r. subst s r. unfold SignupPage.handleSubmit.
  rewrite (proj2 (String.eqb_eq _ _) Heq). cbn [negb].
  unfold authApi.signup, api_post. rewrite one_call_run.
  destruct (backend d _) as [code body|] eqn:Hr.
  - destruct ((200 <=? code) && (code <? 300)) eqn:Hcode; cbn.
    + apply andb_true_iff in Hcode as [Hlo%Z.leb_le Hhi%Z.ltb_lt].
      split; [done|]. split; [done|]. split; [by left|]. split; [|done].
      split; [|done]. intros _. by exists code, body.
    + split; [done|]. split; [done|]. split; [by right|]. split; [|done].
      split; [done|]. intros (code' & body' & [= <- <-] & Hok).
      apply is_success_true in Hok. congruence.
  - cbn. split; [done|]. split; [done|]. split; [by right|]. split; [|done].
    split; [done|]. by intros (code' & body' & ? & _).
Qed.

End Pages.

(** ** Reads and mutations through the query client *)

Section QueryClient.
Import TaskHooks CategoryHooks QueryProvider ReadHooks MutationRun Matrix.

Lemma outgoing_same_storage d w1 w2 method url params body :
  localStorage w1 = localStorage w2 ->
  outgoing d w1 method url params body = outgoing d w2 method url params body.
Proof. unfold outgoing. by intros ->. Qed.

(** A failing call fails the same way from every world with the same
    local storage. *)
Lemma one_call_fails {A : Type} (m : M A) d w r e :
  one_call m -> sent_by m d w = [r] -> fails_with d r e ->
  forall w2, localStorage w2 = localStorage w ->
    m d w2 = (Thrown e, {| localStorage := localStorage w2; network := network w2 ++ [r] |}).
Proof.
  intros (method & url & params & body & k & -> & Hk) Hsent Hfail w2 Hw2.
  rewrite one_call_sent in Hsent by done. injection Hsent as <-.
  rewrite one_call_run, (outgoing_same_storage d w2 w) by done.
  destruct Hfail as [(st & b & -> & Hno & ->)|[-> ->]]; [|done].
  by rewrite is_success_false.
Qed.

Lemma queryFn_one_call h : one_call (queryFn h).
Proof.
  destruct h as [filters|i| | | |]; cbn [queryFn].
  - by apply (invoke_one_call (Tasks_getTasks filters)).
  - by apply (invoke_one_call (Tasks_getTask i)).
  - by apply (invoke_one_call Tasks_getStats).
  - by apply (invoke_one_call Tasks_getTodayTasks).
  - by apply (invoke_one_call Tasks_getOverdueTasks).
  - by apply (invoke_one_call Categories_getCategories).
Qed.

Lemma mutationFn_one_call m : one_call (mutationFn m).
Proof.
  destruct m as [task|i updates|i|i|i]; cbn [mutationFn].
  - by apply (invoke_one_call (Tasks_createTask task)).
  - by apply (invoke_one_call (Tasks_updateTask i updates)).
  - by apply (invoke_one_call (Tasks_deleteTask i)).
  - by apply (invoke_one_call (Tasks_completeTask i)).
  - by apply (invoke_one_call (Tasks_enhanceTask i None)).
Qed.

Lemma queries_retry_client_error k st body :
  400 <= st < 500 -> queries_retry k (status_error st body) = false.
Proof.
  intros [Hlo Hhi]. unfold queries_retry, response_status, js_ge, js_lt. cbn.
  by rewrite (proj2 (Z.leb_le _ _) Hlo), (proj2 (Z.ltb_lt _ _) Hhi).
Qed.

Lemma queries_retry_other k e :
  (forall r, response e = Some r -> ~ 400 <= status r < 500) ->
  queries_retry k e = (k <? 3).
Proof.
  intros Hno. unfold queries_retry, response_status, js_ge, js_lt.
  destruct (response e) as [r|]; cbn; [|done].
  destruct (400 <=? status r) eqn:Hlo, (status r <? 500) eqn:Hhi; cbn; try done.
  exfalso. apply (Hno r eq_refl).
  split; [by apply Z.leb_le | by apply Z.ltb_lt].
Qed.

(** X12.  One fetch of a read hook, by what the backend answers to its
    request: an answer the query function accepts ends the fetch after
    one request; a status in [400, 500) ends it after one request with
    that error; any other failure (another status outside 2xx, or an
    unreachable backend) is tried four times in all, one run and three
    retries, each with the same request, and then reported. *)
Theorem read_fetch_attempts
    (fuel : nat) (h : ReadHook) (d : Deployment) (w : World) (r : Request) :
  (4 <= fuel)%nat ->
  sent_by (queryFn h) d w = [r] ->
  let after n := {| localStorage := localStorage w;
                    network := network w ++ replicate n r |} in
  (forall a, (queryFn h d w).1 = Ok a ->
      fetch fuel h d w = (Some (Ok a), (queryFn h d w).2) /\
      network (queryFn h d w).2 = network w ++ [r]) /\
  (forall st body,
      backend d r = Responded st body -> 400 <= st < 500 ->
      fetch fuel h d w = (Some (Thrown (status_error st body)), after 1%nat)) /\
  (forall e,
      fails_with d r e ->
      (forall resp, response e = Some resp -> ~ 400 <= status resp < 500) ->
      fetch fuel h d w = (Some (Thrown e), after 4%nat)).
Proof.
  intros Hfuel Hsent after. subst after.
  destruct fuel as [|[|[|[|fuel]]]]; try lia. clear Hfuel.
  pose proof (queryFn_one_call h) as Hone.
  split; [|split].
  - intros a Ha. unfold fetch. cbn [Retryer.run].
    destruct (queryFn h d w) as [o w1] eqn:Hrun. cbn [fst snd] in *. subst o.
    split; [done|].
    destruct (invoke_sent (match h with
                           | useTasks f => Tasks_getTasks f
                           | useTask i => Tasks_getTask i
                           | useTaskStats => Tasks_getStats
                           | useTodayTasks => Tasks_getTodayTasks
                           | useOverdueTasks => Tasks_getOverdueTasks
                           | useCategories => Categories_getCategories
                           end) d w) as [Hnet _].
    destruct h; cbn [invoke queryFn] in *; rewrite Hrun in Hnet; cbn [snd] in Hnet;
      by rewrite Hnet, Hsent.
  - intros st body Hr Hst.
    assert (Hfail : fails_with d r (status_error st body)).
    { left. exists st, body. split; [done|]. split; [|done].
      intros [? ?]. lia. }
    unfold fetch. cbn [Retryer.run].
    rewrite (one_call_fails _ d w r _ Hone Hsent Hfail w eq_refl).
    cbn [shouldRetry query_retry default queries_retry_option defaultOptions].
    by rewrite queries_retry_client_error.
  - intros e Hfail Hno.
    unfold fetch. cbn [Retryer.run].
    rewrite (one_call_fails _ d w r _ Hone Hsent Hfail w eq_refl).
    cbn [shouldRetry query_retry default queries_retry_option defaultOptions].
    rewrite queries_retry_other by done. cbn [Z.ltb Z.compare].
    rewrite (one_call_fails _ d w r _ Hone Hsent Hfail) by done.
    rewrite queries_retry_other by done. cbn [Z.add Z.ltb Z.compare Pos.compare Pos.compare_cont].
    rewrite (one_call_fails _ d w r _ Hone Hsent Hfail) by done.
    rewrite queries_retry_other by done. cbn [Z.add Z.ltb Z.compare Pos.compare Pos.compare_cont Pos.add Pos.succ].
    rewrite (one_call_fails _ d w r _ Hone Hsent Hfail) by done.
    rewrite queries_retry_other by done.
    cbn [Z.add Z.ltb Z.compare Pos.compare Pos.compare_cont Pos.add Pos.succ localStorage network].
    rewrite <- !app_assoc. done.
Qed.

Ltac unfold_task_handlers :=
  unfold onSuccess, useCreateTask_onSuccess, useUpdateTask_onSuccess,
    useDeleteTask_onSuccess, useCompleteTask_onSuccess, useEnhanceTask_onSuccess,
    toast, onCache;
  cbn [queries toasts].

Lemma invalidate_twice q : invalidate (invalidate q) = invalidate q.
Proof. done. Qed.

(** The cache after a success handler, key by key. *)
Lemma lookup_onSuccess now r st k :
  queries (onSuccess now r st) !! k =
  match written_task r, evicted_id r with
  | Some t, _ =>
      if decide (taskKeys.detail (id t) = k)
      then Some (fresh_entry (DTask t) now)
      else Reach.reach_flag r k <$> queries st !! k
  | None, Some i =>
      if partialMatchKey k (taskKeys.detail i) then None
      else Reach.reach_flag r k <$> queries st !! k
  | None, None => Reach.reach_flag r k <$> queries st !! k
  end.
Proof.
  unfold Reach.reach_flag, Reach.reached.
  destruct r as [t|t|i|t|t]; cbn [written_task evicted_id Reach.invalidated_keys existsb];
    unfold_task_handlers;
    rewrite ?lookup_invalidateQueries, ?lookup_removeQueries, ?lookup_setQueryData.
  - destruct (queries st !! k) as [q|]; [|done]. cbn [fmap option_fmap option_map orb].
    by destruct (partialMatchKey k taskKeys.lists), (partialMatchKey k taskKeys.stats),
      (partialMatchKey k taskKeys.today).
  - case_decide as Hk.
    + subst k. by vm_compute.
    + destruct (queries st !! k) as [q|]; [|done]. cbn [fmap option_fmap option_map orb].
      by destruct (partialMatchKey k taskKeys.lists), (partialMatchKey k taskKeys.stats),
        (partialMatchKey k taskKeys.today), (partialMatchKey k taskKeys.overdue).
  - destruct (partialMatchKey k (taskKeys.detail i)); [done|].
    destruct (queries st !! k) as [q|]; [|done]. cbn [fmap option_fmap option_map orb].
    by destruct (partialMatchKey k taskKeys.lists), (partialMatchKey k taskKeys.stats),
      (partialMatchKey k taskKeys.today), (partialMatchKey k taskKeys.overdue).
  - case_decide as Hk.
    + subst k. by vm_compute.
    + destruct (queries st !! k) as [q|]; [|done]. cbn [fmap option_fmap option_map orb].
      by destruct (partialMatchKey k taskKeys.lists), (partialMatchKey k taskKeys.stats),
        (partialMatchKey k taskKeys.today), (partialMatchKey k taskKeys.overdue).
  - case_decide as Hk.
    + subst k. by vm_compute.
    + destruct (queries st !! k) as [q|]; [|done]. cbn [fmap option_fmap option_map orb].
      by destruct (partialMatchKey k taskKeys.lists).
Qed.

Lemma not_under_details k i :
  partialMatchKey k taskKeys.details = false ->
  partialMatchKey k (taskKeys.detail i) = false /\ taskKeys.detail i ≠ k.
Proof.
  intros Hk. split.
  - apply not_true_is_false. intros Hm. apply partialMatchKey_prefix in Hm as [suffix ->].
    unfold taskKeys.detail in Hk. rewrite <- app_assoc in Hk.
    by rewrite partialMatchKey_app in Hk.
  - intros <-. unfold taskKeys.detail in Hk. by rewrite partialMatchKey_app in Hk.
Qed.

(** X13.  The success handlers never drop or rewrite what is cached
    outside the task-detail keys: a query cached under such a key keeps
    its data and its timestamp, an invalidation flag that was set stays
    set, and the flag is set afterwards exactly when it was set before or
    the key extends one of the keys the handler invalidates.  A key with
    no entry gets none.  Each handler adds exactly one success toast. *)
Theorem task_mutations_keep_cached_data
    (now : Z) (r : TaskMutationResult) (st : ClientState) (k : QueryKey) :
  partialMatchKey k taskKeys.details = false ->
  (forall q, queries st !! k = Some q ->
     exists q',
       queries (onSuccess now r st) !! k = Some q' /\
       state_data q' = state_data q /\
       dataUpdatedAt q' = dataUpdatedAt q /\
       (isInvalidated q' = true <->
          isInvalidated q = true \/ Reach.reached r k = true)) /\
  (queries st !! k = None -> queries (onSuccess now r st) !! k = None) /\
  (exists msg, toasts (onSuccess now r st) = toasts st ++ [ToastSuccess msg]).
Proof.
  intros Hk.
  assert (Hlook : queries (onSuccess now r st) !! k =
                  Reach.reach_flag r k <$> queries st !! k).
  { rewrite lookup_onSuccess.
    destruct (written_task r) as [t|].
    - destruct (not_under_details k (id t) Hk) as [_ Hne]. by rewrite decide_False.
    - destruct (evicted_id r) as [i|]; [|done].
      destruct (not_under_details k i Hk) as [-> _]. done. }
  split; [|split].
  - intros q Hq. rewrite Hlook, Hq. eexists. split; [reflexivity|].
    unfold Reach.reach_flag. destruct (Reach.reached r k); cbn.
    + split; [done|]. split; [done|]. split; [by right | done].
    + split; [done|]. split; [done|]. split; [by left | by intros [|]].
  - intros Hq. by rewrite Hlook, Hq.
  - destruct r; eexists; reflexivity.
Qed.

(** X14.  What a detail read finds after a mutation.  After update,
    complete or enhance, [useTask] of the returned task's id is served
    from the cache, without a request, until the default freshness window
    of five minutes has passed, and asks the network from then on; after
    delete, [useTask] of the deleted id finds nothing and asks the
    network.  [useTask(0)] is disabled and never asks. *)
Theorem detail_read_after_mutation
    (now at_time : Z) (r : TaskMutationResult) (st : ClientState) :
  (forall t, written_task r = Some t -> id t ≠ 0 ->
     (fetches_on_mount (useTask (id t)) (queries (onSuccess now r st)) at_time = true <->
        now + 5 * 60 * 1000 <= at_time)) /\
  (forall i, evicted_id r = Some i -> i ≠ 0 ->
     fetches_on_mount (useTask i) (queries (onSuccess now r st)) at_time = true) /\
  (forall cache, fetches_on_mount (useTask 0) cache at_time = false).
Proof.
  split; [|split].
  - intros t Ht Hid. unfold fetches_on_mount. cbn [enabled queryKey staleTime].
    rewrite lookup_onSuccess, Ht, decide_True by done.
    rewrite (proj2 (Z.eqb_neq _ _) Hid). cbn.
    by rewrite Z.leb_le.
  - intros i Hi Hid. unfold fetches_on_mount. cbn [enabled queryKey staleTime].
    rewrite lookup_onSuccess, Hi.
    destruct r; try discriminate. cbn [written_task].
    rewrite partialMatchKey_refl, (proj2 (Z.eqb_neq _ _) Hid). done.
  - done.
Qed.

(** X15.  Two read hooks share a cache entry only when they are the same
    hook with the same argument; in particular the task lists of two
    different filter objects are separate entries, and writing at the key
    of one hook leaves the entry of every other hook as it was.  The key
    of a hook that holds no filter object matches the entry of that hook
    only, so removing or invalidating at it leaves every other hook's
    entry as it was.  The key the task handlers invalidate,
    [taskKeys.lists()], matches the entries of [useTasks], whatever the
    filters, and of no other hook.  (How the library matches a key that
    holds a filter object is no part of the statement.) *)
Theorem read_hooks_have_separate_entries (h1 h2 : ReadHook) :
  (queryKey h1 = queryKey h2 -> h1 = h2) /\
  (h1 ≠ h2 ->
   forall (cache : QueryCache) d now,
     setQueryData (queryKey h2) d now cache !! queryKey h1 = cache !! queryKey h1) /\
  (plain_key h2 = true ->
   (partialMatchKey (queryKey h1) (queryKey h2) = true -> h1 = h2) /\
   (h1 ≠ h2 ->
    forall cache : QueryCache,
      invalidateQueries (queryKey h2) cache !! queryKey h1 = cache !! queryKey h1 /\
      removeQueries (queryKey h2) cache !! queryKey h1 = cache !! queryKey h1)) /\
  (partialMatchKey (queryKey h1) taskKeys.lists = true <->
   exists filters, h1 = useTasks filters).
Proof.
  assert (Hinj : queryKey h1 = queryKey h2 -> h1 = h2).
  { destruct h1 as [f1|i1| | | |], h2 as [f2|i2| | | |]; try discriminate; try done;
      cbv [queryKey taskKeys.list taskKeys.lists taskKeys.all taskKeys.detail
             taskKeys.details app]; intros Hk.
    - destruct f1, f2; by simplify_eq.
    - by simplify_eq. }
  split; [exact Hinj|]. split.
  { intros Hne cache d now. rewrite lookup_setQueryData.
    rewrite decide_False; [done|]. intros Heq. by apply Hne, Hinj. }
  split.
  - intros Hplain.
    assert (Hsep : partialMatchKey (queryKey h1) (queryKey h2) = true -> h1 = h2).
    { intros Hm. apply partialMatchKey_prefix in Hm as [suffix Hs].
      destruct h1 as [f1|i1| | | |], h2 as [f2|i2| | | |]; try discriminate Hs;
        try done;
        cbv [queryKey taskKeys.list taskKeys.lists taskKeys.all taskKeys.detail
               taskKeys.details app] in Hs.
      - destruct f1, f2; by simplify_eq.
      - by simplify_eq. }
    split; [exact Hsep|].
    intros Hne cache.
    assert (Hm : partialMatchKey (queryKey h1) (queryKey h2) = false).
    { apply not_true_is_false. intros Hm. by apply Hne, Hsep. }
    rewrite lookup_invalidateQueries, lookup_removeQueries, Hm.
    split; [|done]. by destruct (cache !! queryKey h1).
  - split.
    + intros Hm. destruct h1 as [f1|i1| | | |]; try discriminate Hm. by exists f1.
    + intros [filters ->]. unfold queryKey, taskKeys.list. apply partialMatchKey_app.
Qed.

Lemma task_of_json_id body t :
  TaskJson.task_of_json body = Some t -> prop body "id" = Ok (JNum (id t)).
Proof.
  destruct body as [| | | | | |fields]; try discriminate. cbn [TaskJson.task_of_json].
  intros Ht. cbn [prop opt_prop].
  destruct (assoc "id" fields) as [| | |n| | |]; try discriminate Ht.
  cbn [TaskJson.as_number mbind option_bind] in Ht.
  repeat match type of Ht with
         | context [match ?x with Some _ => _ | None => None end] =>
             destruct x; cbn [mbind option_bind] in Ht; [|discriminate Ht]
         | (?x ≫= _) = Some _ => destruct x; cbn [mbind option_bind] in Ht; [|discriminate Ht]
         end.
  by injection Ht as <-.
Qed.

(** X16.  A task mutation run through the client, by what the backend
    answers to its request.  On a failure the request is not repeated,
    the query cache is left exactly as it was, and one error toast with
    the text of [getErrorMessage] is added.  On a 2xx answer: the delete
    handler runs whatever the body is; when the body is a task, the
    handler of the mutation runs once on that task, which carries the
    [id] of the body; and when the body is [null], a handler that reads
    [data.id] throws before it touches the cache, so the cache is left as
    it was and one error toast is added.  One run of the mutation
    function is all it takes. *)
Theorem task_mutation_lifecycle
    (fuel : nat) (now : Z) (m : TaskMutation)
    (d : Deployment) (w : World) (st : ClientState) (r : Request) :
  (1 <= fuel)%nat ->
  sent_by (mutationFn m) d w = [r] ->
  let after := {| localStorage := localStorage w; network := network w ++ [r] |} in
  (forall e, fails_with d r e ->
     mutate fuel now m d w st =
     Done after {| queries := queries st;
                   toasts := toasts st ++ [ToastError (getErrorMessage e)] |}) /\
  (forall code body, backend d r = Responded code body -> is_success code ->
     (forall i, m = MutateDelete i ->
        mutate fuel now m d w st = Done after (onSuccess now (DeletedTask i) st)) /\
     (forall t, TaskJson.task_of_json body = Some t ->
        prop body "id" = Ok (JNum (id t)) /\
        mutate fuel now m d w st = Done after (onSuccess now (result_of m t) st)) /\
     (reads_id m = true -> body = JNull \/ body = JUndefined ->
        exists e,
          response e = None /\
          mutate fuel now m d w st =
          Done after {| queries := queries st;
                        toasts := toasts st ++ [ToastError (getErrorMessage e)] |})).
Proof.
  intros Hfuel Hsent after. subst after.
  destruct fuel as [|fuel]; [lia|]. clear Hfuel.
  pose proof (mutationFn_one_call m) as Hone. split.
  - intros e Hfail. unfold mutate. cbn [Retryer.run].
    by rewrite (one_call_fails _ d w r e Hone Hsent Hfail w eq_refl).
  - intros code body Hr Hcode. apply is_success_true in Hcode.
    assert (Hrun : (mutationFn m d w) =
              (Ok (match m with MutateDelete _ => JUndefined | _ => body end),
               {| localStorage := localStorage w; network := network w ++ [r] |})).
    { revert Hsent.
      destruct m as [task|i updates|i|i|i]; cbn [mutationFn];
        unfold tasksApi.createTask, tasksApi.updateTask, tasksApi.deleteTask,
          tasksApi.completeTask, tasksApi.enhanceTask, api_post, api_patch, api_delete;
        rewrite one_call_sent by (intros ?; apply silent_ret);
        intros [= <-]; rewrite one_call_run, Hr, Hcode; reflexivity. }
    unfold mutate. cbn [Retryer.run]. rewrite Hrun. clear Hrun.
    split; [|split].
    + by intros i ->.
    + intros t Ht. split; [by apply task_of_json_id|].
      destruct m as [task|i updates|i|i|i]; cbn [on_response reads_id result_of];
        rewrite ?(task_of_json_id _ _ Ht), ?Ht; reflexivity.
    + intros Hreads [-> | ->];
        destruct m as [task|i updates|i|i|i]; try discriminate Hreads;
        cbn [on_response reads_id prop]; eexists; (split; [|reflexivity]); done.
Qed.

End QueryClient.

(** ** Category mutations: what they leave alone, and how they compose *)

Section Categories.
Import TaskHooks CategoryHooks ReadHooks Matrix.

Lemma setCategoryList_frame f now st k :
  k ≠ categoryKeys.lists ->
  queries (setCategoryList f now st).2 !! k = queries st !! k.
Proof.
  intros Hk. unfold setCategoryList, setQueryDataWith.
  destruct (typed_updater f _) as [[data|]|e]; cbn [snd queries]; [|done..].
  by rewrite lookup_insert_ne.
Qed.

Lemma create_frame now c st k :
  k ≠ categoryKeys.lists ->
  queries (useCreateCategory_onSuccess now c st).2 !! k = queries st !! k.
Proof.
  intros Hk. rewrite <- (setCategoryList_frame (create_updater c) now st k Hk).
  unfold useCreateCategory_onSuccess.
  by destruct (setCategoryList _ now st) as [[?|?] ?].
Qed.

Lemma update_frame now u st k :
  k ≠ categoryKeys.lists -> k ≠ categoryKeys.detail (cat_id u) ->
  queries (useUpdateCategory_onSuccess now u st).2 !! k = queries st !! k.
Proof.
  intros Hk Hd. unfold useUpdateCategory_onSuccess.
  set (st1 := onCache _ st).
  transitivity (queries (setCategoryList (update_updater u) now st1).2 !! k).
  { by destruct (setCategoryList _ now st1) as [[?|?] ?]. }
  rewrite setCategoryList_frame by done. subst st1. unfold onCache. cbn [queries].
  by rewrite lookup_setQueryData, decide_False.
Qed.

Lemma delete_frame now i st k :
  k ≠ categoryKeys.lists -> partialMatchKey k (categoryKeys.detail i) = false ->
  queries (useDeleteCategory_onSuccess now i st).2 !! k = queries st !! k.
Proof.
  intros Hk Hd. unfold useDeleteCategory_onSuccess.
  set (st1 := onCache _ st).
  transitivity (queries (setCategoryList (delete_updater i) now st1).2 !! k).
  { by destruct (setCategoryList _ now st1) as [[?|?] ?]. }
  rewrite setCategoryList_frame by done. subst st1. unfold onCache. cbn [queries].
  by rewrite lookup_removeQueries, Hd.
Qed.

(** X17.  The category handlers touch the category-list key and the
    detail key of their category only: every other cached key is left
    exactly as it was, also when the handler stops with an exception.
    Task data and category data never disturb each other: no category
    handler changes the entry of a task read hook, and no task handler
    changes the category list or a category detail entry. *)
Theorem category_mutations_leave_other_keys (now : Z) (st : ClientState) (k : QueryKey) :
  (k ≠ categoryKeys.lists ->
     (forall c, queries (useCreateCategory_onSuccess now c st).2 !! k = queries st !! k) /\
     (forall u, k ≠ categoryKeys.detail (cat_id u) ->
        queries (useUpdateCategory_onSuccess now u st).2 !! k = queries st !! k) /\
     (forall i, partialMatchKey k (categoryKeys.detail i) = false ->
        queries (useDeleteCategory_onSuccess now i st).2 !! k = queries st !! k)) /\
  (forall h, h ≠ useCategories ->
     (forall c, queries (useCreateCategory_onSuccess now c st).2 !! queryKey h =
                queries st !! queryKey h) /\
     (forall u, queries (useUpdateCategory_onSuccess now u st).2 !! queryKey h =
                queries st !! queryKey h) /\
     (forall i, queries (useDeleteCategory_onSuccess now i st).2 !! queryKey h =
                queries st !! queryKey h)) /\
  (forall r,
     queries (onSuccess now r st) !! categoryKeys.lists = queries st !! categoryKeys.lists /\
     forall i, queries (onSuccess now r st) !! categoryKeys.detail i =
               queries st !! categoryKeys.detail i).
Proof.
  split; [|split].
  - intros Hk. split; [|split].
    + intros c. by apply create_frame.
    + intros u Hd. by apply update_frame.
    + intros i Hd. by apply delete_frame.
  - intros h Hh.
    assert (Hk : queryKey h ≠ categoryKeys.lists) by (by destruct h).
    assert (Hd : forall i, queryKey h ≠ categoryKeys.detail i) by (by destruct h).
    assert (Hm : forall i, partialMatchKey (queryKey h) (categoryKeys.detail i) = false)
      by (by destruct h).
    split; [|split].
    + intros c. by apply create_frame.
    + intros u. by apply update_frame.
    + intros i. by apply delete_frame.
  - intros r.
    assert (Hother : forall k', hd_error k' = Some (KStr "categories") ->
              queries (onSuccess now r st) !! k' = queries st !! k').
    { intros k' Hhead.
      assert (Hno : forall key, hd_error key = Some (KStr "tasks") ->
                      partialMatchKey k' key = false).
      { intros key Hkey. destruct key as [|y key]; [done|]. destruct k' as [|x k']; [done|].
        cbn in *. simplify_eq. done. }
      rewrite lookup_onSuccess.
      assert (Hflag : Reach.reach_flag r k' <$> queries st !! k' = queries st !! k').
      { unfold Reach.reach_flag, Reach.reached.
        destruct r; cbn [Reach.invalidated_keys existsb]; rewrite !Hno by done;
          by destruct (queries st !! k'). }
      destruct (written_task r) as [t|].
      - rewrite decide_False; [done|]. intros <-. discriminate Hhead.
      - destruct (evicted_id r) as [i|]; [|done]. by rewrite Hno. }
    split; [by apply Hother|]. intros i. by apply Hother.
Qed.

Lemma list_after f now st old :
  category_list_is st old ->
  category_list_is (setCategoryList f now st).2 (Some (f old)).
Proof.
  intros Hold. rewrite (setCategoryList_ok _ _ _ old Hold). apply category_list_is_insert.
Qed.

Lemma create_list now c st old :
  category_list_is st old ->
  category_list_is (useCreateCategory_onSuccess now c st).2 (Some (create_updater c old)).
Proof.
  intros Hold. unfold useCreateCategory_onSuccess.
  rewrite (setCategoryList_ok _ _ _ old Hold). apply category_list_is_insert.
Qed.

Lemma update_list now u st old :
  category_list_is st old ->
  category_list_is (useUpdateCategory_onSuccess now u st).2 (Some (update_updater u old)).
Proof.
  intros Hold. unfold useUpdateCategory_onSuccess.
  erewrite (setCategoryList_ok _ _ _ old); [apply category_list_is_insert|].
  unfold category_list_is, onCache in *. cbn [queries].
  by rewrite lookup_setQueryData, decide_False by discriminate.
Qed.

Lemma delete_list now i st old :
  category_list_is st old ->
  category_list_is (useDeleteCategory_onSuccess now i st).2 (Some (delete_updater i old)).
Proof.
  intros Hold. unfold useDeleteCategory_onSuccess.
  erewrite (setCategoryList_ok _ _ _ old); [apply category_list_is_insert|].
  unfold category_list_is, onCache in *. cbn [queries].
  rewrite lookup_removeQueries. by change (partialMatchKey _ _) with false.
Qed.

Lemma filter_other_ids (i : Z) (cs : list Category) :
  Forall (fun c => cat_id c ≠ i) cs -> filter (fun c => cat_id c ≠ i) cs = cs.
Proof.
  induction 1 as [|c cs Hc _ IH]; [done|].
  by rewrite filter_cons_True, IH.
Qed.

Lemma replace_other_ids (u : Category) (cs : list Category) :
  Forall (fun c => cat_id c ≠ cat_id u) cs ->
  map (fun cat => if cat_id cat =? cat_id u then u else cat) cs = cs.
Proof.
  induction 1 as [|c cs Hc _ IH]; [done|]. cbn.
  by rewrite IH, (proj2 (Z.eqb_neq _ _) Hc).
Qed.

Lemma replace_twice (u : Category) (cs : list Category) :
  map (fun cat => if cat_id cat =? cat_id u then u else cat)
    (map (fun cat => if cat_id cat =? cat_id u then u else cat) cs) =
  map (fun cat => if cat_id cat =? cat_id u then u else cat) cs.
Proof.
  rewrite map_map. apply map_ext. intros x.
  destruct (cat_id x =? cat_id u) eqn:Hx; [by rewrite Z.eqb_refl | by rewrite Hx].
Qed.

(** X18.  How the category handlers compose on a cached list [old].
    Creating a category whose id is new and then deleting that id gives
    [old] back.  Updating a category whose id is not in the list leaves
    the list as it is (the category is not added), and so does deleting
    an id that is not in it.  Updating twice with the same category is
    the same as updating once, and after a delete no entry of the deleted
    id is left. *)
Theorem category_list_compositions
    (now later : Z) (st : ClientState) (old : list Category) :
  category_list_is st (Some old) ->
  (forall c, Forall (fun x => cat_id x ≠ cat_id c) old ->
     category_list_is
       (useDeleteCategory_onSuccess later (cat_id c)
          (useCreateCategory_onSuccess now c st).2).2 (Some old)) /\
  (forall u, Forall (fun x => cat_id x ≠ cat_id u) old ->
     category_list_is (useUpdateCategory_onSuccess now u st).2 (Some old)) /\
  (forall i, Forall (fun x => cat_id x ≠ i) old ->
     category_list_is (useDeleteCategory_onSuccess now i st).2 (Some old)) /\
  (forall u new,
     category_list_is (useUpdateCategory_onSuccess now u st).2 (Some new) ->
     category_list_is
       (useUpdateCategory_onSuccess later u (useUpdateCategory_onSuccess now u st).2).2
       (Some new)) /\
  (forall i new,
     category_list_is (useDeleteCategory_onSuccess now i st).2 (Some new) ->
     Forall (fun x => cat_id x ≠ i) new).
Proof.
  intros Hold.
  assert (Huniq : forall st0 a b,
            category_list_is st0 a -> category_list_is st0 b -> a = b).
  { unfold category_list_is. intros st0 a b -> Hb.
    destruct a, b; by simplify_eq. }
  split; [|split; [|split; [|split]]].
  - intros c Hnew.
    pose proof (delete_list later (cat_id c) _ _ (create_list now c st _ Hold)) as H.
    cbn [create_updater delete_updater] in H.
    rewrite filter_app, filter_other_ids in H by done.
    rewrite filter_cons_False in H by (intros Hc; by apply Hc).
    by rewrite filter_nil, app_nil_r in H.
  - intros u Hnew. pose proof (update_list now u st _ Hold) as H.
    cbn [update_updater] in H. by rewrite replace_other_ids in H.
  - intros i Hnew. pose proof (delete_list now i st _ Hold) as H.
    cbn [delete_updater] in H. by rewrite filter_other_ids in H.
  - intros u new Hnew.
    pose proof (update_list later u _ _ Hnew) as H.
    pose proof (Huniq _ _ _ Hnew (update_list now u st _ Hold)) as [= ->].
    cbn [update_updater] in H |- *. by rewrite replace_twice in H.
  - intros i new Hnew.
    pose proof (Huniq _ _ _ Hnew (delete_list now i st _ Hold)) as [= ->].
    cbn [delete_updater]. apply Forall_forall. intros x Hx.
    by apply list_elem_of_filter in Hx as [? _].
Qed.

End Categories.

(* ====================================================================== *)
(** ** Helpers, the task card and the dashboard                            *)
(* ====================================================================== *)

Section Helpers.
Import TextUtils DateUtils StorageUtils TaskCard TaskCardView DashboardPage.

Lemma trimStart_split (s : CodeUnits) :
  exists ws,
    s = ws ++ trimStart s /\
    Forall (fun c => is_whitespace c = true) ws /\
    forall c, head (trimStart s) = Some c -> is_whitespace c = false.
Proof.
  induction s as [|c s IH].
  - exists []. by repeat split.
  - cbn [trimStart]. destruct (is_whitespace c) eqn:Hc.
    + destruct IH as (ws & Heq & Hws & Hhead).
      exists (c :: ws). split; [by rewrite <- app_comm_cons, <- Heq|].
      split; [by constructor | done].
    + exists []. repeat split; [constructor|].
      intros c' [= <-]. done.
Qed.

Lemma trimEnd_split (s : CodeUnits) :
  exists ws,
    s = trimEnd s ++ ws /\
    Forall (fun c => is_whitespace c = true) ws /\
    forall c, last (trimEnd s) = Some c -> is_whitespace c = false.
Proof.
  destruct (trimStart_split (reverse s)) as (ws & Heq & Hws & Hhead).
  exists (reverse ws). unfold trimEnd. split.
  - by rewrite <- reverse_app, <- Heq, reverse_involutive.
  - split; [by apply Forall_reverse|].
    intros c Hc. apply Hhead. by rewrite <- last_reverse.
Qed.

Lemma trim_split (s : CodeUnits) :
  exists front back,
    s = front ++ trim s ++ back /\
    Forall (fun c => is_whitespace c = true) front /\
    Forall (fun c => is_whitespace c = true) back /\
    (forall c, head (trim s) = Some c -> is_whitespace c = false) /\
    (forall c, last (trim s) = Some c -> is_whitespace c = false).
Proof.
  destruct (trimStart_split s) as (front & Hs & Hfront & Hhead).
  destruct (trimEnd_split (trimStart s)) as (back & Ht & Hback & Hlast).
  exists front, back. unfold trim.
  split; [by rewrite <- Ht|]. do 2 (split; [done|]).
  split; [|done].
  intros c Hc. apply Hhead. rewrite Ht.
  by destruct (trimEnd (trimStart s)).
Qed.

Lemma slice_to_prefix (s : CodeUnits) (e : Z) :
  0 <= e ->
  exists rest, s = slice_to s e ++ rest /\ Z.of_nat (length (slice_to s e)) <= e.
Proof.
  intros He. unfold slice_to.
  destruct (Z.ltb_spec e 0) as [?|_]; [lia|].
  exists (drop (Z.to_nat (Z.min e (Z.of_nat (length s)))) s).
  split; [by rewrite take_drop|].
  rewrite length_take. lia.
Qed.

(** X19. [truncateText] with a limit that is not negative: a text within
    the limit comes back as it is; a longer one becomes a piece of the
    text followed by three dots, where the piece starts after the leading
    white space of the text, is at most [maxLength] code units long and
    neither begins nor ends with white space.  The result is at most
    [maxLength + 3] code units long. *)
Theorem truncateText_shape (text : CodeUnits) (maxLength : Z) :
  0 <= maxLength ->
  Z.of_nat (length (truncateText text maxLength)) <= maxLength + 3 /\
  ((Z.of_nat (length text) <= maxLength /\ truncateText text maxLength = text) \/
   (maxLength < Z.of_nat (length text) /\
    exists front kept rest,
      truncateText text maxLength = kept ++ ellipsis /\
      text = front ++ kept ++ rest /\
      Forall (fun c => is_whitespace c = true) front /\
      Z.of_nat (length front + length kept) <= maxLength /\
      (forall c, head kept = Some c -> is_whitespace c = false) /\
      (forall c, last kept = Some c -> is_whitespace c = false))).
Proof.
  intros Hmax. unfold truncateText.
  destruct (Z.leb_spec (Z.of_nat (length text)) maxLength) as [Hle|Hgt].
  { split; [lia|]. by left. }
  destruct (slice_to_prefix text maxLength Hmax) as (rest & Htext & Hlen).
  destruct (trim_split (slice_to text maxLength))
    as (front & back & Hslice & Hfront & _ & Hhead & Hlast).
  assert (Z.of_nat (length front + length (trim (slice_to text maxLength))) <= maxLength)
    as Hkept.
  { rewrite Hslice in Hlen at 1. rewrite !length_app in Hlen. lia. }
  split.
  { rewrite length_app. cbn [ellipsis length]. lia. }
  right. split; [done|].
  exists front, (trim (slice_to text maxLength)), (back ++ rest).
  split; [done|]. split; [|done].
  rewrite Htext at 1. rewrite Hslice at 1. by rewrite <- !app_assoc.
Qed.

(** X20. The date status is consistent: a date is never both overdue and
    due today, the overdue flag is the one [isOverdue] computes, a date
    due today is always shown in blue, red is the colour of overdue dates
    only, and the due-date badge of a task card always takes the class of
    the status, never its own fallback. *)
Theorem date_status_consistent (date : DateFacts) :
  let st := getDateStatus date in
  status_isOverdue st = isOverdue date /\
  status_isOverdue st && status_isToday st = false /\
  (isToday date = true -> className st = "text-blue-600") /\
  (className st = "text-red-600" <-> isOverdue date = true) /\
  badge_class date = className st /\
  shows_overdue_mark date = isOverdue date.
Proof.
  destruct date as [[] [] []]; cbv; repeat split; try done; intros; discriminate.
Qed.

(** X21. The storage helpers in a browser: a value written under a key is
    the one read back, other keys keep their values, and a removed key
    reads as null.  A token written under [access_token] is the one the
    interceptor puts on the next request.  On the server nothing is read
    or written. *)
Theorem storage_helpers_round_trip (storage : gmap string string) (key value : string) :
  getFromStorage (setToStorage (Some storage) key value) key = Some value /\
  getFromStorage (removeFromStorage (Some storage) key) key = None /\
  (forall other, other ≠ key ->
     getFromStorage (setToStorage (Some storage) key value) other = storage !! other /\
     getFromStorage (removeFromStorage (Some storage) key) other = storage !! other) /\
  (forall after config,
     setToStorage (Some storage) "access_token" value = Some after -> value ≠ "" ->
     req_headers (request_interceptor after config) !! "Authorization" =
       Some ("Bearer " +:+ value)) /\
  getFromStorage None key = None /\
  getFromStorage (setToStorage None key value) key = None /\
  removeFromStorage None key = None.
Proof.
  cbn [getFromStorage setToStorage removeFromStorage].
  split; [by rewrite lookup_insert_eq|].
  split; [by rewrite lookup_delete_eq|].
  split.
  { intros other Hother. by rewrite lookup_insert_ne, lookup_delete_ne. }
  split; [|done].
  intros after config [= <-] Hvalue. unfold request_interceptor.
  apply truthy_string_true in Hvalue. rewrite lookup_insert_eq, Hvalue.
  cbn [req_headers]. by rewrite lookup_insert_eq.
Qed.

(** X22. What a task card shows of the description.  When the enhance
    button is offered, the text on the card is the task's own
    description.  When the task has an AI-enhanced description, the card
    shows that text and offers no enhance button.  A completed task never
    gets the button. *)
Theorem card_description_and_enhance (task : Task) :
  (shows_enhance_button task = true -> shown_description task = description task) /\
  (forall text,
     ai_enhanced_description task = Some text -> text ≠ "" ->
     shown_description task = text /\
     shows_description task = true /\
     shows_enhance_button task = false) /\
  (is_completed task = true -> shows_enhance_button task = false).
Proof.
  unfold shows_enhance_button, shows_description, shown_description, truthy_opt.
  split; [|split].
  - destruct (ai_enhanced_description task) as [text|]; [|done].
    destruct (truthy_string text); [|done].
    rewrite andb_false_r. discriminate.
  - intros text -> Htext. apply truthy_string_true in Htext.
    rewrite !Htext. by rewrite andb_false_r.
  - by intros ->.
Qed.



End Helpers.

Section ContextPanel.
Import AIContextAnalyzer.

Variable entry_ids : JsValue -> list Z.

Lemma or_text_truthy v text : text ≠ "" -> truthy (or_text v text) = true.
Proof.
  intros Htext. unfold or_text. destruct (truthy v) eqn:Hv; [done|].
  cbn [truthy]. by apply truthy_string_true.
Qed.

(** The refresh sends one request and replaces the entries when it is
    answered. *)
Lemma fetchUnprocessedEntries_run d st w :
  fetchUnprocessedEntries entry_ids d st w =
  (setUnprocessedEntries (entries_after_refresh entry_ids d w (unprocessedEntries st)) st,
   {| localStorage := localStorage w;
      network := network w ++ [outgoing d w GET "/context/unprocessed/" [] JUndefined] |}).
Proof.
  unfold fetchUnprocessedEntries, entries_after_refresh, contextApi.getUnprocessed, api_get.
  rewrite one_call_run.
  destruct (backend d _) as [code b|]; [destruct (_ && _)|]; by destruct st.
Qed.

(** A processing call followed by the rest of its handler, by what the
    backend answers to the call. *)
Lemma processing_cases url body accept failed rejected d st w :
  let r := outgoing d w POST url [] body in
  let refresh := outgoing d w GET "/context/unprocessed/" [] JUndefined in
  let call := (api_post url body ≫= (fun response => mret (data response))) d w in
  let st' := (settle entry_ids accept failed rejected call.1 d st call.2).1 in
  let w' := (settle entry_ids accept failed rejected call.1 d st call.2).2 in
  let unchanged (shown : JsValue) :=
    st' = setError (Some shown) st /\
    w' = {| localStorage := localStorage w; network := network w ++ [r] |} in
  (forall code data success,
      backend d r = Responded code data -> is_success code ->
      prop data "success" = Ok success ->
      if truthy success then
        st' = setUnprocessedEntries
                (entries_after_refresh entry_ids d w (unprocessedEntries st))
                (queueResults (accept data) st) /\
        w' = {| localStorage := localStorage w; network := network w ++ [r; refresh] |}
      else unchanged (or_text (opt_prop data "error") rejected)) /\
  (forall code data,
      backend d r = Responded code data -> is_success code ->
      data = JNull \/ data = JUndefined -> unchanged (JStr failed)) /\
  (forall e, fails_with d r e -> unchanged (JStr failed)).
Proof.
  intros r refresh call st' w' unchanged. subst call st' w' unchanged.
  unfold api_post. rewrite one_call_run. fold r. split; [|split].
  - intros code data success -> Hcode%is_success_true Hsuccess. rewrite Hcode.
    unfold mret, M_ret. cbn [fst snd Js.data settle]. rewrite Hsuccess.
    destruct (truthy success); [|done].
    rewrite fetchUnprocessedEntries_run. cbn [fst snd localStorage network].
    split; [done|]. by rewrite <- app_assoc.
  - intros code data -> Hcode%is_success_true Hdata. rewrite Hcode.
    unfold mret, M_ret. cbn [fst snd Js.data settle]. by destruct Hdata as [-> | ->].
  - intros e [(code & data & -> & Hno%is_success_false & ->)|[-> ->]]; [|done].
    by rewrite Hno.
Qed.

(** X24.  Bulk processing in the context panel.  With no unprocessed entry
    the handler does nothing at all.  Otherwise it sends one POST to
    [/context/bulk_process/] with the ids of all the entries, in order,
    and ends with [analyzing] off and local storage untouched; what else
    it does is decided by the answer.  A 2xx answer with a truthy
    [success]: its [results] are queued, no error is shown, one refresh
    request for [/context/unprocessed/] follows and the entries become
    the refreshed ones.  A 2xx answer with a falsy [success]: its [error]
    member, or "Bulk processing failed" when that is falsy, is shown.  A
    2xx answer with a [null] body, a rejected or an unanswered request:
    "Failed to process context entries" is shown.  In these three cases
    nothing else is sent and results and entries stay as they were. *)
Theorem bulk_process_requests (d : Deployment) (st : State) (w : World) :
  let st' := (handleBulkProcess entry_ids d st w).1 in
  let w' := (handleBulkProcess entry_ids d st w).2 in
  let bulk := outgoing d w POST "/context/bulk_process/" []
                (JObj [("entry_ids", ids_array (unprocessedEntries st))]) in
  let refresh := outgoing d w GET "/context/unprocessed/" [] JUndefined in
  let stopped (shown : JsValue) :=
    network w' = network w ++ [bulk] /\
    error st' = Some shown /\ truthy shown = true /\
    queuedResults st' = queuedResults st /\
    unprocessedEntries st' = unprocessedEntries st in
  (unprocessedEntries st = [] -> st' = st /\ w' = w) /\
  (unprocessedEntries st ≠ [] ->
     analyzing st' = false /\
     localStorage w' = localStorage w /\
     (forall code data success,
         backend d bulk = Responded code data -> is_success code ->
         prop data "success" = Ok success ->
         if truthy success then
           network w' = network w ++ [bulk; refresh] /\
           error st' = None /\
           queuedResults st' = queuedResults st ++ [opt_prop data "results"] /\
           unprocessedEntries st' =
             entries_after_refresh entry_ids d w (unprocessedEntries st)
         else stopped (or_text (opt_prop data "error") "Bulk processing failed")) /\
     (forall code data,
         backend d bulk = Responded code data -> is_success code ->
         data = JNull \/ data = JUndefined ->
         stopped (JStr "Failed to process context entries")) /\
     (forall e, fails_with d bulk e ->
         stopped (JStr "Failed to process context entries"))).
Proof.
  cbn zeta. unfold handleBulkProcess.
  destruct (unprocessedEntries st) as [|entry entries] eqn:Hentries; [by split|].
  split; [done|]. intros _. rewrite <- Hentries.
  set (st1 := setError None (setAnalyzing true st)).
  destruct (processing_cases "/context/bulk_process/"
              (JObj [("entry_ids", ids_array (unprocessedEntries st))])
              (fun result => opt_prop result "results")
              "Failed to process context entries" "Bulk processing failed" d st1 w)
    as (Haccepted & Hnull & Hfailed).
  unfold contextApi.bulkProcess.
  destruct ((api_post _ _ ≫= _) d w) as [result w1].
  cbn [fst snd] in Haccepted, Hnull, Hfailed.
  destruct (settle entry_ids _ _ _ result d st1 w1) as [st2 w2] eqn:Hsettle.
  cbn [fst snd] in *.
  assert (analyzing (setAnalyzing false st2) = false) as Hoff by done.
  assert (forall shown, truthy shown = true ->
            st2 = setError (Some shown) st1 /\
            w2 = {| localStorage := localStorage w;
                    network := network w ++ [outgoing d w POST "/context/bulk_process/" []
                      (JObj [("entry_ids", ids_array (unprocessedEntries st))])] |} ->
            network w2 = network w ++ [outgoing d w POST "/context/bulk_process/" []
                      (JObj [("entry_ids", ids_array (unprocessedEntries st))])] /\
            error (setAnalyzing false st2) = Some shown /\ truthy shown = true /\
            queuedResults (setAnalyzing false st2) = queuedResults st /\
            unprocessedEntries (setAnalyzing false st2) = unprocessedEntries st) as Hstop.
  { by intros shown Hshown [-> ->]. }
  split; [done|]. split.
  { destruct (backend d (outgoing d w POST "/context/bulk_process/" []
                (JObj [("entry_ids", ids_array (unprocessedEntries st))])))
      as [code data|] eqn:Hanswer.
    - destruct ((200 <=? code) && (code <? 300)) eqn:Hcode.
      + assert (is_success code) as Hok.
        { apply andb_true_iff in Hcode as [Hlo%Z.leb_le Hhi%Z.ltb_lt]. by split. }
        destruct (prop data "success") as [success|e] eqn:Hsuccess.
        * specialize (Haccepted code data success eq_refl Hok Hsuccess).
          destruct (truthy success); by destruct Haccepted as [-> ->].
        * assert (data = JNull \/ data = JUndefined) as Hdata
            by (destruct data; try discriminate Hsuccess; auto).
          by destruct (Hnull code data eq_refl Hok Hdata) as [-> ->].
      + assert (fails_with d (outgoing d w POST "/context/bulk_process/" []
                  (JObj [("entry_ids", ids_array (unprocessedEntries st))]))
                  (status_error code data)) as Hfails.
        { left. exists code, data. split; [done|]. split; [|done].
          intros [Hlo%Z.leb_le Hhi%Z.ltb_lt]. by rewrite Hlo, Hhi in Hcode. }
        by destruct (Hfailed _ Hfails) as [-> ->].
    - assert (fails_with d (outgoing d w POST "/context/bulk_process/" []
                (JObj [("entry_ids", ids_array (unprocessedEntries st))]))
                network_error) as Hfails by by right.
      by destruct (Hfailed _ Hfails) as [-> ->]. }
  split; [|split].
  - intros code data success Hanswer Hok Hsuccess.
    specialize (Haccepted code data success Hanswer Hok Hsuccess).
    destruct (truthy success) eqn:Htruthy.
    + by destruct Haccepted as [-> ->].
    + apply Hstop; [by apply or_text_truthy | done].
  - intros code data Hanswer Hok Hdata.
    apply Hstop; [done|]. by apply (Hnull code data).
  - intros e Hfails. apply Hstop; [done|]. by apply (Hfailed e).
Qed.

(** X25.  Analysing one entry from the context panel always sends one POST
    to [/context/{id}/analyze/] without a body and ends with [analyzing]
    off and local storage untouched; what else it does is decided by the
    answer.  A 2xx answer with a truthy [success]: the answer itself is
    queued as a result, no error is shown, one refresh request for
    [/context/unprocessed/] follows and the entries become the refreshed
    ones.  A 2xx answer with a falsy [success]: its [error] member, or
    "Analysis failed" when that is falsy, is shown.  A 2xx answer with a
    [null] body, a rejected or an unanswered request: "Failed to analyze
    context entry" is shown.  In these three cases nothing else is sent
    and results and entries stay as they were. *)
Theorem analyze_single_requests (entryId : Z) (d : Deployment) (st : State) (w : World) :
  let st' := (handleAnalyzeSingle entry_ids entryId d st w).1 in
  let w' := (handleAnalyzeSingle entry_ids entryId d st w).2 in
  let analyze := outgoing d w POST ("/context/" +:+ num_to_string entryId +:+ "/analyze/")
                   [] JUndefined in
  let refresh := outgoing d w GET "/context/unprocessed/" [] JUndefined in
  let stopped (shown : JsValue) :=
    network w' = network w ++ [analyze] /\
    error st' = Some shown /\ truthy shown = true /\
    queuedResults st' = queuedResults st /\
    unprocessedEntries st' = unprocessedEntries st in
  analyzing st' = false /\
  localStorage w' = localStorage w /\
  (forall code data success,
      backend d analyze = Responded code data -> is_success code ->
      prop data "success" = Ok success ->
      if truthy success then
        network w' = network w ++ [analyze; refresh] /\
        error st' = None /\
        queuedResults st' = queuedResults st ++ [JArr [data]] /\
        unprocessedEntries st' =
          entries_after_refresh entry_ids d w (unprocessedEntries st)
      else stopped (or_text (opt_prop data "error") "Analysis failed")) /\
  (forall code data,
      backend d analyze = Responded code data -> is_success code ->
      data = JNull \/ data = JUndefined ->
      stopped (JStr "Failed to analyze context entry")) /\
  (forall e, fails_with d analyze e ->
      stopped (JStr "Failed to analyze context entry")).
Proof.
  cbn zeta. unfold handleAnalyzeSingle.
  set (st1 := setError None (setAnalyzing true st)).
  destruct (processing_cases ("/context/" +:+ num_to_string entryId +:+ "/analyze/")
              JUndefined (fun result => JArr [result])
              "Failed to analyze context entry" "Analysis failed" d st1 w)
    as (Haccepted & Hnull & Hfailed).
  unfold contextApi.analyzeContext.
  destruct ((api_post _ _ ≫= _) d w) as [result w1].
  cbn [fst snd] in Haccepted, Hnull, Hfailed.
  destruct (settle entry_ids _ _ _ result d st1 w1) as [st2 w2] eqn:Hsettle.
  cbn [fst snd] in *.
  assert (forall shown, truthy shown = true ->
            st2 = setError (Some shown) st1 /\
            w2 = {| localStorage := localStorage w;
                    network := network w ++
                      [outgoing d w POST ("/context/" +:+ num_to_string entryId +:+ "/analyze/")
                         [] JUndefined] |} ->
            network w2 = network w ++
              [outgoing d w POST ("/context/" +:+ num_to_string entryId +:+ "/analyze/")
                 [] JUndefined] /\
            error (setAnalyzing false st2) = Some shown /\ truthy shown = true /\
            queuedResults (setAnalyzing false st2) = queuedResults st /\
            unprocessedEntries (setAnalyzing false st2) = unprocessedEntries st) as Hstop.
  { by intros shown Hshown [-> ->]. }
  split; [done|]. split.
  { destruct (backend d (outgoing d w POST
                ("/context/" +:+ num_to_string entryId +:+ "/analyze/") [] JUndefined))
      as [code data|] eqn:Hanswer.
    - destruct ((200 <=? code) && (code <? 300)) eqn:Hcode.
      + assert (is_success code) as Hok.
        { apply andb_true_iff in Hcode as [Hlo%Z.leb_le Hhi%Z.ltb_lt]. by split. }
        destruct (prop data "success") as [success|e] eqn:Hsuccess.
        * specialize (Haccepted code data success eq_refl Hok Hsuccess).
          destruct (truthy success); by destruct Haccepted as [-> ->].
        * assert (data = JNull \/ data = JUndefined) as Hdata
            by (destruct data; try discriminate Hsuccess; auto).
          by destruct (Hnull code data eq_refl Hok Hdata) as [-> ->].
      + assert (fails_with d (outgoing d w POST
                  ("/context/" +:+ num_to_string entryId +:+ "/analyze/") [] JUndefined)
                  (status_error code data)) as Hfails.
        { left. exists code, data. split; [done|]. split; [|done].
          intros [Hlo%Z.leb_le Hhi%Z.ltb_lt]. by rewrite Hlo, Hhi in Hcode. }
        by destruct (Hfailed _ Hfails) as [-> ->].
    - assert (fails_with d (outgoing d w POST
                ("/context/" +:+ num_to_string entryId +:+ "/analyze/") [] JUndefined)
                network_error) as Hfails by by right.
      by destruct (Hfailed _ Hfails) as [-> ->]. }
  split; [|split].
  - intros code data success Hanswer Hok Hsuccess.
    specialize (Haccepted code data success Hanswer Hok Hsuccess).
    destruct (truthy success) eqn:Htruthy.
    + by destruct Haccepted as [-> ->].
    + apply Hstop; [by apply or_text_truthy | done].
  - intros code data Hanswer Hok Hdata.
    apply Hstop; [done|]. by apply (Hnull code data).
  - intros e Hfails. apply Hstop; [done|]. by apply (Hfailed e).
Qed.

End ContextPanel.

(** ** Concrete runs of the further properties *)

Section MoreWitnesses.
Import TaskHooks CategoryHooks Matrix QueryProvider ReadHooks MutationRun.

Lemma requests_carry_the_stored_token_witness :
  let r := outgoing offline signed_in GET "/tasks/stats/" [] JUndefined in
  r ∈ sent_by (invoke Tasks_getStats) offline signed_in /\
  req_baseURL r = "http://localhost:8000/api" /\
  req_headers r !! "Authorization" = Some "Bearer a1".
Proof.
  intros r.
  assert (Hin : r ∈ sent_by (invoke Tasks_getStats) offline signed_in)
    by (apply list_elem_of_singleton; reflexivity).
  destruct (requests_carry_the_stored_token Tasks_getStats offline signed_in r Hin)
    as (Hbase & Hauth & _).
  split; [exact Hin|]. split; [exact Hbase|]. apply Hauth.
  exists "a1". split; [reflexivity|]. split; [discriminate | reflexivity].
Defined.

Lemma failures_propagate_untouched_witness :
  let r := outgoing unavailable signed_in POST "/tasks/7/complete/" [] JUndefined in
  sent_by (invoke (Tasks_completeTask 7)) unavailable signed_in = [r] /\
  backend unavailable r = Responded 503 (JObj []) /\
  ~ is_success 503 /\
  invoke (Tasks_completeTask 7) unavailable signed_in =
    (Thrown (status_error 503 (JObj [])),
     {| localStorage := localStorage signed_in; network := [r] |}).
Proof.
  intros r.
  assert (Hno : ~ is_success 503) by (unfold is_success; lia).
  split; [reflexivity|]. split; [reflexivity|]. split; [exact Hno|].
  exact (proj1 (failures_propagate_untouched (Tasks_completeTask 7) unavailable
                  signed_in r eq_refl) 503 (JObj []) eq_refl Hno).
Defined.

Lemma successful_calls_return_the_body_witness :
  let r := outgoing paging signed_in GET "/tasks/today/" [] JUndefined in
  sent_by (invoke Tasks_getTodayTasks) paging signed_in = [r] /\
  is_success 200 /\
  returns_body Tasks_getTodayTasks = true /\
  invoke Tasks_getTodayTasks paging signed_in =
    (Ok (JObj [("count", JNum 1); ("results", JArr [JStr "Work"])]),
     {| localStorage := localStorage signed_in; network := [r] |}).
Proof.
  intros r.
  assert (Hok : is_success 200) by (unfold is_success; lia).
  split; [reflexivity|]. split; [exact Hok|]. split; [reflexivity|].
  exact (proj1 (successful_calls_return_the_body Tasks_getTodayTasks paging signed_in r
                  200 _ eq_refl eq_refl Hok) eq_refl).
Defined.

Lemma getCategories_unwraps_pages_witness :
  is_success 200 /\
  (categoriesApi.getCategories paging empty_world).1 = Ok (JArr [JStr "Work"]).
Proof.
  assert (Hok : is_success 200) by (unfold is_success; lia).
  split; [exact Hok|].
  exact (proj1 (getCategories_unwraps_pages paging empty_world 200 _ eq_refl Hok)
           [("count", JNum 1); ("results", JArr [JStr "Work"])] [JStr "Work"]
           eq_refl eq_refl).
Defined.

Lemma login_authenticates_later_calls_witness :
  let w1 := (authApi.login "ada" "secret1" token_issuer empty_world).2 in
  is_success 200 /\
  localStorage w1 !! "access_token" = Some "a1" /\
  localStorage w1 !! "refresh_token" = Some "r1" /\
  DashboardPage.auth_guard (localStorage w1) = [].
Proof.
  intros w1.
  assert (Hok : is_success 200) by (unfold is_success; lia).
  destruct (login_authenticates_later_calls "ada" "secret1" token_issuer empty_world
              200 (JObj [("access", JStr "a1"); ("refresh", JStr "r1")])
              eq_refl Hok ltac:(discriminate) ltac:(discriminate))
    as (_ & Haccess & Hrefresh & _ & Hlater).
  split; [exact Hok|]. split; [exact Haccess|]. split; [exact Hrefresh|].
  exact (proj1 (Hlater ltac:(discriminate))).
Defined.

Lemma signup_submission_outcome_witness :
  SignupPage.password matching_form = SignupPage.confirmPassword matching_form /\
  SignupPage.pushed (SignupPage.handleSubmit token_issuer matching_form empty_world) =
    ["/login"] /\
  SignupPage.loading
    (SignupPage.state_after (SignupPage.handleSubmit token_issuer matching_form empty_world)) =
    false.
Proof.
  destruct (signup_submission_outcome token_issuer matching_form empty_world eq_refl)
    as (_ & Hloading & _ & Hpushed & _).
  split; [reflexivity|]. split; [|exact Hloading].
  apply Hpushed. exists 200, (JObj [("access", JStr "a1"); ("refresh", JStr "r1")]).
  split; [reflexivity|]. unfold is_success. lia.
Defined.

Lemma read_fetch_attempts_witness :
  let r := outgoing unavailable signed_in GET "/tasks/stats/" [] JUndefined in
  (4 <= 5)%nat /\
  sent_by (queryFn useTaskStats) unavailable signed_in = [r] /\
  fails_with unavailable r (status_error 503 (JObj [])) /\
  fetch 5 useTaskStats unavailable signed_in =
    (Some (Thrown (status_error 503 (JObj []))),
     {| localStorage := localStorage signed_in; network := [r; r; r; r] |}).
Proof.
  intros r.
  assert (Hfuel : (4 <= 5)%nat) by lia.
  assert (Hfails : fails_with unavailable r (status_error 503 (JObj []))).
  { left. exists 503, (JObj []). split; [reflexivity|].
    split; [unfold is_success; lia | reflexivity]. }
  split; [exact Hfuel|]. split; [reflexivity|]. split; [exact Hfails|].
  apply (proj2 (proj2 (read_fetch_attempts 5 useTaskStats unavailable signed_in r
                         Hfuel eq_refl)) _ Hfails).
  intros resp [= <-]. cbn [status]. lia.
Defined.

Lemma task_mutations_keep_cached_data_witness :
  partialMatchKey taskKeys.stats taskKeys.details = false /\
  exists q',
    queries (onSuccess 9000 (CompletedTask report_task_done) dashboard_client)
      !! taskKeys.stats = Some q' /\
    state_data q' = Some (DOpaque "stats") /\
    dataUpdatedAt q' = 1000 /\
    isInvalidated q' = true.
Proof.
  split; [reflexivity|].
  destruct (proj1 (task_mutations_keep_cached_data 9000 (CompletedTask report_task_done)
                     dashboard_client taskKeys.stats eq_refl)
              (cached (DOpaque "stats") 1000) eq_refl)
    as (q' & Hq' & Hdata & Hat & Hflag).
  exists q'. split; [exact Hq'|]. split; [exact Hdata|]. split; [exact Hat|].
  apply Hflag. right. reflexivity.
Defined.

Lemma task_mutation_lifecycle_witness :
  let r := outgoing task_store signed_in POST "/tasks/7/complete/" [] JUndefined in
  (1 <= 1)%nat /\
  sent_by (mutationFn (MutateComplete 7)) task_store signed_in = [r] /\
  is_success 200 /\
  TaskJson.task_of_json report_task_json = Some report_task /\
  mutate 1 9000 (MutateComplete 7) task_store signed_in dashboard_client =
  Done {| localStorage := localStorage signed_in; network := [r] |}
       (onSuccess 9000 (CompletedTask report_task) dashboard_client).
Proof.
  intros r.
  assert (Hfuel : (1 <= 1)%nat) by lia.
  assert (Hok : is_success 200) by (unfold is_success; lia).
  split; [exact Hfuel|]. split; [reflexivity|]. split; [exact Hok|].
  split; [reflexivity|].
  exact (proj2 (proj1 (proj2 (proj2 (task_mutation_lifecycle 1 9000 (MutateComplete 7)
                   task_store signed_in dashboard_client r Hfuel eq_refl)
                 200 report_task_json eq_refl Hok)) report_task eq_refl)).
Defined.

Lemma category_list_compositions_witness :
  category_list_is categories_client (Some [work; home]) /\
  Forall (fun x => cat_id x ≠ 5) [work; home] /\
  category_list_is (useDeleteCategory_onSuccess 9000 5 categories_client).2
    (Some [work; home]).
Proof.
  assert (Hfresh : Forall (fun x => cat_id x ≠ 5) [work; home])
    by (repeat constructor; discriminate).
  split; [reflexivity|]. split; [exact Hfresh|].
  exact (proj1 (proj2 (proj2 (category_list_compositions 9000 9500 categories_client
                                [work; home] eq_refl))) 5 Hfresh).
Defined.

Lemma truncateText_shape_witness :
  0 <= 6 /\
  Z.of_nat (length (TextUtils.truncateText padded_text 6)) <= 6 + 3 /\
  TextUtils.truncateText padded_text 6 = [97; 98; 46; 46; 46]%N.
Proof.
  assert (Hmax : 0 <= 6) by lia.
  split; [exact Hmax|].
  split; [exact (proj1 (truncateText_shape padded_text 6 Hmax))|reflexivity].
Defined.

Lemma login_page_submission_witness :
  let s := LoginPage.handleSubmit_to "/dashboard" token_issuer login_form empty_world in
  is_success 200 /\
  LoginPage.pushed s = ["/dashboard"] /\
  LoginPage.error (LoginPage.state_after s) = JStr "" /\
  localStorage (LoginPage.world_after s) !! "access_token" = Some "a1" /\
  localStorage (LoginPage.world_after s) !! "refresh_token" = Some "r1".
Proof.
  intros s.
  assert (Hok : is_success 200) by (unfold is_success; lia).
  split; [exact Hok|].
  exact (proj1 (proj2 (proj2 (login_page_submission "/dashboard" token_issuer login_form
                                empty_world)))
           200 (JObj [("access", JStr "a1"); ("refresh", JStr "r1")])
           eq_refl Hok ltac:(discriminate) ltac:(discriminate)).
Defined.

Lemma login_failure_display_witness :
  let err := status_error 400 (JObj [("detail", JStr "No active account")]) in
  truthy (opt_prop (Utils.response_data err) "detail") = true /\
  LoginPage.render_error (LoginPage.error_of_failure err) =
    Some (JStr "No active account").
Proof.
  intros err. split; [reflexivity|].
  exact (proj1 (login_failure_display err) eq_refl).
Defined.

Lemma detail_read_after_mutation_witness :
  written_task (UpdatedTask report_task) = Some report_task /\
  id report_task ≠ 0 /\
  9000 + 5 * 60 * 1000 <= 400000 /\
  fetches_on_mount (useTask 7)
    (queries (onSuccess 9000 (UpdatedTask report_task) dashboard_client)) 400000 = true.
Proof.
  assert (Hid : id report_task ≠ 0) by discriminate.
  assert (Hlate : 9000 + 5 * 60 * 1000 <= 400000) by lia.
  split; [reflexivity|]. split; [exact Hid|]. split; [exact Hlate|].
  exact (proj2 (proj1 (detail_read_after_mutation 9000 400000 (UpdatedTask report_task)
                         dashboard_client) report_task eq_refl Hid) Hlate).
Defined.

Lemma read_hooks_have_separate_entries_witness :
  useTaskStats ≠ useTodayTasks /\
  plain_key useTodayTasks = true /\
  invalidateQueries (queryKey useTodayTasks) (queries dashboard_client)
    !! queryKey useTaskStats =
  queries dashboard_client !! queryKey useTaskStats.
Proof.
  assert (Hne : useTaskStats ≠ useTodayTasks) by discriminate.
  split; [exact Hne|]. split; [reflexivity|].
  exact (proj1 (proj2 (proj1 (proj2 (proj2
                 (read_hooks_have_separate_entries useTaskStats useTodayTasks)))
                 eq_refl) Hne (queries dashboard_client))).
Defined.

Lemma category_mutations_leave_other_keys_witness :
  taskKeys.stats ≠ categoryKeys.lists /\
  queries (useCreateCategory_onSuccess 9000 work dashboard_client).2 !! taskKeys.stats =
  queries dashboard_client !! taskKeys.stats.
Proof.
  assert (Hne : taskKeys.stats ≠ categoryKeys.lists) by discriminate.
  split; [exact Hne|].
  exact (proj1 (proj1 (category_mutations_leave_other_keys 9000 dashboard_client
                         taskKeys.stats) Hne) work).
Defined.

Lemma card_description_and_enhance_witness :
  TaskCard.shows_enhance_button report_task = true /\
  TaskCardView.shown_description report_task = "Quarterly numbers" /\
  TaskCardView.shown_description report_task_enhanced =
    "Collect the quarterly numbers and write them up" /\
  TaskCard.shows_enhance_button report_task_enhanced = false.
Proof.
  split; [reflexivity|].
  split; [exact (proj1 (card_description_and_enhance report_task) eq_refl)|].
  destruct (proj1 (proj2 (card_description_and_enhance report_task_enhanced))
              "Collect the quarterly numbers and write them up" eq_refl
              ltac:(discriminate))
    as (Hshown & _ & Hbutton).
  split; [exact Hshown | exact Hbutton].
Defined.

Lemma bulk_process_requests_witness :
  let run := AIContextAnalyzer.handleBulkProcess (fun _ => []) processing waiting_panel
               signed_in in
  AIContextAnalyzer.unprocessedEntries waiting_panel ≠ [] /\
  is_success 200 /\
  network run.2 =
    [outgoing processing signed_in POST "/context/bulk_process/" []
       (JObj [("entry_ids", JArr [JNum 4; JNum 9])]);
     outgoing processing signed_in GET "/context/unprocessed/" [] JUndefined] /\
  AIContextAnalyzer.error run.1 = None /\
  AIContextAnalyzer.queuedResults run.1 = [JArr [JStr "summary"]] /\
  AIContextAnalyzer.unprocessedEntries run.1 = [].
Proof.
  intros run.
  assert (Hwaiting : AIContextAnalyzer.unprocessedEntries waiting_panel ≠ [])
    by discriminate.
  assert (Hok : is_success 200) by (unfold is_success; lia).
  split; [exact Hwaiting|]. split; [exact Hok|].
  exact (proj1 (proj2 (proj2 (proj2 (bulk_process_requests (fun _ => []) processing
                                       waiting_panel signed_in) Hwaiting)))
           200 (JObj [("success", JBool true); ("results", JArr [JStr "summary"])])
           (JBool true) eq_refl Hok eq_refl).
Defined.

Lemma analyze_single_requests_witness :
  let run := AIContextAnalyzer.handleAnalyzeSingle (fun _ => []) 4 unavailable waiting_panel
               signed_in in
  fails_with unavailable (outgoing unavailable signed_in POST "/context/4/analyze/" []
                            JUndefined) (status_error 503 (JObj [])) /\
  network run.2 =
    [outgoing unavailable signed_in POST "/context/4/analyze/" [] JUndefined] /\
  AIContextAnalyzer.error run.1 = Some (JStr "Failed to analyze context entry") /\
  AIContextAnalyzer.queuedResults run.1 = [] /\
  AIContextAnalyzer.unprocessedEntries run.1 = [4; 9].
Proof.
  intros run.
  assert (Hfails : fails_with unavailable
            (outgoing unavailable signed_in POST "/context/4/analyze/" [] JUndefined)
            (status_error 503 (JObj []))).
  { left. exists 503, (JObj []). split; [reflexivity|].
    split; [unfold is_success; lia | reflexivity]. }
  split; [exact Hfails|].
  destruct (proj2 (proj2 (proj2 (proj2 (analyze_single_requests (fun _ => []) 4 unavailable
                                          waiting_panel signed_in)))) _ Hfails)
    as (Hnet & Herror & _ & Hqueued & Hentries).
  split; [exact Hnet|]. split; [exact Herror|]. split; [exact Hqueued | exact Hentries].
Defined.

End MoreWitnesses.
